(** * Evolve: chromosome decoding, creature growth and mutation

    A shallow embedding of [creature.py]: the bit-field decoder of a
    chromosome, the pen (turtle) operations the growth algorithm issues,
    the two-phase [Creature.display], and [Genotype.mutatedCopy] over a
    store of objects with identity. *)

From Stdlib Require Import ZArith Lia Bool.
From stdpp Require Import base option list gmap strings.

Local Open Scope Z_scope.

(** ** A state monad for code that threads a mutable object *)

Definition St (S A : Type) : Type := S -> A * S.

Definition ret {S A} (a : A) : St S A := fun s => (a, s).

Definition bind {S A B} (m : St S A) (k : A -> St S B) : St S B :=
  fun s => let (a, s') := m s in k a s'.

Declare Scope st_scope.
Delimit Scope st_scope with st.
Notation "x <- m ;; k" := (bind m (fun x => k))
  (at level 100, m at next level, right associativity) : st_scope.
Notation "m ;; k" := (bind m (fun _ => k))
  (at level 100, right associativity) : st_scope.

(** ** The random number source

    [random.randint(a, b)] draws an integer in [a..b].  The source is an
    arbitrary infinite sequence of raw draws and a cursor; every outcome
    of the generator is some such sequence. *)

Record Rng := { draws : nat -> Z; cursor : nat }.

Definition randint (a b : Z) : St Rng Z :=
  fun r => (a + draws r (cursor r) mod (b - a + 1),
            {| draws := draws r; cursor := S (cursor r) |}).

(** ** The drawing cursor

    The pen is Python's turtle, which is not part of the repository.  Its
    plane is taken as a parameter: coordinates with their order and the
    integer offsets the bounds test applies, headings, the point reached by
    moving a distance along a heading, and turning by a signed number of
    degrees (positive is counter-clockwise, as [left]).  Reading a position
    or heading back after setting it returns what was set. *)

Class Plane := {
  coord : Type;
  angle : Type;
  coord_le : coord -> coord -> bool;
  coord_add : coord -> Z -> coord;
  coord_sub : coord -> Z -> coord;
  advance : coord * coord -> angle -> Z -> coord * coord;
  rotate : angle -> Z -> angle
}.

(** Exact arithmetic of the plane: moving by zero stays in place and two
    successive moves along one heading add up. *)
Class ExactPlane (P : Plane) : Prop := {
  advance_0 : forall p a, advance p a 0 = p;
  advance_add : forall p a d1 d2,
    advance (advance p a d1) a d2 = advance p a (d1 + d2)
}.

Section Drawing.
Context {P : Plane}.

(** What drawing leaves on the screen. *)
Inductive Mark :=
| Stroke (start finish : coord * coord) (color : string) (w : Z)
| Dot (center : coord * coord) (size : Z) (color : string)
| Circle (start : coord * coord) (radius : Z) (color : string) (w : Z)
| BeginFill
| EndFill.

(** Modelled from the spec: the drawing cursor is external to the source
    file.  It has a position and a heading that can be read and set, a pen
    that is up or down, a stroke colour, a fill colour and a stroke width;
    the canvas records what has been drawn, in order. *)
Record Pen := {
  position : coord * coord;
  orientation : angle;
  isdown : bool;
  penColor : string;
  penFill : string;
  penWidth : Z;
  canvas : list Mark
}.

Definition draw (m : Mark) (pen : Pen) : Pen :=
  {| position := position pen; orientation := orientation pen;
     isdown := isdown pen; penColor := penColor pen;
     penFill := penFill pen; penWidth := penWidth pen;
     canvas := canvas pen ++ [m] |}.

Definition xcor : St Pen coord := fun pen => (fst (position pen), pen).
Definition ycor : St Pen coord := fun pen => (snd (position pen), pen).

(** [pen.heading()] *)
Definition getheading : St Pen angle := fun pen => (orientation pen, pen).

Definition penup : St Pen unit := fun pen =>
  (tt, {| position := position pen; orientation := orientation pen;
          isdown := false; penColor := penColor pen;
          penFill := penFill pen; penWidth := penWidth pen;
          canvas := canvas pen |}).

Definition pendown : St Pen unit := fun pen =>
  (tt, {| position := position pen; orientation := orientation pen;
          isdown := true; penColor := penColor pen;
          penFill := penFill pen; penWidth := penWidth pen;
          canvas := canvas pen |}).

Definition moveto (q : coord * coord) (pen : Pen) : Pen :=
  let pen' :=
    {| position := q; orientation := orientation pen;
       isdown := isdown pen; penColor := penColor pen;
       penFill := penFill pen; penWidth := penWidth pen;
       canvas := canvas pen |} in
  if isdown pen
  then draw (Stroke (position pen) q (penColor pen) (penWidth pen)) pen'
  else pen'.

Definition setposition (x y : coord) : St Pen unit :=
  fun pen => (tt, moveto (x, y) pen).

Definition forward (distance : Z) : St Pen unit :=
  fun pen => (tt, moveto (advance (position pen) (orientation pen) distance) pen).

Definition setheading (a : angle) : St Pen unit := fun pen =>
  (tt, {| position := position pen; orientation := a;
          isdown := isdown pen; penColor := penColor pen;
          penFill := penFill pen; penWidth := penWidth pen;
          canvas := canvas pen |}).

Definition left (degrees : Z) : St Pen unit :=
  fun pen => setheading (rotate (orientation pen) degrees) pen.

Definition right (degrees : Z) : St Pen unit :=
  fun pen => setheading (rotate (orientation pen) (- degrees)) pen.

Definition pencolor (c : string) : St Pen unit := fun pen =>
  (tt, {| position := position pen; orientation := orientation pen;
          isdown := isdown pen; penColor := c;
          penFill := penFill pen; penWidth := penWidth pen;
          canvas := canvas pen |}).

Definition fillcolor (c : string) : St Pen unit := fun pen =>
  (tt, {| position := position pen; orientation := orientation pen;
          isdown := isdown pen; penColor := penColor pen;
          penFill := c; penWidth := penWidth pen;
          canvas := canvas pen |}).

Definition width (w : Z) : St Pen unit := fun pen =>
  (tt, {| position := position pen; orientation := orientation pen;
          isdown := isdown pen; penColor := penColor pen;
          penFill := penFill pen; penWidth := w;
          canvas := canvas pen |}).

(** [dot] marks the screen whether the pen is up or down. *)
Definition dot (size : Z) (c : string) : St Pen unit :=
  fun pen => (tt, draw (Dot (position pen) size c) pen).

(** [circle] traces a full circle and comes back to where it started,
    with the heading it started with; the trace shows when the pen is
    down. *)
Definition circle (radius : Z) : St Pen unit := fun pen =>
  (tt, if isdown pen
       then draw (Circle (position pen) radius (penColor pen) (penWidth pen)) pen
       else pen).

Definition begin_fill : St Pen unit := fun pen => (tt, draw BeginFill pen).
Definition end_fill : St Pen unit := fun pen => (tt, draw EndFill pen).

End Drawing.

(** ** PenPosition *)

Module PenPosition.
Section PenPosition.
Context {P : Plane}.

(** A saved pen position.  Every snapshot refers to the one pen, which is
    the state threaded through the operations below. *)
Record t := {
  chiralityRight : bool;
  xPosition : coord;
  yPosition : coord;
  heading : angle
}.

(** [PenPosition(pen, chiralityRight)]: the constructor saves the pen's
    position and heading ([savePosition]). *)
Definition __init__ (chiralityRight : bool) : St Pen t :=
  (x <- xcor ;; y <- ycor ;; h <- getheading ;;
   ret {| chiralityRight := chiralityRight;
          xPosition := x; yPosition := y; heading := h |})%st.

Definition restore (self : t) : St Pen unit :=
  (penup ;; setposition (xPosition self) (yPosition self) ;;
   setheading (heading self))%st.

Definition flipChirality (self : t) : t :=
  {| chiralityRight := negb (chiralityRight self);
     xPosition := xPosition self; yPosition := yPosition self;
     heading := heading self |}.

(** [clone]: a new snapshot is built on the same pen with the same
    chirality, which saves where the pen is now; its position and heading
    are then overwritten with those of [self]. *)
Definition clone (self : t) : St Pen t :=
  (clonedPenPosition <- __init__ (chiralityRight self) ;;
   ret {| chiralityRight := chiralityRight clonedPenPosition;
          xPosition := xPosition self; yPosition := yPosition self;
          heading := heading self |})%st.

End PenPosition.
End PenPosition.

(** ** CreaturePanel *)

Module CreaturePanel.
Section CreaturePanel.
Context {P : Plane}.

(** Modelled from the spec: the bounding region (the creature panel) is
    not in the source file.  It exposes four boundary coordinates, in the
    coordinate space of the pen, and a method yielding the canonical
    starting pen position for creature growth. *)
Record t := {
  interiorLeftX : coord;
  interiorBottomY : coord;
  interiorRightX : coord;
  interiorTopY : coord;
  startingPenPosition : PenPosition.t
}.

End CreaturePanel.
End CreaturePanel.

(** ** Chromosome: the gene decoder *)

Module Chromosome.

Definition _BRANCH_ANGLE_GENE_BITS : Z := 0x0000003F.
Definition _BRANCH_ANGLE_SHIFT_NUMBER : Z := 0.
Definition _LENGTH_GENE_BITS : Z := 0x000007C0.
Definition _LENGTH_SHIFT_NUMBER : Z := 6.
Definition _SYMMETRY_GENE_BITS : Z := 0x00003000.
Definition _SYMMETRY_SHIFT_NUMBER : Z := 12.
Definition _SYMMETRY_STRAIGHT_VALUE : Z := 0x0.
Definition _SYMMETRY_SAME_HANDED_VALUE : Z := 0x1.
Definition _SYMMETRY_OPPOSITE_HANDED_VALUE : Z := 0x2.
Definition _SYMMETRY_BILATERAL_VALUE : Z := 0x3.
Definition _BRANCH_COUNT_GENE_BITS : Z := 0x00030000.
Definition _BRANCH_COUNT_SHIFT_NUMBER : Z := 16.
Definition _SEGMENT_TERMINATION_GENE_BITS : Z := 0x00030000.
Definition _SEGMENT_TERMINATED : Z := 0x00000000.
Definition _SEGMENT_TERMINATION_PREVENT : Z := 0x00010000.
Definition _SHAPE_GENE_BITS : Z := 0x000C0000.
Definition _SHAPE_SHIFT_NUMBER : Z := 18.
Definition _SHAPE__LINE_VALUE : Z := 0.
Definition _SHAPE_DOT_VALUE : Z := 1.
Definition _SHAPE_CIRCLE_VALUE : Z := 2.
Definition _SHAPE_FILLED_CIRCLE_VALUE : Z := 3.
Definition _LINE_WIDTH_GENE_BITS : Z := 0x00300000.
Definition _LINE_WIDTH_SHIFT_NUMBER : Z := 20.
Definition _LINE_COLOR_GENE_BITS : Z := 0x07000000.
Definition _LINE_COLOR_SHIFT_NUMBER : Z := 24.
Definition _FILL_COLOR_GENE_BITS : Z := 0x70000000.
Definition _FILL_COLOR_SHIFT_NUMBER : Z := 28.

Definition _SEGMENT_COLORS : list string :=
  ["brown"; "red"; "orange"; "yellow"; "green"; "blue"; "purple"; "white"]%string.
Definition _MAX_COLORS : Z := 8.

(** [_SEGMENT_COLORS[offset]]: the offset is reduced modulo 8 before the
    lookup, so it is always in range; the default is never returned. *)
Definition segmentColor (offset : Z) : string :=
  default EmptyString (_SEGMENT_COLORS !! Z.to_nat offset).

(** A chromosome object: the index, the raw value and the attributes
    that [_interpretChromosomeValue] decodes from it. *)
Record t := {
  _index : nat;
  chromosomeValue : Z;
  branchAngle : Z;
  length : Z;
  symmetryBits : Z;
  branchCount : Z;
  terminated : bool;
  lineWidth : Z;
  lineColor : string;
  fillColor : string;
  shape : Z
}.

(** [_interpretChromosomeValue], run by the constructor on the stored
    value.  In Python [+] binds tighter than [>>], so the right-hand side
    of the [lineWidth] assignment parses as [(1 + (v & bits)) >> shift]. *)
Definition _interpretChromosomeValue (index : nat) (value : Z) : t :=
  {| _index := index;
     chromosomeValue := value;
     branchAngle :=
       Z.shiftr (Z.land value _BRANCH_ANGLE_GENE_BITS) _BRANCH_ANGLE_SHIFT_NUMBER;
     length := Z.shiftr (Z.land value _LENGTH_GENE_BITS) _LENGTH_SHIFT_NUMBER;
     symmetryBits :=
       Z.shiftr (Z.land value _SYMMETRY_GENE_BITS) _SYMMETRY_SHIFT_NUMBER;
     branchCount :=
       Z.shiftr (Z.land value _BRANCH_COUNT_GENE_BITS) _BRANCH_COUNT_SHIFT_NUMBER;
     terminated :=
       Z.eqb (Z.land value _SEGMENT_TERMINATION_GENE_BITS) _SEGMENT_TERMINATED;
     lineWidth :=
       Z.shiftr (1 + Z.land value _LINE_WIDTH_GENE_BITS) _LINE_WIDTH_SHIFT_NUMBER;
     lineColor :=
       segmentColor
         (Z.shiftr (Z.land value _LINE_COLOR_GENE_BITS) _LINE_COLOR_SHIFT_NUMBER
          mod _MAX_COLORS);
     fillColor :=
       segmentColor
         (Z.shiftr (Z.land value _FILL_COLOR_GENE_BITS) _FILL_COLOR_SHIFT_NUMBER
          mod _MAX_COLORS);
     shape := Z.shiftr (Z.land value _SHAPE_GENE_BITS) _SHAPE_SHIFT_NUMBER |}.

(** [Chromosome(index, chromosomeValue)]: with no value given, a random
    32-bit value is drawn and the termination-prevent bit is set. *)
Definition __init__ (index : nat) (chromosomeValue : option Z) : St Rng t :=
  match chromosomeValue with
  | None =>
      (value <- randint 0 0xFFFFFFFF ;;
       ret (_interpretChromosomeValue index
              (Z.lor value _SEGMENT_TERMINATION_PREVENT)))%st
  | Some value => ret (_interpretChromosomeValue index value)
  end.

(** The 2-bit field at bits 20-21 of a value, shifted down. *)
Definition lineWidthField (value : Z) : Z :=
  Z.land (Z.shiftr value 20) 3.

Section Growth.
Context {P : Plane}.

(** The loop of the straight case: record the pen position, then move
    forward by the segment length. *)
Fixpoint straightBranches (count : nat) (self : t) (chirality : bool)
  : St Pen (list PenPosition.t) :=
  match count with
  | O => ret []
  | S count' =>
      (child <- PenPosition.__init__ chirality ;;
       forward (length self) ;;
       children <- straightBranches count' self chirality ;;
       ret (child :: children))%st
  end.

(** The loop of a handed pass: turn by the branch angle to the side the
    chirality names, then record the pen position. *)
Fixpoint angledBranches (count : nat) (self : t) (chirality : bool)
  : St Pen (list PenPosition.t) :=
  match count with
  | O => ret []
  | S count' =>
      ((if chirality then right (branchAngle self) else left (branchAngle self)) ;;
       child <- PenPosition.__init__ chirality ;;
       children <- angledBranches count' self chirality ;;
       ret (child :: children))%st
  end.

Definition childSegmentPositions (self : t)
  (priorSegmentEndingPenPosition : PenPosition.t) : St Pen (list PenPosition.t) :=
  let startingchiralityRight :=
    PenPosition.chiralityRight priorSegmentEndingPenPosition in
  (PenPosition.restore priorSegmentEndingPenPosition ;;
   if negb (terminated self) then
     if symmetryBits self =? _SYMMETRY_STRAIGHT_VALUE then
       PenPosition.restore priorSegmentEndingPenPosition ;;
       straightBranches (Z.to_nat (branchCount self)) self startingchiralityRight
     else
       same <-
         (if negb (Z.land (symmetryBits self) _SYMMETRY_SAME_HANDED_VALUE =? 0)
          then
            PenPosition.restore priorSegmentEndingPenPosition ;;
            angledBranches (Z.to_nat (branchCount self)) self
              startingchiralityRight
          else ret []) ;;
       opposite <-
         (if negb (Z.land (symmetryBits self) _SYMMETRY_OPPOSITE_HANDED_VALUE =? 0)
          then
            PenPosition.restore priorSegmentEndingPenPosition ;;
            angledBranches (Z.to_nat (branchCount self)) self
              (negb startingchiralityRight)
          else ret []) ;;
       ret (same ++ opposite)
   else ret [])%st.

Definition segmentOutOfBounds (self : t)
  (creaturePanel : option CreaturePanel.t) (penPosition : option PenPosition.t)
  : St Pen bool :=
  match creaturePanel, penPosition with
  | Some panel, Some start =>
      let radius := Z.shiftr (length self) 1 in
      (PenPosition.restore start ;;
       bounds <-
         (if shape self =? _SHAPE__LINE_VALUE then
            forward (length self) ;;
            ret (CreaturePanel.interiorLeftX panel,
                 CreaturePanel.interiorBottomY panel,
                 CreaturePanel.interiorRightX panel,
                 CreaturePanel.interiorTopY panel)
          else
            forward radius ;;
            ret (coord_add (CreaturePanel.interiorLeftX panel) radius,
                 coord_add (CreaturePanel.interiorBottomY panel) radius,
                 coord_sub (CreaturePanel.interiorRightX panel) radius,
                 coord_sub (CreaturePanel.interiorTopY panel) radius)) ;;
       let '(leftX, bottomY, rightX, topY) := bounds in
       penX <- xcor ;;
       penY <- ycor ;;
       if coord_le penX leftX || coord_le rightX penX
          || coord_le penY bottomY || coord_le topY penY
       then ret true
       else
         (if negb (shape self =? _SHAPE__LINE_VALUE) then forward radius
          else ret tt) ;;
         ret false)%st
  | _, _ => ret true
  end.

Definition drawSingleSegment (self : t)
  (creaturePanel : option CreaturePanel.t) (penPosition : option PenPosition.t)
  : St Pen unit :=
  match creaturePanel, penPosition with
  | Some panel, Some start =>
      let radius := Z.shiftr (length self) 1 in
      (PenPosition.restore start ;;
       pencolor (lineColor self) ;;
       fillcolor (fillColor self) ;;
       width (lineWidth self) ;;
       (if shape self =? _SHAPE__LINE_VALUE then pendown
        else
          (if shape self =? _SHAPE_DOT_VALUE then
             forward radius ;;
             pendown ;;
             dot (length self) (lineColor self) ;;
             penup ;;
             forward radius
           else if shape self =? _SHAPE_CIRCLE_VALUE then
             right 90 ;;
             pendown ;;
             circle radius ;;
             left 90 ;;
             penup
           else if shape self =? _SHAPE_FILLED_CIRCLE_VALUE then
             right 90 ;;
             pendown ;;
             begin_fill ;;
             circle radius ;;
             end_fill ;;
             left 90 ;;
             penup
           else ret tt) ;;
          PenPosition.restore start) ;;
       forward (length self) ;;
       penup)%st
  | _, _ => ret tt
  end.

End Growth.

End Chromosome.

(** ** The object store

    Chromosomes and Python lists are objects with identity: a genotype
    refers to a list object, whose items refer to chromosome objects.  The
    store maps addresses to objects; building an object takes an address
    that is not yet in use. *)

Definition addr := positive.

Inductive Obj :=
| ChromosomeObj (c : Chromosome.t)
| ListObj (items : list addr).

Record Mem := { objects : gmap addr Obj; rng : Rng }.

(** Code over the store can raise ([None]): an index out of range.  Reading
    an address that holds no object, or an object of the other kind, also
    gives [None]; Python has no such references. *)
Definition Run (A : Type) : Type := Mem -> option (A * Mem).

Definition unit_run {A} (a : A) : Run A := fun m => Some (a, m).

Definition bind_run {A B} (c : Run A) (k : A -> Run B) : Run B :=
  fun m => match c m with
           | Some (a, m') => k a m'
           | None => None
           end.

Definition raise {A} : Run A := fun _ => None.

Declare Scope run_scope.
Delimit Scope run_scope with run.
Notation "x <- m ;; k" := (bind_run m (fun x => k))
  (at level 100, m at next level, right associativity) : run_scope.
Notation "m ;; k" := (bind_run m (fun _ => k))
  (at level 100, right associativity) : run_scope.

Definition random {A} (draw : St Rng A) : Run A :=
  fun m => let (a, r) := draw (rng m) in
           Some (a, {| objects := objects m; rng := r |}).

Definition alloc (o : Obj) : Run addr :=
  fun m => let a := fresh (dom (objects m)) in
           Some (a, {| objects := <[a := o]> (objects m); rng := rng m |}).

Definition getChromosome (a : addr) : Run Chromosome.t :=
  fun m => match objects m !! a with
           | Some (ChromosomeObj c) => Some (c, m)
           | _ => None
           end.

Definition getList (a : addr) : Run (list addr) :=
  fun m => match objects m !! a with
           | Some (ListObj items) => Some (items, m)
           | _ => None
           end.

(** [l[i]] on a list object. *)
Definition getItem (l : addr) (i : nat) : Run addr :=
  (items <- getList l ;;
   match items !! i with
   | Some a => unit_run a
   | None => raise
   end)%run.

(** [l[i] = a] on a list object. *)
Definition setItem (l : addr) (i : nat) (a : addr) : Run unit :=
  (items <- getList l ;;
   if decide (i < List.length items)%nat then
     fun m => Some (tt, {| objects := <[l := ListObj (<[i := a]> items)]> (objects m);
                           rng := rng m |})
   else raise)%run.

(** ** Genotype *)

Module Genotype.

Definition CHROMOSOME_COUNT : nat := 4.
Definition MUTATION_RATE_MAXIMUM : Z := 2.

(** A genotype holds a reference to its list of chromosomes. *)
Record t := { chromosomes : addr }.

(** [[Chromosome(i) for i in range(CHROMOSOME_COUNT)]], before the list
    object is built. *)
Fixpoint randomChromosomes (indices : list nat) : Run (list addr) :=
  match indices with
  | [] => unit_run []
  | chromosomeIndex :: indices' =>
      (c <- random (Chromosome.__init__ chromosomeIndex None) ;;
       a <- alloc (ChromosomeObj c) ;;
       rest <- randomChromosomes indices' ;;
       unit_run (a :: rest))%run
  end.

Definition __init__ (chromosomes : option addr) : Run t :=
  let generate :=
    (items <- randomChromosomes (seq 0 CHROMOSOME_COUNT) ;;
     l <- alloc (ListObj items) ;;
     unit_run {| chromosomes := l |})%run in
  match chromosomes with
  | None => generate
  | Some l =>
      (items <- getList l ;;
       if negb (List.length items =? CHROMOSOME_COUNT)%nat then generate
       else unit_run {| chromosomes := l |})%run
  end.

(** [[self.chromosomes[i].chromosomeValue for i in range(...)]] *)
Fixpoint chromosomeValues (self : t) (indices : list nat) : Run (list Z) :=
  match indices with
  | [] => unit_run []
  | chromosomeIndex :: indices' =>
      (a <- getItem (chromosomes self) chromosomeIndex ;;
       c <- getChromosome a ;;
       rest <- chromosomeValues self indices' ;;
       unit_run (Chromosome.chromosomeValue c :: rest))%run
  end.

(** [[self.chromosomes[i] for i in range(...)]], before the list object is
    built. *)
Fixpoint chromosomeItems (self : t) (indices : list nat) : Run (list addr) :=
  match indices with
  | [] => unit_run []
  | chromosomeIndex :: indices' =>
      (a <- getItem (chromosomes self) chromosomeIndex ;;
       rest <- chromosomeItems self indices' ;;
       unit_run (a :: rest))%run
  end.

(** [values[i] ^= mask] on the local list of integers; the index is drawn
    in [0..CHROMOSOME_COUNT - 1] and the list has [CHROMOSOME_COUNT] items. *)
Definition flipBit (values : list Z) (chromosomeIndex : nat) (bit : Z) : list Z :=
  alter (fun v => Z.lxor v (Z.shiftl 1 bit)) chromosomeIndex values.

(** The mutation loop. *)
Fixpoint mutations (count : nat) (values : list Z) : Run (list Z) :=
  match count with
  | O => unit_run values
  | S count' =>
      (chromosomeIndex <- random (randint 0 (Z.of_nat CHROMOSOME_COUNT - 1)) ;;
       bit <- random (randint 0 31) ;;
       mutations count' (flipBit values (Z.to_nat chromosomeIndex) bit))%run
  end.

(** The replacement loop over the new list object. *)
Fixpoint replaceMutated (newChromosomes : addr) (values : list Z)
  (indices : list nat) : Run unit :=
  match indices with
  | [] => unit_run tt
  | chromosomeIndex :: indices' =>
      (a <- getItem newChromosomes chromosomeIndex ;;
       c <- getChromosome a ;;
       match values !! chromosomeIndex with
       | None => raise
       | Some value =>
           (if negb (Chromosome.chromosomeValue c =? value) then
              c' <- random (Chromosome.__init__ chromosomeIndex (Some value)) ;;
              a' <- alloc (ChromosomeObj c') ;;
              setItem newChromosomes chromosomeIndex a'
            else unit_run tt) ;;
           replaceMutated newChromosomes values indices'
       end)%run
  end.

Definition mutatedCopy (self : t) : Run t :=
  (mutatedChromosomeValues <- chromosomeValues self (seq 0 CHROMOSOME_COUNT) ;;
   mutationNumber <- random (randint 1 MUTATION_RATE_MAXIMUM) ;;
   mutatedChromosomeValues <-
     mutations (Z.to_nat mutationNumber) mutatedChromosomeValues ;;
   items <- chromosomeItems self (seq 0 CHROMOSOME_COUNT) ;;
   newChromosomes <- alloc (ListObj items) ;;
   replaceMutated newChromosomes mutatedChromosomeValues
     (seq 0 CHROMOSOME_COUNT) ;;
   __init__ (Some newChromosomes))%run.

(** The chromosomes a genotype refers to, read from the store. *)
Definition view (m : Mem) (self : t) : option (list Chromosome.t) :=
  match objects m !! chromosomes self with
  | Some (ListObj items) =>
      mapM (fun a => match objects m !! a with
                     | Some (ChromosomeObj c) => Some c
                     | _ => None
                     end) items
  | _ => None
  end.

End Genotype.

(** ** Creature *)

Module Creature.

Definition _MAX_CHROMOSOME_SEGMENTS : nat := 32.

Record t := { genotype : Genotype.t }.

Definition __init__ (genotype : option Genotype.t) : Run t :=
  match genotype with
  | None => (g <- Genotype.__init__ None ;; unit_run {| genotype := g |})%run
  | Some g => unit_run {| genotype := g |}
  end.

Definition mutatedChild (self : t) : Run t :=
  (g <- Genotype.mutatedCopy (genotype self) ;; __init__ (Some g))%run.

(** How a loop of [display] is left: it ran to its end (or to [break]),
    [display] returned a value from inside it, or an index was out of
    range. *)
Inductive Status :=
| Running
| Returned (result : bool)
| Raised.

(** [segmentPenPositions]: one list of pen positions per chromosome. *)
Abbreviation Table := (list (list PenPosition.t)).

Section Display.
Context {P : Plane}.

(** The row of a chromosome number; the table has one row for each number
    the loops range over. *)
Definition row (segmentPenPositions : Table) (chromosomeNumber : nat)
  : list PenPosition.t :=
  default [] (segmentPenPositions !! chromosomeNumber).

(** [segmentPenPositions[chromosomeNumber].extend(positions)] *)
Definition extend (segmentPenPositions : Table) (chromosomeNumber : nat)
  (positions : list PenPosition.t) : Table :=
  alter (fun r => r ++ positions) chromosomeNumber segmentPenPositions.

(** The loop over the pen positions of one chromosome: test the segment,
    take the pen position at its end, and sprout the next chromosome's
    positions from it. *)
Fixpoint validateSegments (chromosomes : list Chromosome.t)
  (creaturePanel : CreaturePanel.t) (chromosomeNumber : nat)
  (chromosomePenPositions : list PenPosition.t) (segmentPenPositions : Table)
  : St Pen (Status * Table) :=
  match chromosomePenPositions with
  | [] => ret (Running, segmentPenPositions)
  | segmentPenPosition :: rest =>
      match chromosomes !! chromosomeNumber with
      | None => ret (Raised, segmentPenPositions)
      | Some chromosome =>
          (outOfBounds <-
             Chromosome.segmentOutOfBounds chromosome
               (Some creaturePanel) (Some segmentPenPosition) ;;
           if outOfBounds then ret (Returned false, segmentPenPositions)
           else
             segmentEndPenPosition <-
               PenPosition.__init__
                 (PenPosition.chiralityRight segmentPenPosition) ;;
             if (chromosomeNumber <? Genotype.CHROMOSOME_COUNT - 1)%nat then
               match chromosomes !! (chromosomeNumber + 1)%nat with
               | None => ret (Raised, segmentPenPositions)
               | Some nextChromosome =>
                   children <-
                     Chromosome.childSegmentPositions nextChromosome
                       segmentEndPenPosition ;;
                   validateSegments chromosomes creaturePanel chromosomeNumber
                     rest
                     (extend segmentPenPositions (chromosomeNumber + 1) children)
               end
             else
               validateSegments chromosomes creaturePanel chromosomeNumber
                 rest segmentPenPositions)%st
      end
  end.

(** The loop over the chromosome numbers that validates and propagates. *)
Fixpoint validateChromosomes (chromosomes : list Chromosome.t)
  (creaturePanel : CreaturePanel.t) (chromosomeNumbers : list nat)
  (segmentPenPositions : Table) : St Pen (Status * Table) :=
  match chromosomeNumbers with
  | [] => ret (Running, segmentPenPositions)
  | chromosomeNumber :: rest =>
      let chromosomePenPositions := row segmentPenPositions chromosomeNumber in
      if (_MAX_CHROMOSOME_SEGMENTS <? List.length chromosomePenPositions)%nat
      then ret (Returned false, segmentPenPositions)
      else if (List.length chromosomePenPositions =? 0)%nat then
        if (chromosomeNumber =? 0)%nat
        then ret (Returned false, segmentPenPositions)
        else ret (Running, segmentPenPositions)
      else
        (r <- validateSegments chromosomes creaturePanel chromosomeNumber
                chromosomePenPositions segmentPenPositions ;;
         match r with
         | (Running, segmentPenPositions') =>
             validateChromosomes chromosomes creaturePanel rest
               segmentPenPositions'
         | _ => ret r
         end)%st
  end.

(** The drawing loops. *)
Fixpoint drawSegments (chromosomes : list Chromosome.t)
  (creaturePanel : CreaturePanel.t) (chromosomeNumber : nat)
  (chromosomePenPositions : list PenPosition.t) : St Pen Status :=
  match chromosomePenPositions with
  | [] => ret Running
  | segmentPenPosition :: rest =>
      match chromosomes !! chromosomeNumber with
      | None => ret Raised
      | Some chromosome =>
          (Chromosome.drawSingleSegment chromosome
             (Some creaturePanel) (Some segmentPenPosition) ;;
           drawSegments chromosomes creaturePanel chromosomeNumber rest)%st
      end
  end.

Fixpoint drawChromosomes (chromosomes : list Chromosome.t)
  (creaturePanel : CreaturePanel.t) (chromosomeNumbers : list nat)
  (segmentPenPositions : Table) : St Pen Status :=
  match chromosomeNumbers with
  | [] => ret Running
  | chromosomeNumber :: rest =>
      (r <- drawSegments chromosomes creaturePanel chromosomeNumber
              (row segmentPenPositions chromosomeNumber) ;;
       match r with
       | Running =>
           drawChromosomes chromosomes creaturePanel rest segmentPenPositions
       | _ => ret r
       end)%st
  end.

(** [display] on the chromosomes of the creature's genotype, together with
    the table of pen positions as it stands when [display] is left. *)
Definition growAndDraw (chromosomes : list Chromosome.t)
  (creaturePanel : CreaturePanel.t) : St Pen (Status * Table) :=
  let segmentPenPositions : Table := replicate Genotype.CHROMOSOME_COUNT [] in
  let startingPenPosition := CreaturePanel.startingPenPosition creaturePanel in
  match chromosomes !! 0%nat with
  | None => ret (Raised, segmentPenPositions)
  | Some first =>
      (children <- Chromosome.childSegmentPositions first startingPenPosition ;;
       r <- validateChromosomes chromosomes creaturePanel
              (seq 0 Genotype.CHROMOSOME_COUNT)
              (extend segmentPenPositions 0 children) ;;
       match r with
       | (Running, segmentPenPositions') =>
           d <- drawChromosomes chromosomes creaturePanel
                  (seq 0 Genotype.CHROMOSOME_COUNT) segmentPenPositions' ;;
           match d with
           | Running => ret (Returned true, segmentPenPositions')
           | _ => ret (d, segmentPenPositions')
           end
       | _ => ret r
       end)%st
  end.

(** [Creature.display]: [Some] of the boolean it returns, [None] when it
    raises. *)
Definition display (chromosomes : list Chromosome.t)
  (creaturePanel : CreaturePanel.t) : St Pen (option bool) :=
  (r <- growAndDraw chromosomes creaturePanel ;;
   match fst r with
   | Returned result => ret (Some result)
   | _ => ret None
   end)%st.

(** [display] called on a creature in the store. *)
Definition displayCreature (m : Mem) (self : t)
  (creaturePanel : CreaturePanel.t) : St Pen (option bool) :=
  match Genotype.view m (genotype self) with
  | Some chromosomes => display chromosomes creaturePanel
  | None => ret None
  end.

End Display.

End Creature.

(** ** A lattice plane for concrete runs

    Integer coordinates and headings in whole degrees.  Moving is exact
    along the four axis headings, which is all the concrete runs below
    use; along any other heading the pen of this plane stays in place. *)

Definition latticeDirection (heading : Z) : Z * Z :=
  if heading mod 360 =? 0 then (1, 0)
  else if heading mod 360 =? 90 then (0, 1)
  else if heading mod 360 =? 180 then (-1, 0)
  else if heading mod 360 =? 270 then (0, -1)
  else (0, 0).

Definition lattice : Plane := {|
  coord := Z;
  angle := Z;
  coord_le := Z.leb;
  coord_add := Z.add;
  coord_sub := Z.sub;
  advance := fun p heading distance =>
    (fst p + distance * fst (latticeDirection heading),
     snd p + distance * snd (latticeDirection heading));
  rotate := fun heading degrees => (heading + degrees) mod 360
|}.

Section Lattice.
#[local] Existing Instance lattice.

(** A pen on the lattice plane, up, at the origin, heading east, on an
    empty canvas. *)
Definition freshPen : @Pen lattice :=
  {| position := (0, 0); orientation := 0; isdown := false;
     penColor := "black"; penFill := "black"; penWidth := 1; canvas := [] |}.

(** A panel on the lattice plane whose starting position is the origin,
    heading up, right-handed. *)
Definition squarePanel (left bottom right top : Z) : @CreaturePanel.t lattice :=
  {| CreaturePanel.interiorLeftX := left;
     CreaturePanel.interiorBottomY := bottom;
     CreaturePanel.interiorRightX := right;
     CreaturePanel.interiorTopY := top;
     CreaturePanel.startingPenPosition :=
       {| PenPosition.chiralityRight := true;
          PenPosition.xPosition := 0;
          PenPosition.yPosition := 0;
          PenPosition.heading := 90 |} |}.

End Lattice.

(** The chromosomes a list of raw values decodes to. *)
Definition chromosomesOf (values : list Z) : list Chromosome.t :=
  imap Chromosome._interpretChromosomeValue values.

(** A raw value with the given branch angle, length, symmetry, branch count
    and shape fields, and zero elsewhere. *)
Definition gene (branchAngle length symmetry branchCount shape : Z) : Z :=
  Z.lor branchAngle
    (Z.lor (Z.shiftl length Chromosome._LENGTH_SHIFT_NUMBER)
       (Z.lor (Z.shiftl symmetry Chromosome._SYMMETRY_SHIFT_NUMBER)
          (Z.lor (Z.shiftl branchCount Chromosome._BRANCH_COUNT_SHIFT_NUMBER)
             (Z.shiftl shape Chromosome._SHAPE_SHIFT_NUMBER)))).

(** A store holding one genotype: four chromosome objects at addresses 1
    to 4 and their list at address 5. *)
Definition storeOf (values : list Z) (draws : nat -> Z) : Mem :=
  {| objects :=
       list_to_map
         (zip [1; 2; 3; 4]%positive (ChromosomeObj <$> chromosomesOf values)
          ++ [(5%positive, ListObj [1; 2; 3; 4]%positive)]);
     rng := {| draws := draws; cursor := 0 |} |}.

Definition storedGenotype : Genotype.t := {| Genotype.chromosomes := 5%positive |}.

(** ** Auxiliary notions for the statements *)

Section Poses.
Context {P : Plane}.

(** The point a pen position was saved at. *)
Definition savedPoint (s : PenPosition.t) : coord * coord :=
  (PenPosition.xPosition s, PenPosition.yPosition s).

(** A pen lifted and put at a point with a heading; its colours, width and
    canvas are kept. *)
Definition raised (q : coord * coord) (a : angle) (pen : Pen) : Pen :=
  {| position := q; orientation := a; isdown := false;
     penColor := penColor pen; penFill := penFill pen;
     penWidth := penWidth pen; canvas := canvas pen |}.

(** A pen that differs from [pen0] only by having been lifted and moved. *)
Definition Lifted (pen0 pen : Pen) : Prop :=
  exists q a, pen = raised q a pen0.

(** Pen code that keeps a lifted pen lifted: it only moves and turns. *)
Definition quiet {A} (m : St Pen A) : Prop :=
  forall pen0 pen, Lifted pen0 pen -> Lifted pen0 (m pen).2.

End Poses.

Section Mutations.

(** A flip: the index of the chromosome it targets and the bit it flips. *)
Definition Flip : Type := nat * Z.

Definition validFlip (f : Flip) : Prop :=
  (f.1 < Genotype.CHROMOSOME_COUNT)%nat /\ 0 <= f.2 <= 31.

(** The values after a sequence of flips, applied in order. *)
Definition applyFlips (values : list Z) (flips : list Flip) : list Z :=
  foldl (fun vs f => Genotype.flipBit vs f.1 f.2) values flips.

(** The bits of chromosome [i] that a sequence of flips changes: the
    exclusive-or of the masks of the flips that target [i]. *)
Definition flipMask (flips : list Flip) (i : nat) : Z :=
  foldr (fun f mask => if decide (f.1 = i) then Z.lxor (Z.shiftl 1 f.2) mask
                       else mask) 0 flips.

(** The flips that the mutation loop draws in [count] iterations: each
    time a chromosome index in [0..CHROMOSOME_COUNT - 1] and then a bit in
    [0..31]. *)
Fixpoint drawFlips (count : nat) : St Rng (list Flip) :=
  match count with
  | O => ret []
  | S count' =>
      (chromosomeIndex <- randint 0 (Z.of_nat Genotype.CHROMOSOME_COUNT - 1) ;;
       bit <- randint 0 31 ;;
       rest <- drawFlips count' ;;
       ret ((Z.to_nat chromosomeIndex, bit) :: rest))%st
  end.

(** The flips of one call of [mutatedCopy] on a random source: the number
    of mutations is drawn first, then the flips. *)
Definition drawnFlips (r : Rng) : list Flip :=
  ((mutationNumber <- randint 1 Genotype.MUTATION_RATE_MAXIMUM ;;
    drawFlips (Z.to_nat mutationNumber))%st r).1.

(** The number of positions at which two lists of values differ. *)
Definition differing (values values' : list Z) : nat :=
  List.length (filter (fun p : Z * Z => p.1 <> p.2) (zip values values')).

(** The store holds chromosome [c] at address [a]. *)
Definition holds (m : Mem) (a : addr) (c : Chromosome.t) : Prop :=
  objects m !! a = Some (ChromosomeObj c).

(** Chromosome [c] is what the constructor builds at index [i] from a raw
    value of 32 bits: its attributes are decoded from its raw value and
    its index is [i]. *)
Definition decodedAt (i : nat) (c : Chromosome.t) : Prop :=
  0 <= Chromosome.chromosomeValue c < 2 ^ 32
  /\ c = Chromosome._interpretChromosomeValue i (Chromosome.chromosomeValue c).

(** Four chromosomes, each decoded at its position in the list. *)
Definition wellFormed (chs : list Chromosome.t) : Prop :=
  List.length chs = Genotype.CHROMOSOME_COUNT
  /\ forall i c, chs !! i = Some c -> decodedAt i c.

End Mutations.

(** ** Auxiliary notions for the validation phase *)

Section Validated.
Context {P : Plane}.
Variable chromosomes : list Chromosome.t.
Variable panel : CreaturePanel.t.

(** A segment of chromosome [k] passes the bounds test. *)
Definition passes (k : nat) (s : PenPosition.t) : Prop :=
  forall c, chromosomes !! k = Some c ->
    exists pen0,
      (Chromosome.segmentOutOfBounds c (Some panel) (Some s) pen0).1 = false.

(** What holds when the loop over the chromosome numbers [n .. n + m - 1]
    is left: nothing was drawn; the rows up to [n] are as they were; the
    loop did not return [True] and, on four chromosomes, did not raise; if
    it ran on, every row from [n] has at most 32 segments, all in bounds;
    and if [g] is the first generation without segments, the loop returned
    [False] for [g = 0] and ran on for a later [g], with every row from
    [g] empty. *)
Definition validated (n m : nat) (table : Creature.Table) (pen : Pen)
  (st : Creature.Status) (table' : Creature.Table) (pen' : Pen) : Prop :=
  canvas pen' = canvas pen
  /\ (forall k, (k <= n)%nat -> Creature.row table' k = Creature.row table k)
  /\ st <> Creature.Returned true
  /\ (List.length chromosomes = 4%nat -> (n + m = 4)%nat ->
      st <> Creature.Raised)
  /\ (st = Creature.Running ->
      forall k, (n <= k)%nat ->
        (List.length (Creature.row table' k) <= 32)%nat
        /\ forall s c pen0,
             s ∈ Creature.row table' k -> chromosomes !! k = Some c ->
             (Chromosome.segmentOutOfBounds c (Some panel) (Some s) pen0).1
             = false)
  /\ (forall g,
        List.length chromosomes = 4%nat -> (n + m = 4)%nat ->
        (n <= g < 4)%nat ->
        (forall k, (n <= k < g)%nat ->
           (1 <= List.length (Creature.row table' k) <= 32)%nat
           /\ forall s, s ∈ Creature.row table' k -> passes k s) ->
        Creature.row table' g = [] ->
        (g = 0%nat -> st = Creature.Returned false)
        /\ (g <> 0%nat ->
            st = Creature.Running
            /\ forall k, (g <= k)%nat -> Creature.row table' k = [])).

End Validated.

(** ** Auxiliary notions for pen code *)

Section Painting.
Context {P : Plane}.

(** Pen code that, run on a lifted pen, gives a result and a final
    position and heading that do not depend on the pen, and leaves the pen
    lifted with its colours, width and canvas as they were. *)
Definition Uniform {A} (m : St Pen A) : Prop :=
  forall q a, exists x q' a',
    forall pen, m (raised q a pen) = (x, raised q' a' pen).

(** Pen code that, on any pen that is up, returns [x], leaves the pen up
    and appends exactly [marks] to the canvas. *)
Definition paints {A} (m : St Pen A) (x : A) (marks : list Mark) : Prop :=
  forall pen, isdown pen = false ->
    (m pen).1 = x
    /\ isdown (m pen).2 = false
    /\ canvas (m pen).2 = canvas pen ++ marks.

(** What drawing one segment of a chromosome from a saved pen position
    puts on the canvas. *)
Definition segmentMarks (c : Chromosome.t) (s : PenPosition.t) : list Mark :=
  let radius := Z.shiftr (Chromosome.length c) 1 in
  if Chromosome.shape c =? Chromosome._SHAPE__LINE_VALUE then
    [Stroke (savedPoint s)
       (advance (savedPoint s) (PenPosition.heading s) (Chromosome.length c))
       (Chromosome.lineColor c) (Chromosome.lineWidth c)]
  else if Chromosome.shape c =? Chromosome._SHAPE_DOT_VALUE then
    [Dot (advance (savedPoint s) (PenPosition.heading s) radius)
       (Chromosome.length c) (Chromosome.lineColor c)]
  else if Chromosome.shape c =? Chromosome._SHAPE_CIRCLE_VALUE then
    [Circle (savedPoint s) radius (Chromosome.lineColor c)
       (Chromosome.lineWidth c)]
  else if Chromosome.shape c =? Chromosome._SHAPE_FILLED_CIRCLE_VALUE then
    [BeginFill;
     Circle (savedPoint s) radius (Chromosome.lineColor c)
       (Chromosome.lineWidth c);
     EndFill]
  else [].

(** The marks of the segments of the chromosomes numbered [numbers], one
    chromosome after the other, each over its row of the table. *)
Definition creatureMarks (chromosomes : list Chromosome.t)
  (table : Creature.Table) (numbers : list nat) : list Mark :=
  flat_map
    (fun n => match chromosomes !! n with
              | Some c => flat_map (segmentMarks c) (Creature.row table n)
              | None => []
              end) numbers.

(** The pen positions that a segment of chromosome [c] at [s] sprouts for
    the next chromosome [c'], as the validation loop computes them: the
    bounds test is run, the pen position at the end of the segment is
    taken where the test left the pen, and the child positions of [c'] are
    computed from it. *)
Definition sprouted (c c' : Chromosome.t) (panel : CreaturePanel.t)
  (pen : Pen) (s : PenPosition.t) : list PenPosition.t :=
  let pen1 := (Chromosome.segmentOutOfBounds c (Some panel) (Some s) pen).2 in
  let segmentEndPenPosition :=
    (PenPosition.__init__ (PenPosition.chiralityRight s) pen1).1 in
  (Chromosome.childSegmentPositions c' segmentEndPenPosition pen1).1.

End Painting.

(** * Properties *)

(** ** The gene decoder *)

Section Decoder.

Lemma land_mask_low_bits (value mask n : Z) :
  0 <= n -> Z.land mask (Z.ones n) = 0 -> Z.land value mask mod 2 ^ n = 0.
Proof.
  intros Hn Hmask.
  rewrite <- Z.land_ones by assumption.
  rewrite <- Z.land_assoc, Hmask.
  apply Z.land_0_r.
Qed.

Lemma shiftr_succ_of_multiple (m n : Z) :
  0 < n -> m mod 2 ^ n = 0 -> Z.shiftr (1 + m) n = Z.shiftr m n.
Proof.
  intros Hn Hm.
  rewrite !Z.shiftr_div_pow2 by lia.
  assert (Hpos : 1 < 2 ^ n) by (apply Z.pow_gt_1; lia).
  pose proof (Z.div_mod m (2 ^ n) ltac:(lia)) as Hdiv.
  rewrite Hm, Z.add_0_r in Hdiv.
  symmetry. apply Z.div_unique with (r := 1); [lia |].
  rewrite Hdiv at 1. ring.
Qed.

Lemma lineWidth_decoded (index : nat) (value : Z) :
  Chromosome.lineWidth (Chromosome._interpretChromosomeValue index value)
  = Chromosome.lineWidthField value.
Proof.
  unfold Chromosome.lineWidthField. cbn [Chromosome.lineWidth
    Chromosome._interpretChromosomeValue].
  rewrite shiftr_succ_of_multiple.
  - rewrite Z.shiftr_land. reflexivity.
  - reflexivity.
  - apply land_mask_low_bits; [discriminate | reflexivity].
Qed.

Lemma lineWidthField_range (value : Z) :
  0 <= Chromosome.lineWidthField value <= 3.
Proof.
  unfold Chromosome.lineWidthField.
  change (Z.land (Z.shiftr value 20) 3)
    with (Z.land (Z.shiftr value 20) (Z.ones 2)).
  rewrite Z.land_ones by lia.
  pose proof (Z.mod_pos_bound (Z.shiftr value 20) (2 ^ 2) ltac:(lia)). lia.
Qed.

(** C2: the decoded [lineWidth] is the 2-bit field at bits 20-21 itself,
    in the range 0-3: the increment written in the source is lost to the
    shift, so the width is never the field plus 1. *)
Theorem lineWidth_is_field_without_increment (index : nat) (value : Z) :
  let c := Chromosome._interpretChromosomeValue index value in
  Chromosome.lineWidth c = Chromosome.lineWidthField value
  /\ 0 <= Chromosome.lineWidth c <= 3
  /\ Chromosome.lineWidth c <> Chromosome.lineWidthField value + 1.
Proof.
  cbv zeta. rewrite lineWidth_decoded.
  pose proof (lineWidthField_range value). lia.
Qed.

(** The branch count field of a value whose bit 16 is set. *)
Lemma branchCount_with_bit16 (w : Z) :
  Z.land (Z.lor w 1) 3 = 1 \/ Z.land (Z.lor w 1) 3 = 3.
Proof.
  destruct (Z.testbit w 1) eqn:Hbit; [right | left];
    apply Z.bits_inj'; intros n Hn;
    rewrite Z.land_spec, Z.lor_spec;
    destruct (decide (n = 0)) as [-> | Hn0];
    try (rewrite Z.bit0_odd; destruct (Z.odd w); reflexivity);
    destruct (decide (n = 1)) as [-> | Hn1];
    try (rewrite Hbit; reflexivity);
    rewrite (Z.bits_above_log2 3 n), (Z.bits_above_log2 1 n), andb_false_r
      by (simpl; lia); reflexivity.
Qed.

Lemma unexplicit_value_decoded (index : nat) (value : Z) :
  let c := Chromosome._interpretChromosomeValue index
             (Z.lor value Chromosome._SEGMENT_TERMINATION_PREVENT) in
  Z.testbit (Chromosome.chromosomeValue c) 16 = true
  /\ Chromosome.terminated c = false
  /\ (Chromosome.branchCount c = 1 \/ Chromosome.branchCount c = 3).
Proof.
  cbv zeta.
  cbn [Chromosome.chromosomeValue Chromosome.terminated Chromosome.branchCount
       Chromosome._interpretChromosomeValue].
  assert (Hbit : Z.testbit (Z.lor value Chromosome._SEGMENT_TERMINATION_PREVENT) 16
                 = true).
  { rewrite Z.lor_spec. apply orb_true_r. }
  split; [exact Hbit |]. split.
  - apply Z.eqb_neq. intros Hzero.
    assert (Hland : Z.testbit
              (Z.land (Z.lor value Chromosome._SEGMENT_TERMINATION_PREVENT)
                 Chromosome._SEGMENT_TERMINATION_GENE_BITS) 16 = true).
    { rewrite Z.land_spec, Hbit. reflexivity. }
    rewrite Hzero in Hland. discriminate.
  - rewrite Z.shiftr_land, Z.shiftr_lor.
    change (Z.shiftr Chromosome._SEGMENT_TERMINATION_PREVENT
              Chromosome._BRANCH_COUNT_SHIFT_NUMBER) with 1.
    change (Z.shiftr Chromosome._BRANCH_COUNT_GENE_BITS
              Chromosome._BRANCH_COUNT_SHIFT_NUMBER) with 3.
    apply branchCount_with_bit16.
Qed.

End Decoder.

(** ** The pen while it is up *)

Section PenFacts.
Context {P : Plane}.

Lemma raised_raised q a q' a' (pen : Pen) :
  raised q a (raised q' a' pen) = raised q a pen.
Proof. reflexivity. Qed.

Lemma restore_run (s : PenPosition.t) (pen : Pen) :
  PenPosition.restore s pen
  = (tt, raised (savedPoint s) (PenPosition.heading s) pen).
Proof. reflexivity. Qed.

Lemma forward_raised d q a (pen : Pen) :
  forward d (raised q a pen) = (tt, raised (advance q a d) a pen).
Proof. reflexivity. Qed.

Lemma left_raised d q a (pen : Pen) :
  left d (raised q a pen) = (tt, raised q (rotate a d) pen).
Proof. reflexivity. Qed.

Lemma right_raised d q a (pen : Pen) :
  right d (raised q a pen) = (tt, raised q (rotate a (- d)) pen).
Proof. reflexivity. Qed.

Lemma snapshot_raised chirality q a (pen : Pen) :
  PenPosition.__init__ chirality (raised q a pen)
  = ({| PenPosition.chiralityRight := chirality;
        PenPosition.xPosition := q.1; PenPosition.yPosition := q.2;
        PenPosition.heading := a |}, raised q a pen).
Proof. reflexivity. Qed.

Lemma bind_unfold {S A B} (m : St S A) (k : A -> St S B) s :
  bind m k s = k (m s).1 (m s).2.
Proof. unfold bind. destruct (m s). reflexivity. Qed.

Lemma bind_run_eq {S A B} (m : St S A) (k : A -> St S B) s a s' :
  m s = (a, s') -> bind m k s = k a s'.
Proof. unfold bind. intros ->. reflexivity. Qed.

(** The straight loop from a lifted pen: one child per iteration, the pen
    still lifted and on the same heading at the end. *)
Lemma straightBranches_run (c : Chromosome.t) chirality count :
  forall q a (pen : Pen),
  exists q',
    (Chromosome.straightBranches count c chirality (raised q a pen)).2
      = raised q' a pen
    /\ List.length
         (Chromosome.straightBranches count c chirality (raised q a pen)).1
       = count.
Proof.
  induction count as [| count IH]; intros q a pen.
  - exists q. split; reflexivity.
  - cbn [Chromosome.straightBranches].
    rewrite (bind_run_eq _ _ _ _ _ (snapshot_raised chirality q a pen)).
    rewrite (bind_run_eq _ _ _ _ _ (forward_raised _ q a pen)).
    destruct (IH (advance q a (Chromosome.length c)) a pen) as (q' & Hpen & Hlen).
    exists q'. unfold bind.
    destruct (Chromosome.straightBranches count c chirality _) as [kids pen'].
    cbn in *. split; [assumption | by rewrite Hlen].
Qed.

Lemma angledBranches_run (c : Chromosome.t) chirality count :
  forall q a (pen : Pen),
  exists a',
    (Chromosome.angledBranches count c chirality (raised q a pen)).2
      = raised q a' pen
    /\ List.length
         (Chromosome.angledBranches count c chirality (raised q a pen)).1
       = count.
Proof.
  induction count as [| count IH]; intros q a pen.
  - exists a. split; reflexivity.
  - cbn [Chromosome.angledBranches].
    set (a1 := if chirality then rotate a (- Chromosome.branchAngle c)
               else rotate a (Chromosome.branchAngle c)).
    assert (Hturn : (if chirality then right (Chromosome.branchAngle c)
                     else left (Chromosome.branchAngle c)) (raised q a pen)
                    = (tt, raised q a1 pen)).
    { subst a1. destruct chirality; reflexivity. }
    rewrite (bind_run_eq _ _ _ _ _ Hturn).
    rewrite (bind_run_eq _ _ _ _ _ (snapshot_raised chirality q a1 pen)).
    destruct (IH q a1 pen) as (a' & Hpen & Hlen).
    exists a'. unfold bind.
    destruct (Chromosome.angledBranches count c chirality _) as [kids pen'].
    cbn in *. split; [assumption | by rewrite Hlen].
Qed.

Lemma quiet_ret {A} (a : A) : quiet (ret a).
Proof. intros pen0 pen H. exact H. Qed.

Lemma quiet_bind {A B} (m : St Pen A) (k : A -> St Pen B) :
  quiet m -> (forall a, quiet (k a)) -> quiet (bind m k).
Proof.
  intros Hm Hk pen0 pen H. unfold bind.
  specialize (Hm pen0 pen H). destruct (m pen) as [a pen1].
  exact (Hk a pen0 pen1 Hm).
Qed.

Lemma quiet_if {A} (b : bool) (m1 m2 : St Pen A) :
  quiet m1 -> quiet m2 -> quiet (if b then m1 else m2).
Proof. destruct b; auto. Qed.

Lemma quiet_restore (s : PenPosition.t) : quiet (PenPosition.restore s).
Proof. intros pen0 pen (q & a & ->). eexists _, _. reflexivity. Qed.

Lemma quiet_forward d : quiet (forward d).
Proof. intros pen0 pen (q & a & ->). eexists _, _. reflexivity. Qed.

Lemma quiet_left d : quiet (left d).
Proof. intros pen0 pen (q & a & ->). eexists _, _. reflexivity. Qed.

Lemma quiet_right d : quiet (right d).
Proof. intros pen0 pen (q & a & ->). eexists _, _. reflexivity. Qed.

Lemma quiet_xcor : quiet xcor.
Proof. intros pen0 pen H. exact H. Qed.

Lemma quiet_ycor : quiet ycor.
Proof. intros pen0 pen H. exact H. Qed.

Lemma quiet_snapshot chirality : quiet (PenPosition.__init__ chirality).
Proof. intros pen0 pen H. exact H. Qed.

Create HintDb quiet.
#[local] Hint Resolve quiet_ret quiet_restore quiet_forward quiet_left
  quiet_right quiet_xcor quiet_ycor quiet_snapshot : quiet.
#[local] Hint Extern 2 (quiet (bind _ _)) => apply quiet_bind; [| intros ?] : quiet.
#[local] Hint Extern 2 (quiet (if _ then _ else _)) => apply quiet_if : quiet.

Lemma quiet_straightBranches (c : Chromosome.t) chirality count :
  quiet (Chromosome.straightBranches count c chirality).
Proof. induction count; cbn [Chromosome.straightBranches]; auto 10 with quiet. Qed.

Lemma quiet_angledBranches (c : Chromosome.t) chirality count :
  quiet (Chromosome.angledBranches count c chirality).
Proof. induction count; cbn [Chromosome.angledBranches]; auto 10 with quiet. Qed.

#[local] Hint Resolve quiet_straightBranches quiet_angledBranches : quiet.

Lemma Lifted_restore (s : PenPosition.t) (pen : Pen) :
  Lifted pen (PenPosition.restore s pen).2.
Proof. eexists _, _. reflexivity. Qed.

Lemma Lifted_canvas (pen0 pen : Pen) : Lifted pen0 pen -> canvas pen = canvas pen0.
Proof. intros (q & a & ->). reflexivity. Qed.

Lemma Lifted_trans (pen0 pen1 pen2 : Pen) :
  Lifted pen0 pen1 -> Lifted pen1 pen2 -> Lifted pen0 pen2.
Proof. intros (q & a & ->) (q' & a' & ->). eexists _, _. reflexivity. Qed.

Lemma Lifted_after_restore {A} (s : PenPosition.t) (k : St Pen A) (pen : Pen) :
  quiet k -> Lifted pen (bind (PenPosition.restore s) (fun _ => k) pen).2.
Proof.
  intros Hk. unfold bind.
  pose proof (Lifted_restore s pen) as H.
  destruct (PenPosition.restore s pen) as [u pen1]. exact (Hk pen pen1 H).
Qed.

(** [childSegmentPositions] leaves the pen lifted and draws nothing. *)
Lemma childSegmentPositions_Lifted (c : Chromosome.t) (s : PenPosition.t)
  (pen : Pen) :
  Lifted pen (Chromosome.childSegmentPositions c s pen).2.
Proof.
  unfold Chromosome.childSegmentPositions.
  apply Lifted_after_restore. auto 10 with quiet.
Qed.

(** [segmentOutOfBounds] leaves the pen lifted and draws nothing. *)
Lemma segmentOutOfBounds_Lifted (c : Chromosome.t)
  (panel : option CreaturePanel.t) (s : option PenPosition.t) (pen : Pen) :
  Lifted pen (Chromosome.segmentOutOfBounds c panel s pen).2
  \/ (Chromosome.segmentOutOfBounds c panel s pen = (true, pen)).
Proof.
  destruct panel as [panel |], s as [s |]; try (right; reflexivity).
  left. unfold Chromosome.segmentOutOfBounds.
  apply Lifted_after_restore.
  apply quiet_bind; [auto 10 with quiet |].
  intros [[[leftX bottomY] rightX] topY]. auto 10 with quiet.
Qed.

End PenFacts.

(** ** Child segment positions *)

Section ChildPositions.
Context {P : Plane}.

Lemma straightBranches_length (c : Chromosome.t) chirality count (pen : Pen) :
  List.length (Chromosome.straightBranches count c chirality pen).1 = count.
Proof.
  revert pen. induction count as [| count IH]; intros pen; [reflexivity |].
  cbn [Chromosome.straightBranches]. unfold bind at 1 2 3.
  destruct (PenPosition.__init__ chirality pen) as [child pen1].
  destruct (forward (Chromosome.length c) pen1) as [u pen2].
  specialize (IH pen2).
  destruct (Chromosome.straightBranches count c chirality pen2) as [kids pen3].
  cbn in *. by rewrite IH.
Qed.

Lemma angledBranches_length (c : Chromosome.t) chirality count (pen : Pen) :
  List.length (Chromosome.angledBranches count c chirality pen).1 = count.
Proof.
  revert pen. induction count as [| count IH]; intros pen; [reflexivity |].
  cbn [Chromosome.angledBranches]. unfold bind at 1 2 3.
  destruct ((if chirality then right (Chromosome.branchAngle c)
             else left (Chromosome.branchAngle c)) pen) as [u pen1].
  destruct (PenPosition.__init__ chirality pen1) as [child pen2].
  specialize (IH pen2).
  destruct (Chromosome.angledBranches count c chirality pen2) as [kids pen3].
  cbn in *. by rewrite IH.
Qed.

(** One handed pass of the branching case: it runs when its bit is set. *)
Lemma handedPass_length (c : Chromosome.t) (s : PenPosition.t) (bit : bool)
  chirality (pen : Pen) :
  List.length
    ((if bit then
        (PenPosition.restore s ;;
         Chromosome.angledBranches (Z.to_nat (Chromosome.branchCount c)) c
           chirality)%st
      else ret []) pen).1
  = if bit then Z.to_nat (Chromosome.branchCount c) else 0%nat.
Proof.
  destruct bit; [| reflexivity].
  unfold bind. destruct (PenPosition.restore s pen) as [u pen1].
  apply angledBranches_length.
Qed.

Lemma childSegmentPositions_length (c : Chromosome.t) (parent : PenPosition.t)
  (pen : Pen) :
  List.length (Chromosome.childSegmentPositions c parent pen).1
  = if Chromosome.terminated c then 0%nat
    else if Chromosome.symmetryBits c =? Chromosome._SYMMETRY_STRAIGHT_VALUE
    then Z.to_nat (Chromosome.branchCount c)
    else Nat.add
           (if negb (Z.land (Chromosome.symmetryBits c)
                       Chromosome._SYMMETRY_SAME_HANDED_VALUE =? 0)
            then Z.to_nat (Chromosome.branchCount c) else 0%nat)
           (if negb (Z.land (Chromosome.symmetryBits c)
                       Chromosome._SYMMETRY_OPPOSITE_HANDED_VALUE =? 0)
            then Z.to_nat (Chromosome.branchCount c) else 0%nat).
Proof.
  unfold Chromosome.childSegmentPositions. unfold bind at 1.
  destruct (PenPosition.restore parent pen) as [u pen1].
  destruct (Chromosome.terminated c); cbn [negb]; [reflexivity |].
  destruct (Chromosome.symmetryBits c =? _).
  - unfold bind. destruct (PenPosition.restore parent pen1) as [u' pen2].
    apply straightBranches_length.
  - rewrite !bind_unfold. cbn [ret fst]. rewrite length_app.
    by rewrite !handedPass_length.
Qed.

(** C7: no child positions for a terminated chromosome; for one that is
    not terminated, [2 * branchCount] positions when both handedness bits
    of the symmetry are set and [branchCount] when exactly one is. *)
Theorem childSegmentPositions_count (c : Chromosome.t) (parent : PenPosition.t)
  (pen : Pen) :
  let children := (Chromosome.childSegmentPositions c parent pen).1 in
  let same :=
    Z.land (Chromosome.symmetryBits c) Chromosome._SYMMETRY_SAME_HANDED_VALUE in
  let opposite :=
    Z.land (Chromosome.symmetryBits c)
      Chromosome._SYMMETRY_OPPOSITE_HANDED_VALUE in
  (Chromosome.terminated c = true -> children = [])
  /\ (Chromosome.terminated c = false -> same <> 0 -> opposite <> 0 ->
      List.length children = Z.to_nat (2 * Chromosome.branchCount c))
  /\ (Chromosome.terminated c = false -> same <> 0 -> opposite = 0 ->
      List.length children = Z.to_nat (Chromosome.branchCount c))
  /\ (Chromosome.terminated c = false -> same = 0 -> opposite <> 0 ->
      List.length children = Z.to_nat (Chromosome.branchCount c)).
Proof.
  cbv zeta.
  pose proof (childSegmentPositions_length c parent pen) as Hlen.
  assert (Hmode : forall mask,
             Z.land (Chromosome.symmetryBits c) mask <> 0 ->
             (Chromosome.symmetryBits c =? Chromosome._SYMMETRY_STRAIGHT_VALUE)
             = false).
  { intros mask Hbit. apply Z.eqb_neq. intros Hzero.
    rewrite Hzero in Hbit. apply Hbit. apply Z.land_0_l. }
  repeat split.
  - intros Hterm. rewrite Hterm in Hlen. by apply nil_length_inv.
  - intros Hterm Hsame Hopposite.
    rewrite Hterm, (Hmode _ Hsame) in Hlen.
    apply Z.eqb_neq in Hsame, Hopposite.
    rewrite Hsame, Hopposite in Hlen. cbn [negb] in Hlen. lia.
  - intros Hterm Hsame Hopposite.
    rewrite Hterm, (Hmode _ Hsame) in Hlen.
    apply Z.eqb_neq in Hsame. apply Z.eqb_eq in Hopposite.
    rewrite Hsame, Hopposite in Hlen. cbn [negb] in Hlen. lia.
  - intros Hterm Hsame Hopposite.
    rewrite Hterm, (Hmode _ Hopposite) in Hlen.
    apply Z.eqb_eq in Hsame. apply Z.eqb_neq in Hopposite.
    rewrite Hsame, Hopposite in Hlen. cbn [negb] in Hlen. lia.
Qed.

Lemma straightBranches_children `{!ExactPlane P} (c : Chromosome.t) chirality
  count :
  forall q a (pen : Pen) i child,
    (Chromosome.straightBranches count c chirality (raised q a pen)).1 !! i
    = Some child ->
    savedPoint child = advance q a (Z.of_nat i * Chromosome.length c)
    /\ PenPosition.heading child = a
    /\ PenPosition.chiralityRight child = chirality.
Proof.
  induction count as [| count IH]; intros q a pen i child; [discriminate |].
  cbn [Chromosome.straightBranches].
  rewrite (bind_run_eq _ _ _ _ _ (snapshot_raised chirality q a pen)).
  rewrite (bind_run_eq _ _ _ _ _ (forward_raised _ q a pen)).
  rewrite bind_unfold. cbn [ret fst].
  destruct i as [| i]; cbn [lookup list_lookup].
  - intros [= <-]. unfold savedPoint. cbn.
    rewrite advance_0. by destruct q.
  - intros Hchild. destruct (IH _ _ _ _ _ Hchild) as (Hpoint & Hheading & Hchir).
    repeat split; [| assumption..].
    rewrite Hpoint, advance_add. f_equal. lia.
Qed.

(** C6: a chromosome that is not terminated, with straight symmetry and
    branch count [b] in 1..3, yields exactly [b] child positions; the i-th
    lies [i * length] along the parent heading from the parent end
    position and has the parent's heading and chirality. *)
Theorem straight_children_collinear `{!ExactPlane P} (c : Chromosome.t)
  (parent : PenPosition.t) (pen : Pen) (b : Z) :
  Chromosome.terminated c = false ->
  Chromosome.symmetryBits c = Chromosome._SYMMETRY_STRAIGHT_VALUE ->
  Chromosome.branchCount c = b ->
  1 <= b <= 3 ->
  let children := (Chromosome.childSegmentPositions c parent pen).1 in
  Z.of_nat (List.length children) = b
  /\ forall i child,
       children !! i = Some child ->
       savedPoint child
       = advance (savedPoint parent) (PenPosition.heading parent)
           (Z.of_nat i * Chromosome.length c)
       /\ PenPosition.heading child = PenPosition.heading parent
       /\ PenPosition.chiralityRight child = PenPosition.chiralityRight parent.
Proof.
  intros Hterm Hsym Hcount Hb. cbv zeta. split.
  - rewrite childSegmentPositions_length, Hterm, Hsym, Z.eqb_refl. lia.
  - unfold Chromosome.childSegmentPositions.
    rewrite (bind_run_eq _ _ _ _ _ (restore_run parent pen)).
    rewrite Hterm, Hsym, Z.eqb_refl. cbn [negb].
    rewrite (bind_run_eq _ _ _ _ _ (restore_run parent _)), raised_raised.
    apply straightBranches_children.
Qed.

End ChildPositions.

(** ** Where the bounds test and the drawing leave the pen *)

(** Run straight-line pen code on an explicit pen. *)
Ltac run_pen :=
  cbv [bind ret PenPosition.restore PenPosition.__init__ penup pendown
       setposition setheading moveto forward left right xcor ycor getheading
       pencolor fillcolor width dot circle begin_fill end_fill draw
       position orientation isdown penColor penFill penWidth canvas
       raised savedPoint];
  cbn [fst snd].

Section SegmentEnds.
Context {P : Plane}.

(** The verdict of the bounds test does not depend on the pen it starts
    from: the pen is first put at the saved position. *)
Lemma segmentOutOfBounds_verdict (c : Chromosome.t) (panel : CreaturePanel.t)
  (s : PenPosition.t) (pen pen' : Pen) :
  (Chromosome.segmentOutOfBounds c (Some panel) (Some s) pen).1
  = (Chromosome.segmentOutOfBounds c (Some panel) (Some s) pen').1.
Proof.
  unfold Chromosome.segmentOutOfBounds. run_pen.
  destruct (Chromosome.shape c =? _); run_pen;
    match goal with |- context [if ?b then _ else _] => destruct b end;
    reflexivity.
Qed.

(** A segment that is not a line and passes the test: the pen has moved by
    the radius twice. *)
Lemma segmentOutOfBounds_round_end (c : Chromosome.t) (panel : CreaturePanel.t)
  (s : PenPosition.t) (pen penV : Pen) :
  Chromosome.shape c <> Chromosome._SHAPE__LINE_VALUE ->
  Chromosome.segmentOutOfBounds c (Some panel) (Some s) pen = (false, penV) ->
  penV = raised
           (advance
              (advance (savedPoint s) (PenPosition.heading s)
                 (Z.shiftr (Chromosome.length c) 1))
              (PenPosition.heading s) (Z.shiftr (Chromosome.length c) 1))
           (PenPosition.heading s) pen.
Proof.
  intros Hshape. apply Z.eqb_neq in Hshape.
  unfold Chromosome.segmentOutOfBounds. rewrite Hshape. run_pen.
  match goal with |- context [if ?b then _ else _] => destruct b end;
    intros [= <-]; reflexivity.
Qed.

(** Drawing a segment of any shape leaves the pen lifted, on the saved
    heading, the full length away from the saved position. *)
Lemma drawSingleSegment_end (c : Chromosome.t) (panel : CreaturePanel.t)
  (s : PenPosition.t) (pen : Pen) :
  let pen' := (Chromosome.drawSingleSegment c (Some panel) (Some s) pen).2 in
  position pen'
  = advance (savedPoint s) (PenPosition.heading s) (Chromosome.length c)
  /\ orientation pen' = PenPosition.heading s
  /\ isdown pen' = false.
Proof.
  cbv zeta. unfold Chromosome.drawSingleSegment.
  destruct (Chromosome.shape c =? Chromosome._SHAPE__LINE_VALUE);
    [run_pen; by repeat split |].
  destruct (Chromosome.shape c =? Chromosome._SHAPE_DOT_VALUE);
    [run_pen; by repeat split |].
  destruct (Chromosome.shape c =? Chromosome._SHAPE_CIRCLE_VALUE);
    [run_pen; by repeat split |].
  destruct (Chromosome.shape c =? Chromosome._SHAPE_FILLED_CIRCLE_VALUE);
    run_pen; by repeat split.
Qed.

Lemma twice_half_of_odd (n : Z) : Z.odd n = true -> 2 * (n / 2) + 1 = n.
Proof.
  intros Hodd. pose proof (Z.div_mod n 2 ltac:(lia)) as Hdiv.
  rewrite Zmod_odd, Hodd in Hdiv. lia.
Qed.

(** C10: for a segment that is not a line and passes the bounds test, the
    test leaves the pen [2 * (length div 2)] along the heading from the
    start and drawing leaves it the full length along; so for an odd
    length the end position taken after the test is one unit short of the
    end of the drawn segment. *)
Theorem validated_end_short_of_drawn_end `{!ExactPlane P} (c : Chromosome.t)
  (panel : CreaturePanel.t) (s : PenPosition.t) (pen penV pen' : Pen) :
  Chromosome.shape c <> Chromosome._SHAPE__LINE_VALUE ->
  Chromosome.segmentOutOfBounds c (Some panel) (Some s) pen = (false, penV) ->
  let segmentEndPenPosition :=
    (PenPosition.__init__ (PenPosition.chiralityRight s) penV).1 in
  let drawn :=
    position (Chromosome.drawSingleSegment c (Some panel) (Some s) pen').2 in
  position penV
  = advance (savedPoint s) (PenPosition.heading s) (2 * (Chromosome.length c / 2))
  /\ savedPoint segmentEndPenPosition = position penV
  /\ PenPosition.heading segmentEndPenPosition = PenPosition.heading s
  /\ drawn = advance (savedPoint s) (PenPosition.heading s) (Chromosome.length c)
  /\ (Z.odd (Chromosome.length c) = true ->
      drawn = advance (savedPoint segmentEndPenPosition)
                (PenPosition.heading segmentEndPenPosition) 1).
Proof.
  intros Hshape Htest. cbv zeta.
  rewrite (segmentOutOfBounds_round_end c panel s pen penV Hshape Htest).
  destruct (drawSingleSegment_end c panel s pen') as (Hdrawn & _ & _).
  rewrite Hdrawn. rewrite advance_add. rewrite Z.shiftr_div_pow2 by lia.
  change (2 ^ 1) with 2.
  replace (Chromosome.length c / 2 + Chromosome.length c / 2)
    with (2 * (Chromosome.length c / 2)) by lia.
  assert (Hsaved : forall chirality (q : coord * coord) a,
             savedPoint
               {| PenPosition.chiralityRight := chirality;
                  PenPosition.xPosition := q.1; PenPosition.yPosition := q.2;
                  PenPosition.heading := a |} = q).
  { intros chirality [x y] a. reflexivity. }
  cbn. rewrite Hsaved.
  repeat split.
  intros Hodd. rewrite advance_add, twice_half_of_odd by assumption.
  reflexivity.
Qed.

(** What drawing a segment leaves behind depends on the pen it starts
    from only through the canvas: position, heading, colours and width are
    all set before anything is drawn. *)
Lemma drawSingleSegment_from_canvas (c : Chromosome.t) (panel : CreaturePanel.t)
  (s : PenPosition.t) (pen1 pen2 : Pen) :
  canvas pen1 = canvas pen2 ->
  Chromosome.drawSingleSegment c (Some panel) (Some s) pen1
  = Chromosome.drawSingleSegment c (Some panel) (Some s) pen2.
Proof.
  intros Hcanvas. unfold Chromosome.drawSingleSegment.
  destruct (Chromosome.shape c =? Chromosome._SHAPE__LINE_VALUE);
    [run_pen; unfold canvas in Hcanvas; by rewrite Hcanvas |].
  destruct (Chromosome.shape c =? Chromosome._SHAPE_DOT_VALUE);
    [run_pen; unfold canvas in Hcanvas; by rewrite Hcanvas |].
  destruct (Chromosome.shape c =? Chromosome._SHAPE_CIRCLE_VALUE);
    [run_pen; unfold canvas in Hcanvas; by rewrite Hcanvas |].
  destruct (Chromosome.shape c =? Chromosome._SHAPE_FILLED_CIRCLE_VALUE);
    run_pen; unfold canvas in Hcanvas; by rewrite Hcanvas.
Qed.

End SegmentEnds.

(** ** The table of pen positions *)

Section Tables.
Context {P : Plane}.

Lemma row_extend_ne (table : Creature.Table) j k kids :
  k <> j -> Creature.row (Creature.extend table j kids) k = Creature.row table k.
Proof.
  intros Hne. unfold Creature.row, Creature.extend.
  by rewrite list_lookup_alter_ne.
Qed.

Lemma row_extend_eq (table : Creature.Table) j kids :
  (j < List.length table)%nat ->
  Creature.row (Creature.extend table j kids) j = Creature.row table j ++ kids.
Proof.
  intros Hlt. unfold Creature.row, Creature.extend.
  rewrite list_lookup_alter_eq.
  destruct (lookup_lt_is_Some_2 table j Hlt) as [r Hr]. by rewrite Hr.
Qed.

Lemma length_extend (table : Creature.Table) j kids :
  List.length (Creature.extend table j kids) = List.length table.
Proof. apply length_alter. Qed.

Lemma row_beyond (table : Creature.Table) k :
  (List.length table <= k)%nat -> Creature.row table k = [].
Proof.
  intros Hle. unfold Creature.row. by rewrite lookup_ge_None_2.
Qed.

End Tables.

(** ** The validation phase of [display] *)

Section Validation.
Context {P : Plane}.
Variable chromosomes : list Chromosome.t.
Variable panel : CreaturePanel.t.

Lemma segmentOutOfBounds_canvas (c : Chromosome.t) (s : PenPosition.t)
  (pen : Pen) :
  canvas (Chromosome.segmentOutOfBounds c (Some panel) (Some s) pen).2
  = canvas pen.
Proof.
  destruct (segmentOutOfBounds_Lifted c (Some panel) (Some s) pen) as [H | H].
  - by apply Lifted_canvas.
  - by rewrite H.
Qed.

Lemma childSegmentPositions_canvas (c : Chromosome.t) (s : PenPosition.t)
  (pen : Pen) :
  canvas (Chromosome.childSegmentPositions c s pen).2 = canvas pen.
Proof. apply Lifted_canvas, childSegmentPositions_Lifted. Qed.

(** The loop over the segments of chromosome [n]: it draws nothing, it
    only extends row [n + 1], it never returns [True], it runs to its end
    exactly when every segment passes the bounds test, and it does not
    raise on a genotype of four chromosomes. *)
Lemma validateSegments_spec (n : nat) :
  forall (segments : list PenPosition.t) (table : Creature.Table) (pen : Pen)
         st table' pen',
    Creature.validateSegments chromosomes panel n segments table pen
    = ((st, table'), pen') ->
    canvas pen' = canvas pen
    /\ List.length table' = List.length table
    /\ (forall k, k <> S n -> Creature.row table' k = Creature.row table k)
    /\ st <> Creature.Returned true
    /\ (st = Creature.Running ->
        forall s c pen0, s ∈ segments -> chromosomes !! n = Some c ->
          (Chromosome.segmentOutOfBounds c (Some panel) (Some s) pen0).1 = false)
    /\ (List.length chromosomes = 4%nat -> (n < 4)%nat -> st <> Creature.Raised)
    /\ ((forall s c, s ∈ segments -> chromosomes !! n = Some c ->
           exists pen0,
             (Chromosome.segmentOutOfBounds c (Some panel) (Some s) pen0).1
             = false) ->
        st <> Creature.Returned false).
Proof.
  induction segments as [| s rest IH]; intros table pen st table' pen'.
  { cbn. intros [= <- <- <-]. repeat split; try done.
    intros _ s c pen0 Hin. by apply elem_of_nil in Hin. }
  cbn [Creature.validateSegments]. intros Hrun0.
  destruct (chromosomes !! n) as [c |] eqn:Hc in Hrun0.
  2: { injection Hrun0 as <- <- <-. repeat split; try done.
       intros Hlen Hn _. apply lookup_ge_None_1 in Hc. lia. }
  rewrite bind_unfold in Hrun0.
  pose proof (segmentOutOfBounds_canvas c s pen) as Hcanvas1.
  destruct (Chromosome.segmentOutOfBounds c (Some panel) (Some s) pen)
    as [outOfBounds pen1] eqn:Htest.
  cbn [fst snd] in *.
  destruct outOfBounds.
  { injection Hrun0 as <- <- <-. repeat split; try done.
    intros Hpass _.
    destruct (Hpass s c ltac:(left) Hc) as [pen0 Hpen0].
    rewrite (segmentOutOfBounds_verdict c panel s pen0 pen), Htest in Hpen0.
    discriminate. }
  rewrite bind_unfold in Hrun0.
  change (PenPosition.__init__ (PenPosition.chiralityRight s) pen1).2
    with pen1 in Hrun0.
  set (segmentEnd :=
         (PenPosition.__init__ (PenPosition.chiralityRight s) pen1).1) in Hrun0.
  assert (Hhead : forall pen0,
            (Chromosome.segmentOutOfBounds c (Some panel) (Some s) pen0).1
            = false).
  { intros pen0.
    by rewrite (segmentOutOfBounds_verdict c panel s pen0 pen), Htest. }
  assert (Hstep : forall table1 pen2,
            canvas pen2 = canvas pen ->
            List.length table1 = List.length table ->
            (forall k, k <> S n ->
               Creature.row table1 k = Creature.row table k) ->
            Creature.validateSegments chromosomes panel n rest table1 pen2
            = ((st, table'), pen') ->
            canvas pen' = canvas pen
            /\ List.length table' = List.length table
            /\ (forall k, k <> S n ->
                  Creature.row table' k = Creature.row table k)
            /\ st <> Creature.Returned true
            /\ (st = Creature.Running ->
                forall s0 c0 pen0, s0 ∈ s :: rest ->
                  chromosomes !! n = Some c0 ->
                  (Chromosome.segmentOutOfBounds c0 (Some panel) (Some s0)
                     pen0).1 = false)
            /\ (List.length chromosomes = 4%nat -> (n < 4)%nat ->
                st <> Creature.Raised)
            /\ ((forall s0 c0, s0 ∈ s :: rest ->
                   chromosomes !! n = Some c0 ->
                   exists pen0,
                     (Chromosome.segmentOutOfBounds c0 (Some panel) (Some s0)
                        pen0).1 = false) ->
                st <> Creature.Returned false)).
  { intros table1 pen2 Hcanvas2 Hlen1 Hrows1 Hrec.
    destruct (IH _ _ _ _ _ Hrec)
      as (Hcanvas & Hlen & Hrows & Htrue & Hrun & Hraise & Hfalse).
    repeat split.
    - congruence.
    - congruence.
    - intros k Hk. rewrite Hrows, Hrows1 by assumption. reflexivity.
    - assumption.
    - intros Hst s0 c0 pen0 Hin Hc0.
      apply elem_of_cons in Hin as [-> | Hin].
      + assert (c0 = c) as -> by congruence. apply Hhead.
      + by apply (Hrun Hst s0 c0 pen0).
    - assumption.
    - intros Hpass. apply Hfalse. intros s0 c0 Hin. apply Hpass. by right. }
  destruct (n <? Genotype.CHROMOSOME_COUNT - 1)%nat eqn:Hlast.
  - destruct (chromosomes !! (n + 1)%nat) as [nextChromosome |] eqn:Hnext
      in Hrun0.
    2: { injection Hrun0 as <- <- <-. repeat split; try done.
         intros Hlen Hn _. apply lookup_ge_None_1 in Hnext.
         apply Nat.ltb_lt in Hlast. unfold Genotype.CHROMOSOME_COUNT in Hlast.
         lia. }
    rewrite bind_unfold in Hrun0.
    revert Hrun0. apply Hstep.
    + rewrite childSegmentPositions_canvas. assumption.
    + apply length_extend.
    + intros k Hk. apply row_extend_ne. lia.
  - revert Hrun0. apply Hstep; done.
Qed.

Local Abbreviation passes := (passes chromosomes panel).
Local Abbreviation validated := (validated chromosomes panel).

Ltac split_validated :=
  unfold validated; split; [| split; [| split; [| split; [| split]]]].

(** The loop over the chromosome numbers [n, n + 1, ...], entered with the
    rows after [n] still empty. *)
Lemma validateChromosomes_spec :
  forall (m n : nat) (table : Creature.Table) (pen : Pen) st table' pen',
    Creature.validateChromosomes chromosomes panel (seq n m) table pen
    = ((st, table'), pen') ->
    (forall k, (n < k)%nat -> Creature.row table k = []) ->
    List.length table = (n + m)%nat ->
    validated n m table pen st table' pen'.
Proof.
  induction m as [| m IH]; intros n table pen st table' pen'.
  { cbn. intros [= <- <- <-] Hempty Hlen. split_validated; try done.
    - intros _ k Hk. rewrite row_beyond by lia. split; [cbn; lia |].
      intros s c pen0 Hin. by apply elem_of_nil in Hin.
    - intros g _ Hnm Hg. lia. }
  cbn [seq Creature.validateChromosomes]. intros Hrun0 Hempty Hlen.
  destruct (Creature._MAX_CHROMOSOME_SEGMENTS
            <? List.length (Creature.row table n))%nat eqn:Hmany.
  { injection Hrun0 as <- <- <-. apply Nat.ltb_lt in Hmany.
    unfold Creature._MAX_CHROMOSOME_SEGMENTS in Hmany.
    split_validated; try done.
    intros g Hchs Hnm Hg Hvalid Hrow. exfalso.
    destruct (decide (g = n)) as [-> | Hne].
    - rewrite Hrow in Hmany. cbn in Hmany. lia.
    - destruct (Hvalid n ltac:(lia)) as [Hbound _]. lia. }
  apply Nat.ltb_ge in Hmany. unfold Creature._MAX_CHROMOSOME_SEGMENTS in Hmany.
  destruct (List.length (Creature.row table n) =? 0)%nat eqn:Hnone.
  { apply Nat.eqb_eq in Hnone.
    assert (Hnil : Creature.row table n = []) by by apply nil_length_inv.
    destruct (n =? 0)%nat eqn:Hfirst.
    - apply Nat.eqb_eq in Hfirst. subst n.
      injection Hrun0 as <- <- <-. split_validated; try done.
      intros g Hchs Hnm Hg Hvalid Hrow. split; [done |].
      intros Hpositive. exfalso.
      destruct (Hvalid 0%nat ltac:(lia)) as [Hbound _]. lia.
    - apply Nat.eqb_neq in Hfirst.
      injection Hrun0 as <- <- <-.
      assert (Hall : forall k, (n <= k)%nat -> Creature.row table k = []).
      { intros k Hk. destruct (decide (k = n)) as [-> | Hne];
          [assumption | apply Hempty; lia]. }
      split_validated; try done.
      + intros _ k Hk. rewrite Hall by assumption. split; [cbn; lia |].
        intros s c pen0 Hin. by apply elem_of_nil in Hin.
      + intros g Hchs Hnm Hg Hvalid Hrow.
        destruct (decide (g = n)) as [-> | Hne].
        * split; [done |]. intros _. split; [reflexivity | assumption].
        * exfalso. destruct (Hvalid n ltac:(lia)) as [Hbound _]. lia. }
  apply Nat.eqb_neq in Hnone.
  rewrite bind_unfold in Hrun0.
  destruct (Creature.validateSegments chromosomes panel n
              (Creature.row table n) table pen)
    as [[st1 table1] pen1] eqn:Hsegments.
  destruct (validateSegments_spec n _ _ _ _ _ _ Hsegments)
    as (Hcanvas1 & Hlen1 & Hrows1 & Htrue1 & Hrun1 & Hraise1 & Hfalse1).
  cbn [fst snd] in Hrun0.
  assert (Hstop : st1 <> Creature.Running ->
            (st1, table1, pen1) = (st, table', pen') ->
            validated n (S m) table pen st table' pen').
  { intros Hnot [= <- <- <-]. split_validated; try done.
    - intros k Hk. apply Hrows1. lia.
    - intros Hchs Hnm. apply Hraise1; [assumption | lia].
    - intros g Hchs Hnm Hg Hvalid Hrow. exfalso.
      destruct (decide (g = n)) as [-> | Hne].
      + rewrite Hrows1 in Hrow by lia. rewrite Hrow in Hnone. by apply Hnone.
      + destruct (Hvalid n ltac:(lia)) as [_ Hpass].
        rewrite Hrows1 in Hpass by lia.
        destruct st1 as [| [|] |]; try done.
        * apply Hfalse1; [| reflexivity].
          intros s c Hin Hc. by apply (Hpass s Hin c).
        * apply Hraise1; [assumption | lia | reflexivity]. }
  destruct st1 as [| result |]; [| by apply Hstop..].
  clear Hstop.
  destruct (IH (S n) table1 pen1 st table' pen' Hrun0)
    as (Hcanvas & Hrows & Htrue & Hraise & Hrun & Hforward).
  { intros k Hk. rewrite Hrows1 by lia. apply Hempty. lia. }
  { rewrite Hlen1. lia. }
  assert (Hrow_n : Creature.row table' n = Creature.row table n).
  { rewrite Hrows by lia. apply Hrows1. lia. }
  split_validated.
  - congruence.
  - intros k Hk. rewrite Hrows by lia. apply Hrows1. lia.
  - assumption.
  - intros Hchs Hnm. apply Hraise; [assumption | lia].
  - intros Hst k Hk. destruct (decide (k = n)) as [-> | Hne].
    + rewrite Hrow_n. split; [assumption |].
      intros s c pen0 Hin Hc. by apply (Hrun1 eq_refl s c pen0).
    + apply (Hrun Hst). lia.
  - intros g Hchs Hnm Hg Hvalid Hrow.
    destruct (decide (g = n)) as [-> | Hne].
    { rewrite Hrow_n in Hrow. rewrite Hrow in Hnone. by destruct Hnone. }
    destruct (Hforward g Hchs ltac:(lia) ltac:(lia)) as [Hzero Hpositive];
      [intros k Hk; apply Hvalid; lia | assumption |].
    split; [intros ->; lia | assumption].
Qed.

(** *** Rows only grow

    No loop of the validation phase removes a pen position from the table,
    so a row that is too long at some point is too long when [display] is
    left. *)

Lemma length_row_extend (table : Creature.Table) j kids k :
  (List.length (Creature.row table k)
   <= List.length (Creature.row (Creature.extend table j kids) k))%nat.
Proof.
  destruct (decide (k = j)) as [-> | Hne]; [| by rewrite row_extend_ne].
  unfold Creature.row, Creature.extend. rewrite list_lookup_alter_eq.
  destruct (table !! j) as [r |]; cbn; [rewrite length_app; lia | done].
Qed.

Lemma validateSegments_rows_grow (n k : nat) :
  forall (segments : list PenPosition.t) (table : Creature.Table) (pen : Pen),
    (List.length (Creature.row table k)
     <= List.length
          (Creature.row
             (Creature.validateSegments chromosomes panel n segments table
                pen).1.2 k))%nat.
Proof.
  induction segments as [| s rest IH]; intros table pen; [done |].
  cbn [Creature.validateSegments].
  destruct (chromosomes !! n) as [c |]; [| done].
  rewrite bind_unfold.
  destruct (Chromosome.segmentOutOfBounds c (Some panel) (Some s) pen).1;
    [done |].
  rewrite bind_unfold.
  destruct (n <? Genotype.CHROMOSOME_COUNT - 1)%nat; [| apply IH].
  destruct (chromosomes !! (n + 1)%nat) as [nextChromosome |]; [| done].
  rewrite bind_unfold.
  etrans; [apply (length_row_extend table (n + 1)) | apply IH].
Qed.

Lemma validateChromosomes_rows_grow (k : nat) :
  forall (numbers : list nat) (table : Creature.Table) (pen : Pen),
    (List.length (Creature.row table k)
     <= List.length
          (Creature.row
             (Creature.validateChromosomes chromosomes panel numbers table
                pen).1.2 k))%nat.
Proof.
  induction numbers as [| n rest IH]; intros table pen; [done |].
  cbn [Creature.validateChromosomes].
  destruct (Creature._MAX_CHROMOSOME_SEGMENTS
            <? List.length (Creature.row table n))%nat; [done |].
  destruct (List.length (Creature.row table n) =? 0)%nat;
    [by destruct (n =? 0)%nat |].
  rewrite bind_unfold.
  pose proof (validateSegments_rows_grow n k (Creature.row table n) table pen)
    as Hsegments.
  destruct (Creature.validateSegments chromosomes panel n
              (Creature.row table n) table pen) as [[st table1] pen1].
  cbn [fst snd] in *.
  destruct st; [| done..].
  etrans; [exact Hsegments | apply IH].
Qed.

(** *** The drawing phase *)

Lemma drawSegments_from_canvas (n : nat) (segments : list PenPosition.t)
  (pen1 pen2 : Pen) :
  canvas pen1 = canvas pen2 ->
  (Creature.drawSegments chromosomes panel n segments pen1).1
  = (Creature.drawSegments chromosomes panel n segments pen2).1
  /\ canvas (Creature.drawSegments chromosomes panel n segments pen1).2
     = canvas (Creature.drawSegments chromosomes panel n segments pen2).2.
Proof.
  intros Hcanvas. destruct segments as [| s rest]; [by split |].
  cbn [Creature.drawSegments].
  destruct (chromosomes !! n) as [c |]; [| by split].
  rewrite !bind_unfold.
  by rewrite (drawSingleSegment_from_canvas c panel s pen1 pen2 Hcanvas).
Qed.

Lemma drawChromosomes_from_canvas (table : Creature.Table) (numbers : list nat) :
  forall pen1 pen2 : Pen,
    canvas pen1 = canvas pen2 ->
    (Creature.drawChromosomes chromosomes panel numbers table pen1).1
    = (Creature.drawChromosomes chromosomes panel numbers table pen2).1
    /\ canvas (Creature.drawChromosomes chromosomes panel numbers table pen1).2
       = canvas (Creature.drawChromosomes chromosomes panel numbers table pen2).2.
Proof.
  induction numbers as [| n rest IH]; intros pen1 pen2 Hcanvas; [by split |].
  cbn [Creature.drawChromosomes]. rewrite !bind_unfold.
  destruct (drawSegments_from_canvas n (Creature.row table n) pen1 pen2 Hcanvas)
    as [Hstatus Hcanvas'].
  rewrite Hstatus.
  destruct (Creature.drawSegments chromosomes panel n (Creature.row table n)
              pen2).1; [by apply IH | by split..].
Qed.

Lemma drawSegments_Running (n : nat) (segments : list PenPosition.t) :
  is_Some (chromosomes !! n) ->
  forall pen : Pen,
    (Creature.drawSegments chromosomes panel n segments pen).1
    = Creature.Running.
Proof.
  intros [c Hc]. induction segments as [| s rest IH]; intros pen; [done |].
  cbn [Creature.drawSegments]. rewrite Hc, bind_unfold. apply IH.
Qed.

Lemma drawChromosomes_Running (table : Creature.Table) (numbers : list nat) :
  (forall k, k ∈ numbers -> is_Some (chromosomes !! k)) ->
  forall pen : Pen,
    (Creature.drawChromosomes chromosomes panel numbers table pen).1
    = Creature.Running.
Proof.
  induction numbers as [| n rest IH]; intros Hsome pen; [done |].
  cbn [Creature.drawChromosomes]. rewrite bind_unfold.
  rewrite drawSegments_Running by (apply Hsome; left).
  apply IH. intros k Hk. apply Hsome. by right.
Qed.

Lemma drawChromosomes_empty (table : Creature.Table) (numbers : list nat)
  (pen : Pen) :
  (forall k, k ∈ numbers -> Creature.row table k = []) ->
  Creature.drawChromosomes chromosomes panel numbers table pen
  = (Creature.Running, pen).
Proof.
  induction numbers as [| n rest IH]; intros Hempty; [done |].
  cbn [Creature.drawChromosomes]. rewrite bind_unfold.
  rewrite (Hempty n) by left. cbn.
  apply IH. intros k Hk. apply Hempty. by right.
Qed.

Lemma drawChromosomes_app (table : Creature.Table) (numbers1 numbers2 : list nat) :
  forall pen : Pen,
    (Creature.drawChromosomes chromosomes panel numbers1 table pen).1
    = Creature.Running ->
    Creature.drawChromosomes chromosomes panel (numbers1 ++ numbers2) table pen
    = Creature.drawChromosomes chromosomes panel numbers2 table
        (Creature.drawChromosomes chromosomes panel numbers1 table pen).2.
Proof.
  induction numbers1 as [| n rest IH]; intros pen; [done |].
  cbn [app Creature.drawChromosomes]. rewrite !bind_unfold.
  destruct (Creature.drawSegments chromosomes panel n (Creature.row table n)
              pen) as [[| result |] pen1]; cbn; try done.
  apply IH.
Qed.

Lemma row_replicate_nil (count k : nat) :
  Creature.row (replicate count []) k = [].
Proof.
  unfold Creature.row.
  destruct (replicate count [] !! k) as [r |] eqn:Hr; [| done].
  apply lookup_replicate in Hr as [-> _]. done.
Qed.

(** *** The whole of [display] *)

Lemma display_of_growAndDraw (pen : Pen) st table pen' :
  Creature.growAndDraw chromosomes panel pen = ((st, table), pen') ->
  Creature.display chromosomes panel pen
  = (match st with Creature.Returned result => Some result | _ => None end,
     pen').
Proof.
  intros Hrun. unfold Creature.display. rewrite bind_unfold, Hrun. cbn.
  by destruct st.
Qed.

(** On a genotype of four chromosomes [display] returns a boolean.  Row 0
    is what chromosome 0 sprouts from the starting position.  On [False]
    the canvas is untouched; on [True] every row has at most 32 segments,
    all of which pass the bounds test.  If [g] is the first generation
    with no segments, all earlier ones being valid, the result is [True]
    exactly when [g] is not 0 and the canvas is that of drawing the
    generations before [g]. *)
Lemma growAndDraw_spec (pen : Pen) st table pen' :
  List.length chromosomes = 4%nat ->
  Creature.growAndDraw chromosomes panel pen = ((st, table), pen') ->
  exists result,
    st = Creature.Returned result
    /\ (forall first, chromosomes !! 0%nat = Some first ->
        Creature.row table 0
        = (Chromosome.childSegmentPositions first
             (CreaturePanel.startingPenPosition panel) pen).1)
    /\ (result = false -> canvas pen' = canvas pen)
    /\ (result = true ->
        forall k,
          (List.length (Creature.row table k) <= 32)%nat
          /\ forall s c pen0,
               s ∈ Creature.row table k -> chromosomes !! k = Some c ->
               (Chromosome.segmentOutOfBounds c (Some panel) (Some s) pen0).1
               = false)
    /\ (forall g,
          (g < 4)%nat ->
          (forall k, (k < g)%nat ->
             (1 <= List.length (Creature.row table k) <= 32)%nat
             /\ forall s, s ∈ Creature.row table k -> passes k s) ->
          Creature.row table g = [] ->
          result = negb (g =? 0)%nat
          /\ canvas pen'
             = canvas (Creature.drawChromosomes chromosomes panel (seq 0 g)
                         table pen).2).
Proof.
  intros Hchs Hrun. unfold Creature.growAndDraw in Hrun.
  destruct (lookup_lt_is_Some_2 chromosomes 0%nat ltac:(lia)) as [first Hfirst].
  rewrite Hfirst, bind_unfold in Hrun.
  pose proof (childSegmentPositions_canvas first
                (CreaturePanel.startingPenPosition panel) pen) as Hcanvas0.
  destruct (Chromosome.childSegmentPositions first
              (CreaturePanel.startingPenPosition panel) pen)
    as [children pen0] eqn:Hseed.
  cbn [fst snd] in *. rewrite bind_unfold in Hrun.
  set (table0 :=
         Creature.extend (replicate Genotype.CHROMOSOME_COUNT []) 0 children)
    in Hrun.
  assert (Hrow0 : Creature.row table0 0 = children).
  { subst table0. rewrite row_extend_eq by (cbn; lia).
    by rewrite row_replicate_nil. }
  destruct (Creature.validateChromosomes chromosomes panel
              (seq 0 Genotype.CHROMOSOME_COUNT) table0 pen0)
    as [[st1 table1] pen1] eqn:Hvalidate.
  destruct (validateChromosomes_spec _ _ _ _ _ _ _ Hvalidate)
    as (Hcanvas1 & Hrows1 & Htrue1 & Hraise1 & Hrun1 & Hforward1).
  { intros k Hk. subst table0. rewrite row_extend_ne by lia.
    apply row_replicate_nil. }
  { subst table0. rewrite length_extend. reflexivity. }
  cbn [fst snd] in Hrun.
  assert (Hseeded : forall first0, chromosomes !! 0%nat = Some first0 ->
            Creature.row table1 0
            = (Chromosome.childSegmentPositions first0
                 (CreaturePanel.startingPenPosition panel) pen).1).
  { intros first0 Hfirst0. assert (first0 = first) as -> by congruence.
    rewrite Hrows1 by lia. by rewrite Hrow0, Hseed. }
  destruct st1 as [| [|] |].
  - (* validation ran to its end: the drawing phase follows *)
    rewrite bind_unfold in Hrun.
    assert (Hdraw : forall numbers (pen2 : Pen),
              (forall k, k ∈ numbers -> (k < 4)%nat) ->
              (Creature.drawChromosomes chromosomes panel numbers table1
                 pen2).1 = Creature.Running).
    { intros numbers pen2 Hnumbers. apply drawChromosomes_Running.
      intros k Hk. apply lookup_lt_is_Some_2. rewrite Hchs.
      by apply Hnumbers. }
    remember (Creature.drawChromosomes chromosomes panel
                (seq 0 Genotype.CHROMOSOME_COUNT) table1 pen1)
      as drawn eqn:Hdrawn in Hrun.
    assert (Hdone : drawn.1 = Creature.Running).
    { rewrite Hdrawn. apply Hdraw. intros k Hk. apply elem_of_seq in Hk.
      unfold Genotype.CHROMOSOME_COUNT in Hk. lia. }
    rewrite Hdone in Hrun. injection Hrun as <- <- <-.
    exists true. split; [reflexivity |]. split; [assumption |].
    split; [done |]. split.
    { intros _ k. apply (Hrun1 eq_refl). lia. }
    intros g Hg Hvalid Hrow.
    destruct (Hforward1 g Hchs eq_refl ltac:(lia)) as [Hzero Hpositive];
      [intros k Hk; apply Hvalid; lia | assumption |].
    destruct (decide (g = 0%nat)) as [-> | Hne];
      [by specialize (Hzero eq_refl) |].
    destruct (Hpositive Hne) as [_ Hempty].
    split; [by destruct g |].
    assert (Hsplit : seq 0 Genotype.CHROMOSOME_COUNT = seq 0 g ++ seq g (4 - g)).
    { rewrite <- seq_app. f_equal. unfold Genotype.CHROMOSOME_COUNT. lia. }
    rewrite Hdrawn, Hsplit, drawChromosomes_app
      by (apply Hdraw; intros k Hk; apply elem_of_seq in Hk; lia).
    rewrite drawChromosomes_empty
      by (intros k Hk; apply elem_of_seq in Hk; apply Hempty; lia).
    cbn [snd].
    apply drawChromosomes_from_canvas. congruence.
  - done.
  - (* [display] returned [False] during validation *)
    injection Hrun as <- <- <-.
    exists false. split; [reflexivity |]. split; [assumption |].
    split; [intros _; congruence |]. split; [done |].
    intros g Hg Hvalid Hrow.
    destruct (Hforward1 g Hchs eq_refl ltac:(lia)) as [Hzero Hpositive];
      [intros k Hk; apply Hvalid; lia | assumption |].
    destruct (decide (g = 0%nat)) as [-> | Hne].
    + split; [reflexivity |]. cbn. congruence.
    + by destruct (Hpositive Hne).
  - by destruct (Hraise1 Hchs eq_refl).
Qed.

(** C1: on a genotype of four chromosomes, if any segment in the table of
    pen positions fails the bounds test, [display] returns [False] and the
    canvas is as it was: no stroke, dot, circle or fill has been drawn.
    Hence whenever the canvas has changed, every segment of every
    generation has passed the test. *)
Theorem out_of_bounds_draws_nothing (pen : Pen) st table pen' :
  List.length chromosomes = Genotype.CHROMOSOME_COUNT ->
  Creature.growAndDraw chromosomes panel pen = ((st, table), pen') ->
  (forall n s c pen0,
     s ∈ Creature.row table n -> chromosomes !! n = Some c ->
     (Chromosome.segmentOutOfBounds c (Some panel) (Some s) pen0).1 = true ->
     Creature.display chromosomes panel pen = (Some false, pen')
     /\ canvas pen' = canvas pen)
  /\ (canvas pen' <> canvas pen ->
      Creature.display chromosomes panel pen = (Some true, pen')
      /\ forall n s c pen0,
           s ∈ Creature.row table n -> chromosomes !! n = Some c ->
           (Chromosome.segmentOutOfBounds c (Some panel) (Some s) pen0).1
           = false).
Proof.
  intros Hchs Hrun.
  destruct (growAndDraw_spec pen st table pen' Hchs Hrun)
    as (result & -> & _ & Hfalse & Htrue & _).
  rewrite (display_of_growAndDraw _ _ _ _ Hrun).
  destruct result.
  - split.
    + intros n s c pen0 Hin Hc Hout.
      destruct (Htrue eq_refl n) as [_ Hpass].
      rewrite (Hpass s c pen0 Hin Hc) in Hout. discriminate.
    + intros _. split; [reflexivity |].
      intros n s c pen0. apply (Htrue eq_refl n).
  - split.
    + intros n s c pen0 _ _ _. split; [reflexivity | by apply Hfalse].
    + intros Hchanged. destruct Hchanged. by apply Hfalse.
Qed.

(** C4: on a genotype of four chromosomes, if some row of the table of pen
    positions holds more than 32 segments, [display] returns [False]. *)
Theorem too_many_segments_fail (pen : Pen) st table pen' (g : nat) :
  List.length chromosomes = Genotype.CHROMOSOME_COUNT ->
  Creature.growAndDraw chromosomes panel pen = ((st, table), pen') ->
  (Creature._MAX_CHROMOSOME_SEGMENTS < List.length (Creature.row table g))%nat ->
  Creature.display chromosomes panel pen = (Some false, pen').
Proof.
  intros Hchs Hrun Hmany.
  destruct (growAndDraw_spec pen st table pen' Hchs Hrun)
    as (result & -> & _ & _ & Htrue & _).
  rewrite (display_of_growAndDraw _ _ _ _ Hrun).
  destruct result; [| reflexivity].
  destruct (Htrue eq_refl g) as [Hbound _].
  unfold Creature._MAX_CHROMOSOME_SEGMENTS in Hmany. lia.
Qed.

(** C5, as the code has it: row 0 of the table is what chromosome 0
    sprouts from the starting position; if [g] is a generation with no
    pen positions and every generation before it has between 1 and 32,
    all passing the bounds test, then [display] returns [False] for
    [g = 0] and [True] for a later [g], and the canvas is the one left by
    drawing the generations before [g] and nothing else. *)
Theorem first_empty_generation_ends_growth (pen : Pen) st table pen' (g : nat) :
  List.length chromosomes = Genotype.CHROMOSOME_COUNT ->
  Creature.growAndDraw chromosomes panel pen = ((st, table), pen') ->
  (g < Genotype.CHROMOSOME_COUNT)%nat ->
  (forall k, (k < g)%nat ->
     (1 <= List.length (Creature.row table k)
      <= Creature._MAX_CHROMOSOME_SEGMENTS)%nat
     /\ forall s c,
          s ∈ Creature.row table k -> chromosomes !! k = Some c ->
          (Chromosome.segmentOutOfBounds c (Some panel) (Some s) pen).1
          = false) ->
  Creature.row table g = [] ->
  (forall first, chromosomes !! 0%nat = Some first ->
     Creature.row table 0
     = (Chromosome.childSegmentPositions first
          (CreaturePanel.startingPenPosition panel) pen).1)
  /\ Creature.display chromosomes panel pen = (Some (negb (g =? 0)%nat), pen')
  /\ canvas pen'
     = canvas (Creature.drawChromosomes chromosomes panel (seq 0 g) table pen).2.
Proof.
  intros Hchs Hrun Hg Hvalid Hrow.
  destruct (growAndDraw_spec pen st table pen' Hchs Hrun)
    as (result & -> & Hseed & _ & _ & Hforward).
  rewrite (display_of_growAndDraw _ _ _ _ Hrun).
  destruct (Hforward g Hg) as [-> Hcanvas]; [| assumption |].
  - intros k Hk. destruct (Hvalid k Hk) as [Hbound Hpass].
    split; [exact Hbound |].
    intros s Hin c Hc. exists pen. by apply Hpass.
  - by repeat split.
Qed.

End Validation.

(** ** The object store *)

Section Store.

Lemma alloc_run (o : Obj) (m : Mem) :
  exists a,
    alloc o m = Some (a, {| objects := <[a := o]> (objects m); rng := rng m |})
    /\ objects m !! a = None.
Proof.
  exists (fresh (dom (objects m))). split; [reflexivity |].
  apply not_elem_of_dom, is_fresh.
Qed.

Lemma getItem_run (l : addr) (i : nat) (m : Mem) items a :
  objects m !! l = Some (ListObj items) -> items !! i = Some a ->
  getItem l i m = Some (a, m).
Proof.
  intros Hl Hi. unfold getItem, bind_run, getList. by rewrite Hl, Hi.
Qed.

Lemma getChromosome_run (a : addr) (m : Mem) c :
  holds m a c -> getChromosome a m = Some (c, m).
Proof. unfold holds, getChromosome. by intros ->. Qed.

Lemma view_Some (m : Mem) (g : Genotype.t) (chs : list Chromosome.t) :
  Genotype.view m g = Some chs <->
  exists items,
    objects m !! Genotype.chromosomes g = Some (ListObj items)
    /\ Forall2 (holds m) items chs.
Proof.
  unfold Genotype.view. split.
  - destruct (objects m !! Genotype.chromosomes g) as [[c | items] |];
      try discriminate.
    intros Hmap. exists items. split; [reflexivity |].
    apply mapM_Some in Hmap.
    eapply Forall2_impl; [exact Hmap |].
    intros a c. unfold holds. cbn.
    destruct (objects m !! a) as [[c' | items'] |]; congruence.
  - intros (items & -> & Hholds). apply mapM_Some.
    eapply Forall2_impl; [exact Hholds |].
    intros a c. unfold holds. by intros ->.
Qed.

Lemma bind_run_Some {A B} (c : Run A) (k : A -> Run B) (m m' : Mem) a :
  c m = Some (a, m') -> bind_run c k m = k a m'.
Proof. unfold bind_run. by intros ->. Qed.

Lemma chromosomeValues_run (g : Genotype.t) (m : Mem) items chs :
  objects m !! Genotype.chromosomes g = Some (ListObj items) ->
  Forall2 (holds m) items chs ->
  forall n k,
    (k + n <= List.length chs)%nat ->
    Genotype.chromosomeValues g (seq k n) m
    = Some (Chromosome.chromosomeValue <$> take n (drop k chs), m).
Proof.
  intros Hl Hholds. induction n as [| n IH]; intros k Hk; [done |].
  cbn [seq Genotype.chromosomeValues].
  destruct (lookup_lt_is_Some_2 chs k ltac:(lia)) as [c Hc].
  destruct (Forall2_lookup_r _ _ _ _ _ Hholds Hc) as (a & Ha & Hac).
  rewrite (bind_run_Some _ _ _ _ _ (getItem_run _ _ _ _ _ Hl Ha)).
  rewrite (bind_run_Some _ _ _ _ _ (getChromosome_run _ _ _ Hac)).
  rewrite (bind_run_Some _ _ _ _ _ (IH (S k) ltac:(lia))).
  by rewrite (drop_S _ _ _ Hc).
Qed.

Lemma chromosomeItems_run (g : Genotype.t) (m : Mem) items :
  objects m !! Genotype.chromosomes g = Some (ListObj items) ->
  forall n k,
    (k + n <= List.length items)%nat ->
    Genotype.chromosomeItems g (seq k n) m = Some (take n (drop k items), m).
Proof.
  intros Hl. induction n as [| n IH]; intros k Hk; [done |].
  cbn [seq Genotype.chromosomeItems].
  destruct (lookup_lt_is_Some_2 items k ltac:(lia)) as [a Ha].
  rewrite (bind_run_Some _ _ _ _ _ (getItem_run _ _ _ _ _ Hl Ha)).
  rewrite (bind_run_Some _ _ _ _ _ (IH (S k) ltac:(lia))).
  by rewrite (drop_S _ _ _ Ha).
Qed.

Lemma randint_range (a b : Z) (r : Rng) :
  a <= b -> a <= (randint a b r).1 <= b.
Proof.
  intros Hab. cbn.
  pose proof (Z.mod_pos_bound (draws r (cursor r)) (b - a + 1) ltac:(lia)).
  lia.
Qed.

(** The mutation loop applies the [count] flips it draws, all valid, and
    leaves the objects of the store alone. *)
Lemma mutations_run (count : nat) :
  forall (values : list Z) (m : Mem),
  exists flips r,
    Genotype.mutations count values m
    = Some (applyFlips values flips, {| objects := objects m; rng := r |})
    /\ List.length flips = count
    /\ Forall validFlip flips
    /\ flips = (drawFlips count (rng m)).1.
Proof.
  induction count as [| count IH]; intros values m.
  { exists [], (rng m). by destruct m. }
  cbn [Genotype.mutations drawFlips]. rewrite !bind_unfold. cbn [ret fst].
  unfold bind_run at 1, random at 1.
  pose proof (randint_range 0 (Z.of_nat Genotype.CHROMOSOME_COUNT - 1) (rng m)
                ltac:(done)) as Hindex.
  destruct (randint 0 (Z.of_nat Genotype.CHROMOSOME_COUNT - 1) (rng m))
    as [chromosomeIndex r1].
  unfold bind_run at 1, random at 1. cbn [rng objects fst snd].
  pose proof (randint_range 0 31 r1 ltac:(done)) as Hbit.
  destruct (randint 0 31 r1) as [bit r2].
  cbn [fst] in *.
  destruct (IH (Genotype.flipBit values (Z.to_nat chromosomeIndex) bit)
              {| objects := objects m; rng := r2 |})
    as (flips & r & Hrun & Hlen & Hvalid & Htied).
  cbn [rng] in Htied.
  exists ((Z.to_nat chromosomeIndex, bit) :: flips), r.
  split; [exact Hrun |]. split; [cbn; by rewrite Hlen |].
  split; [| cbn [fst snd]; by rewrite Htied].
  constructor; [| assumption].
  split; cbn; [unfold Genotype.CHROMOSOME_COUNT in *; lia | lia].
Qed.

(** The replacement loop over the new list [l]: entries whose chromosome
    already has the wanted value are kept; the others are replaced by a
    chromosome built at an address that was not in use.  Nothing else in
    the store changes. *)
Lemma replaceMutated_run (l : addr) (values : list Z) (n : nat) :
  forall (k : nat) (cur : list addr) (m : Mem),
    objects m !! l = Some (ListObj cur) ->
    (k + n <= List.length cur)%nat ->
    (k + n <= List.length values)%nat ->
    (forall i a, (k <= i)%nat -> cur !! i = Some a -> exists c, holds m a c) ->
    exists cur' m',
      Genotype.replaceMutated l values (seq k n) m = Some (tt, m')
      /\ objects m' !! l = Some (ListObj cur')
      /\ List.length cur' = List.length cur
      /\ (forall a o, a <> l ->
            objects m !! a = Some o -> objects m' !! a = Some o)
      /\ (forall i, (i < k \/ k + n <= i)%nat -> cur' !! i = cur !! i)
      /\ (forall i a c v,
            (k <= i < k + n)%nat -> cur !! i = Some a -> holds m a c ->
            values !! i = Some v ->
            exists a',
              cur' !! i = Some a'
              /\ if Chromosome.chromosomeValue c =? v then a' = a
                 else objects m !! a' = None
                      /\ holds m' a' (Chromosome._interpretChromosomeValue i v)).
Proof.
  unfold holds.
  induction n as [| n IH]; intros k cur m Hl Hcur Hvalues Hrefs.
  { exists cur, m. repeat split; try done. intros i a c v Hi. lia. }
  cbn [seq Genotype.replaceMutated].
  destruct (lookup_lt_is_Some_2 cur k ltac:(lia)) as [a Ha].
  destruct (Hrefs k a ltac:(lia) Ha) as [c Hc].
  destruct (lookup_lt_is_Some_2 values k ltac:(lia)) as [v Hv].
  rewrite (bind_run_Some _ _ _ _ _ (getItem_run _ _ _ _ _ Hl Ha)).
  rewrite (bind_run_Some _ _ _ _ _ (getChromosome_run _ _ _ Hc)).
  rewrite Hv.
  destruct (Chromosome.chromosomeValue c =? v) eqn:Hsame; cbn [negb].
  - (* the value is unchanged: the entry is kept *)
    rewrite (bind_run_Some _ _ m m tt) by reflexivity.
    destruct (IH (S k) cur m Hl ltac:(lia) ltac:(lia))
      as (cur' & m' & Hrun & Hl' & Hlen & Hframe & Hkeep & Hnew).
    { intros i a0 Hi. apply Hrefs. lia. }
    exists cur', m'. split; [exact Hrun |]. split; [exact Hl' |].
    split; [exact Hlen |]. split; [exact Hframe |].
    split; [intros i Hi; apply Hkeep; lia |].
    intros i a0 c0 v0 Hi Ha0 Hc0 Hv0.
    destruct (decide (i = k)) as [-> | Hne].
    + assert (a0 = a) as -> by congruence.
      assert (c0 = c) as -> by (unfold holds in *; congruence).
      assert (v0 = v) as -> by congruence.
      exists a. rewrite Hsame. split; [| reflexivity].
      rewrite Hkeep by lia. assumption.
    + apply Hnew; [lia | assumption..].
  - (* the value differs: a new chromosome replaces the entry *)
    destruct m as [objs r]. cbn [objects rng] in *.
    set (c' := Chromosome._interpretChromosomeValue k v).
    set (a' := fresh (dom objs)).
    assert (Hfresh : objs !! a' = None) by apply not_elem_of_dom, is_fresh.
    assert (Hal : a' <> l) by (intros ->; congruence).
    set (m2 := {| objects := <[l := ListObj (<[k := a']> cur)]>
                               (<[a' := ChromosomeObj c']> objs);
                  rng := r |}).
    assert (Hinner : ((c'0 <- random (Chromosome.__init__ k (Some v)) ;;
                       a'0 <- alloc (ChromosomeObj c'0) ;;
                       setItem l k a'0)%run) {| objects := objs; rng := r |}
                     = Some (tt, m2)).
    { unfold bind_run, random, alloc, setItem, bind_run, getList.
      cbn [Chromosome.__init__ ret objects rng].
      fold a'. rewrite lookup_insert_ne by done. rewrite Hl.
      rewrite decide_True by lia. reflexivity. }
    rewrite (bind_run_Some _ _ _ _ _ Hinner).
    assert (Hold : forall a0 o, objs !! a0 = Some o ->
              a0 <> l -> objects m2 !! a0 = Some o).
    { intros a0 o Ha0 Hne. subst m2. cbn [objects].
      rewrite lookup_insert_ne by done.
      rewrite lookup_insert_ne by (intros <-; congruence). assumption. }
    destruct (IH (S k) (<[k := a']> cur) m2)
      as (cur' & m' & Hrun & Hl' & Hlen & Hframe & Hkeep & Hnew).
    { subst m2. cbn [objects]. apply lookup_insert_eq. }
    { rewrite length_insert. lia. }
    { lia. }
    { intros i a0 Hi Ha0. rewrite list_lookup_insert_ne in Ha0 by lia.
      destruct (Hrefs i a0 ltac:(lia) Ha0) as [c0 Hc0].
      exists c0. unfold holds in *. apply Hold; [assumption |].
      intros ->. congruence. }
    exists cur', m'. split; [exact Hrun |]. split; [exact Hl' |].
    split; [by rewrite Hlen, length_insert |].
    split.
    { intros a0 o Hne Ha0. apply Hframe; [assumption |]. by apply Hold. }
    split.
    { intros i Hi. rewrite Hkeep by lia.
      apply list_lookup_insert_ne. lia. }
    intros i a0 c0 v0 Hi Ha0 Hc0 Hv0.
    destruct (decide (i = k)) as [-> | Hne].
    + assert (c0 = c) as -> by (unfold holds in *; congruence).
      assert (v0 = v) as -> by congruence.
      exists a'. rewrite Hsame. split.
      * rewrite Hkeep by lia. apply list_lookup_insert_eq. lia.
      * split; [assumption |]. unfold holds. apply Hframe; [done |].
        subst m2. cbn [objects]. rewrite lookup_insert_ne by done.
        apply lookup_insert_eq.
    + destruct (Hnew i a0 c0 v0 ltac:(lia)) as (a1 & Ha1 & Hcase).
      * rewrite list_lookup_insert_ne by lia. assumption.
      * unfold holds in *. apply Hold; [assumption |]. intros ->. congruence.
      * assumption.
      * exists a1. split; [assumption |].
        destruct (Chromosome.chromosomeValue c0 =? v0); [assumption |].
        destruct Hcase as [Hnone Hholds]. split; [| assumption].
        destruct (objs !! a1) as [o |] eqn:Hobjs; [| reflexivity].
        destruct (decide (a1 = l)) as [-> | Hne1].
        -- subst m2. cbn [objects] in Hnone.
           rewrite lookup_insert_eq in Hnone. discriminate.
        -- rewrite (Hold a1 o Hobjs Hne1) in Hnone. discriminate.
Qed.

Lemma length_flipBit (values : list Z) (i : nat) (bit : Z) :
  List.length (Genotype.flipBit values i bit) = List.length values.
Proof. apply length_alter. Qed.

Lemma length_applyFlips (flips : list Flip) :
  forall values, List.length (applyFlips values flips) = List.length values.
Proof.
  induction flips as [| f flips IH]; intros values; [done |].
  cbn. unfold applyFlips in IH. by rewrite IH, length_flipBit.
Qed.

(** After the flips, chromosome [i] holds its old value with exactly the
    flipped bits changed. *)
Lemma applyFlips_lookup (flips : list Flip) (i : nat) :
  forall values v,
    values !! i = Some v ->
    applyFlips values flips !! i = Some (Z.lxor v (flipMask flips i)).
Proof.
  induction flips as [| f flips IH]; intros values v Hv.
  { cbn. by rewrite Z.lxor_0_r. }
  cbn [applyFlips foldl flipMask foldr].
  fold (applyFlips (Genotype.flipBit values f.1 f.2) flips).
  fold (flipMask flips i).
  destruct (decide (f.1 = i)) as [Hi | Hi].
  - rewrite (IH _ (Z.lxor v (Z.shiftl 1 f.2))).
    + by rewrite Z.lxor_assoc.
    + unfold Genotype.flipBit. rewrite Hi, list_lookup_alter_eq, Hv. done.
  - apply IH. unfold Genotype.flipBit.
    by rewrite list_lookup_alter_ne.
Qed.

Lemma genotype_init_given (l : addr) (m : Mem) items :
  objects m !! l = Some (ListObj items) ->
  List.length items = Genotype.CHROMOSOME_COUNT ->
  Genotype.__init__ (Some l) m = Some ({| Genotype.chromosomes := l |}, m).
Proof.
  intros Hl Hlen. unfold Genotype.__init__, bind_run, getList.
  rewrite Hl, Hlen, Nat.eqb_refl. reflexivity.
Qed.

(** [mutatedCopy] on a genotype of four chromosomes. *)
Lemma mutatedCopy_spec (m : Mem) (parent : Genotype.t) items chs :
  objects m !! Genotype.chromosomes parent = Some (ListObj items) ->
  Forall2 (holds m) items chs ->
  List.length chs = Genotype.CHROMOSOME_COUNT ->
  exists child m' flips items',
    Genotype.mutatedCopy parent m = Some (child, m')
    /\ (1 <= List.length flips <= 2)%nat
    /\ Forall validFlip flips
    /\ flips = drawnFlips (rng m)
    /\ objects m !! Genotype.chromosomes child = None
    /\ (forall a o, objects m !! a = Some o -> objects m' !! a = Some o)
    /\ objects m' !! Genotype.chromosomes child = Some (ListObj items')
    /\ List.length items' = Genotype.CHROMOSOME_COUNT
    /\ forall i a c,
         items !! i = Some a -> chs !! i = Some c ->
         exists a',
           items' !! i = Some a'
           /\ if Chromosome.chromosomeValue c
                 =? Z.lxor (Chromosome.chromosomeValue c) (flipMask flips i)
              then a' = a
              else objects m !! a' = None
                   /\ holds m' a'
                        (Chromosome._interpretChromosomeValue i
                           (Z.lxor (Chromosome.chromosomeValue c)
                              (flipMask flips i))).
Proof.
  intros Hl Hholds Hchs.
  pose proof (Forall2_length _ _ _ Hholds) as Hitems.
  unfold Genotype.CHROMOSOME_COUNT in *.
  unfold Genotype.mutatedCopy.
  rewrite (bind_run_Some _ _ _ _ _
             (chromosomeValues_run parent m items chs Hl Hholds 4 0 ltac:(lia))).
  rewrite drop_0, take_ge by lia.
  unfold bind_run at 1, random at 1.
  pose proof (randint_range 1 Genotype.MUTATION_RATE_MAXIMUM (rng m)
                ltac:(done)) as Hnumber.
  assert (Hdrawn : drawnFlips (rng m)
                   = (drawFlips
                        (Z.to_nat
                           (randint 1 Genotype.MUTATION_RATE_MAXIMUM (rng m)).1)
                        (randint 1 Genotype.MUTATION_RATE_MAXIMUM (rng m)).2).1)
    by (unfold drawnFlips; by rewrite bind_unfold).
  destruct (randint 1 Genotype.MUTATION_RATE_MAXIMUM (rng m))
    as [mutationNumber r1].
  cbn [fst snd] in Hnumber, Hdrawn.
  unfold Genotype.MUTATION_RATE_MAXIMUM in Hnumber.
  destruct (mutations_run (Z.to_nat mutationNumber)
              (Chromosome.chromosomeValue <$> chs)
              {| objects := objects m; rng := r1 |})
    as (flips & r2 & Hmutations & Hflips & Hvalid & Htied).
  cbn [rng] in Htied. rewrite <- Hdrawn in Htied. clear Hdrawn.
  rewrite (bind_run_Some _ _ _ _ _ Hmutations). cbn [objects].
  set (m2 := {| objects := objects m; rng := r2 |}).
  rewrite (bind_run_Some _ _ _ _ _
             (chromosomeItems_run parent m2 items Hl 4 0 ltac:(lia))).
  rewrite drop_0, take_ge by lia.
  destruct (alloc_run (ListObj items) m2) as (l & Halloc & Hfresh).
  rewrite (bind_run_Some _ _ _ _ _ Halloc).
  subst m2. cbn [objects rng] in *.
  set (m3 := {| objects := <[l := ListObj items]> (objects m); rng := r2 |}).
  assert (Hold : forall a o, objects m !! a = Some o ->
            a <> l /\ objects m3 !! a = Some o).
  { intros a o Ha. assert (a <> l) by (intros ->; congruence).
    split; [assumption |]. subst m3. cbn [objects].
    by rewrite lookup_insert_ne. }
  destruct (replaceMutated_run l
              (applyFlips (Chromosome.chromosomeValue <$> chs) flips) 4 0
              items m3)
    as (items' & m' & Hreplace & Hl' & Hlen' & Hframe & _ & Hnew).
  { subst m3. cbn [objects]. apply lookup_insert_eq. }
  { lia. }
  { rewrite length_applyFlips, length_fmap. lia. }
  { intros i a _ Ha.
    destruct (Forall2_lookup_l _ _ _ _ _ Hholds Ha) as (c & _ & Hc).
    exists c. by apply Hold. }
  rewrite (bind_run_Some _ _ _ _ _ Hreplace).
  rewrite (genotype_init_given l m' items' Hl') by (unfold Genotype.CHROMOSOME_COUNT; lia).
  exists {| Genotype.chromosomes := l |}, m', flips, items'.
  split; [reflexivity |]. split; [lia |]. split; [assumption |].
  split; [exact Htied |].
  split; [assumption |].
  split.
  { intros a o Ha. destruct (Hold a o Ha) as [Hne Ha3]. by apply Hframe. }
  split; [assumption |]. split; [lia |].
  intros i a c Ha Hc.
  assert (Hi : (i < 4)%nat) by (apply lookup_lt_Some in Hc; lia).
  assert (Hholds_i : holds m a c).
  { destruct (Forall2_lookup_l _ _ _ _ _ Hholds Ha) as (c0 & Hc0 & Hac).
    by assert (c0 = c) as -> by congruence. }
  destruct (Hnew i a c (Z.lxor (Chromosome.chromosomeValue c) (flipMask flips i)))
    as (a' & Ha' & Hcase).
  - lia.
  - assumption.
  - by apply Hold.
  - apply applyFlips_lookup. by rewrite list_lookup_fmap, Hc.
  - exists a'. split; [assumption |].
    destruct (Chromosome.chromosomeValue c
              =? Z.lxor (Chromosome.chromosomeValue c) (flipMask flips i));
      [assumption |].
    destruct Hcase as [Hnone Hnew']. split; [| assumption].
    subst m3. cbn [objects] in Hnone.
    by apply lookup_insert_None in Hnone as [Hnone _].
Qed.

(** The child of [mutatedCopy] read back from the store. *)
Lemma mutatedCopy_view (m : Mem) (parent : Genotype.t) chs :
  Genotype.view m parent = Some chs ->
  List.length chs = Genotype.CHROMOSOME_COUNT ->
  exists child m' flips items items' chs',
    Genotype.mutatedCopy parent m = Some (child, m')
    /\ (1 <= List.length flips <= 2)%nat
    /\ Forall validFlip flips
    /\ flips = drawnFlips (rng m)
    /\ objects m !! Genotype.chromosomes parent = Some (ListObj items)
    /\ Forall2 (holds m) items chs
    /\ objects m !! Genotype.chromosomes child = None
    /\ (forall a o, objects m !! a = Some o -> objects m' !! a = Some o)
    /\ objects m' !! Genotype.chromosomes child = Some (ListObj items')
    /\ Forall2 (holds m') items' chs'
    /\ List.length chs' = Genotype.CHROMOSOME_COUNT
    /\ forall i a c a' c',
         items !! i = Some a -> chs !! i = Some c ->
         items' !! i = Some a' -> chs' !! i = Some c' ->
         Chromosome.chromosomeValue c'
         = Z.lxor (Chromosome.chromosomeValue c) (flipMask flips i)
         /\ (Chromosome.chromosomeValue c' = Chromosome.chromosomeValue c ->
             a' = a /\ c' = c)
         /\ (Chromosome.chromosomeValue c' <> Chromosome.chromosomeValue c ->
             objects m !! a' = None
             /\ c' = Chromosome._interpretChromosomeValue i
                       (Chromosome.chromosomeValue c')).
Proof.
  intros Hview Hchs.
  apply view_Some in Hview as (items & Hl & Hholds).
  destruct (mutatedCopy_spec m parent items chs Hl Hholds Hchs)
    as (child & m' & flips & items' & Hrun & Hcount & Hvalid & Hdrawn & Hfresh
        & Hframe & Hl' & Hlen' & Hnew).
  pose proof (Forall2_length _ _ _ Hholds) as Hitems.
  set (mutated := fun (i : nat) (c : Chromosome.t) =>
         let v := Z.lxor (Chromosome.chromosomeValue c) (flipMask flips i) in
         if Chromosome.chromosomeValue c =? v then c
         else Chromosome._interpretChromosomeValue i v).
  exists child, m', flips, items, items', (imap mutated chs).
  split; [assumption |]. split; [assumption |]. split; [assumption |].
  split; [assumption |].
  split; [assumption |]. split; [assumption |]. split; [assumption |].
  split; [assumption |]. split; [assumption |].
  assert (Hentry : forall i a c a',
            items !! i = Some a -> chs !! i = Some c -> items' !! i = Some a' ->
            holds m' a' (mutated i c)
            /\ (Chromosome.chromosomeValue c
                = Z.lxor (Chromosome.chromosomeValue c) (flipMask flips i) ->
                a' = a)
            /\ (Chromosome.chromosomeValue c
                <> Z.lxor (Chromosome.chromosomeValue c) (flipMask flips i) ->
                objects m !! a' = None)).
  { intros i a c a' Ha Hc Ha'.
    destruct (Hnew i a c Ha Hc) as (a0 & Ha0 & Hcase).
    assert (a0 = a') as -> by congruence.
    subst mutated. cbv beta zeta.
    destruct (Chromosome.chromosomeValue c
              =? Z.lxor (Chromosome.chromosomeValue c) (flipMask flips i))
      eqn:Hsame.
    - subst a'. split; [| split; [done |]].
      + destruct (Forall2_lookup_l _ _ _ _ _ Hholds Ha) as (c0 & Hc0 & Hac).
        assert (c0 = c) as -> by congruence.
        by apply Hframe.
      + intros Hne. apply Z.eqb_eq in Hsame. by destruct Hne.
    - destruct Hcase as [Hnone Hheld]. split; [assumption |].
      split; [| done]. intros Heq. apply Z.eqb_neq in Hsame. by destruct Hsame. }
  split.
  { apply Forall2_same_length_lookup_2.
    - rewrite length_imap. unfold Genotype.CHROMOSOME_COUNT in *. lia.
    - intros i a' c' Ha' Hc'.
      rewrite list_lookup_imap in Hc'.
      destruct (chs !! i) as [c |] eqn:Hc; [| discriminate].
      injection Hc' as <-.
      destruct (lookup_lt_is_Some_2 items i) as [a Ha];
        [apply lookup_lt_Some in Hc; lia |].
      by destruct (Hentry i a c a' Ha Hc Ha'). }
  split; [by rewrite length_imap |].
  intros i a c a' c' Ha Hc Ha' Hc'.
  rewrite list_lookup_imap, Hc in Hc'. injection Hc' as <-.
  destruct (Hentry i a c a' Ha Hc Ha') as (_ & Hkept & Hbuilt).
  subst mutated. cbv beta zeta.
  destruct (Chromosome.chromosomeValue c
            =? Z.lxor (Chromosome.chromosomeValue c) (flipMask flips i))
    eqn:Hsame.
  - apply Z.eqb_eq in Hsame. split; [assumption |].
    split; [intros _; split; [by apply Hkept | reflexivity] | done].
  - apply Z.eqb_neq in Hsame. cbn [Chromosome.chromosomeValue
      Chromosome._interpretChromosomeValue].
    split; [reflexivity |]. split; [intros Heq; by destruct Hsame |].
    intros _. split; [by apply Hbuilt | reflexivity].
Qed.

(** *** Counting the chromosomes that differ *)

Lemma differing_cons (v v' : Z) (values values' : list Z) :
  differing (v :: values) (v' :: values')
  = ((if decide (v = v') then 0 else 1) + differing values values')%nat.
Proof.
  unfold differing. cbn [zip zip_with]. rewrite filter_cons. cbn [fst snd].
  destruct (decide (v <> v')) as [Hne | Heq].
  - rewrite decide_False by done. reflexivity.
  - rewrite decide_True by (by apply dec_stable). reflexivity.
Qed.

Lemma differing_refl (values : list Z) : differing values values = 0%nat.
Proof.
  induction values as [| v values IH]; [done |].
  rewrite differing_cons, decide_True by done. exact IH.
Qed.

Lemma differing_triangle (a : list Z) :
  forall b c,
    List.length a = List.length b -> List.length b = List.length c ->
    (differing a c <= differing a b + differing b c)%nat.
Proof.
  induction a as [| x a IH]; intros [| y b] [| z c] Hab Hbc;
    try discriminate; [done |].
  rewrite !differing_cons.
  specialize (IH b c ltac:(by injection Hab) ltac:(by injection Hbc)).
  repeat case_decide; subst; try done; lia.
Qed.

Lemma differing_flipBit (values : list Z) :
  forall i bit, (differing values (Genotype.flipBit values i bit) <= 1)%nat.
Proof.
  induction values as [| v values IH]; intros i bit; [cbn; lia |].
  destruct i as [| i]; cbn [Genotype.flipBit alter list_alter];
    rewrite differing_cons.
  - rewrite differing_refl. case_decide; lia.
  - rewrite decide_True by done. apply IH.
Qed.

Lemma differing_applyFlips (flips : list Flip) :
  forall values,
    (differing values (applyFlips values flips) <= List.length flips)%nat.
Proof.
  induction flips as [| f flips IH]; intros values.
  { cbn. by rewrite differing_refl. }
  cbn [applyFlips foldl List.length].
  fold (applyFlips (Genotype.flipBit values f.1 f.2) flips).
  pose proof (differing_triangle values (Genotype.flipBit values f.1 f.2)
                (applyFlips (Genotype.flipBit values f.1 f.2) flips)
                ltac:(by rewrite length_flipBit)
                ltac:(by rewrite length_applyFlips)) as Htriangle.
  pose proof (differing_flipBit values f.1 f.2).
  specialize (IH (Genotype.flipBit values f.1 f.2)). lia.
Qed.

Lemma differing_alter (f : Z -> Z) (values : list Z) :
  forall i v,
    values !! i = Some v ->
    differing values (alter f i values)
    = if decide (v = f v) then 0%nat else 1%nat.
Proof.
  induction values as [| v0 values IH]; intros i v Hv; [done |].
  destruct i as [| i]; cbn [alter list_alter]; rewrite differing_cons.
  - injection Hv as ->. rewrite differing_refl. lia.
  - rewrite decide_True by done. by apply IH.
Qed.

Lemma differing_alter_two (f g : Z -> Z) (values : list Z) :
  forall i j v w,
    i <> j -> values !! i = Some v -> values !! j = Some w ->
    differing values (alter g j (alter f i values))
    = ((if decide (v = f v) then 0 else 1)
       + (if decide (w = g w) then 0 else 1))%nat.
Proof.
  induction values as [| v0 values IH]; intros i j v w Hne Hv Hw; [done |].
  destruct i as [| i], j as [| j]; [done | | |];
    cbn [alter list_alter]; rewrite differing_cons.
  - injection Hv as ->. by rewrite (differing_alter g values j w Hw).
  - injection Hw as ->. rewrite (differing_alter f values i v Hv). lia.
  - rewrite decide_True by done.
    apply IH; [congruence | assumption | assumption].
Qed.

Lemma flip_changes_value (v bit : Z) :
  0 <= bit -> v <> Z.lxor v (Z.shiftl 1 bit).
Proof.
  intros Hbit Heq.
  assert (Hat : Z.testbit v bit = Z.testbit (Z.lxor v (Z.shiftl 1 bit)) bit)
    by (by rewrite <- Heq).
  rewrite Z.lxor_spec, Z.shiftl_1_l, Z.pow2_bits_true in Hat by assumption.
  by destruct (Z.testbit v bit).
Qed.

Lemma two_flips_cancel (v bit bit' : Z) :
  0 <= bit -> 0 <= bit' ->
  v = Z.lxor (Z.lxor v (Z.shiftl 1 bit)) (Z.shiftl 1 bit') <-> bit = bit'.
Proof.
  intros Hbit Hbit'. split.
  - intros Heq.
    assert (Hat : Z.testbit v bit
                  = Z.testbit (Z.lxor (Z.lxor v (Z.shiftl 1 bit))
                                 (Z.shiftl 1 bit')) bit)
      by (by rewrite <- Heq).
    rewrite !Z.lxor_spec, !Z.shiftl_1_l, Z.pow2_bits_true in Hat by assumption.
    rewrite Z.pow2_bits_eqb in Hat by assumption.
    destruct (Z.eqb_spec bit' bit) as [-> | Hne]; [reflexivity |].
    by destruct (Z.testbit v bit).
  - intros <-. by rewrite Z.lxor_assoc, Z.lxor_nilpotent, Z.lxor_0_r.
Qed.

(** How many raw values one or two valid flips change: one flip changes
    one value; two flips change two values when they target different
    chromosomes, one when they target different bits of the same
    chromosome, and none when they are the same flip twice. *)
Lemma differing_flips (values : list Z) (flips : list Flip) :
  List.length values = Genotype.CHROMOSOME_COUNT ->
  Forall validFlip flips ->
  differing values (applyFlips values flips)
  = match flips with
    | [] => 0%nat
    | [_] => 1%nat
    | [f; g] =>
        if decide (f.1 = g.1)
        then if decide (f.2 = g.2) then 0%nat else 1%nat
        else 2%nat
    | _ => differing values (applyFlips values flips)
    end.
Proof.
  intros Hlen Hvalid.
  destruct flips as [| f [| g [| h flips]]]; [apply differing_refl | | | done].
  - apply Forall_cons in Hvalid as [[Hindex Hbit] _].
    destruct (lookup_lt_is_Some_2 values f.1 ltac:(lia)) as [v Hv].
    cbn [applyFlips foldl]. unfold Genotype.flipBit.
    rewrite (differing_alter _ values f.1 v Hv).
    rewrite decide_False; [reflexivity |]. apply flip_changes_value. lia.
  - apply Forall_cons in Hvalid as [[Hindex Hbit] Hvalid].
    apply Forall_cons in Hvalid as [[Hindex' Hbit'] _].
    destruct (lookup_lt_is_Some_2 values f.1 ltac:(lia)) as [v Hv].
    destruct (lookup_lt_is_Some_2 values g.1 ltac:(lia)) as [w Hw].
    cbn [applyFlips foldl]. unfold Genotype.flipBit.
    destruct (decide (f.1 = g.1)) as [Hsame | Hother].
    + rewrite <- Hsame, list_alter_alter_eq.
      rewrite (differing_alter _ values f.1 v Hv). cbn [compose].
      destruct (decide (f.2 = g.2)) as [Hbits | Hbits].
      * rewrite decide_True; [reflexivity |].
        apply two_flips_cancel; [lia | lia | assumption].
      * rewrite decide_False; [reflexivity |].
        intros Heq. apply Hbits.
        by apply (two_flips_cancel v f.2 g.2 ltac:(lia) ltac:(lia)).
    + rewrite (differing_alter_two _ _ values f.1 g.1 v w Hother Hv Hw).
      rewrite !decide_False; [reflexivity | |];
        apply flip_changes_value; lia.
Qed.

(** The flips of [mutatedCopy] in terms of the raw draws of the random
    source: the first draw decides between one and two mutations; each
    mutation takes one draw for the chromosome index and the next for the
    bit. *)
Lemma drawnFlips_draws (r : Rng) :
  let draw := fun k : nat => draws r (cursor r + k) in
  let flip := fun k : nat => (Z.to_nat (draw k mod 4), draw (S k) mod 32) in
  drawnFlips r = if draw 0%nat mod 2 =? 0 then [flip 1%nat]
                 else [flip 1%nat; flip 3%nat].
Proof.
  cbv zeta. unfold drawnFlips. rewrite bind_unfold.
  cbn [randint fst snd cursor draws]. unfold Genotype.MUTATION_RATE_MAXIMUM.
  change (2 - 1 + 1) with 2.
  rewrite Nat.add_0_r.
  replace (cursor r + 1)%nat with (S (cursor r)) by lia.
  replace (cursor r + 2)%nat with (S (S (cursor r))) by lia.
  replace (cursor r + 3)%nat with (S (S (S (cursor r)))) by lia.
  replace (cursor r + 4)%nat with (S (S (S (S (cursor r))))) by lia.
  pose proof (Z.mod_pos_bound (draws r (cursor r)) 2 ltac:(lia)) as Hnumber.
  destruct (Z.eqb_spec (draws r (cursor r) mod 2) 0) as [Hone | Htwo].
  - rewrite Hone. reflexivity.
  - assert (draws r (cursor r) mod 2 = 1) as -> by lia. reflexivity.
Qed.

(** *** Mutation *)

(** C3, as the code has it: on a genotype of four chromosomes
    [mutatedCopy] returns a genotype of four chromosomes obtained by the
    flips it draws from the random source.  The first draw decides between
    one flip and two; each flip takes one draw for the chromosome index
    (below 4) and the next for the bit (0..31).  The raw values of the
    child are the parent's with those flips applied in order, so each is
    the parent's with exactly the flipped bits changed.  One flip changes
    exactly one raw value; two flips change two raw values when they
    target different chromosomes and one when they target different bits
    of the same chromosome; and no raw value differs exactly when the two
    flips hit the same bit of the same chromosome and cancel.  So between
    1 and 2 chromosomes differ from the parent's, unless the flips
    cancel. *)
Theorem mutatedCopy_flips_at_most_two (m : Mem) (parent : Genotype.t)
  (chs : list Chromosome.t) :
  Genotype.view m parent = Some chs ->
  List.length chs = Genotype.CHROMOSOME_COUNT ->
  let draw := fun k : nat => draws (rng m) (cursor (rng m) + k) in
  let flip := fun k : nat => (Z.to_nat (draw k mod 4), draw (S k) mod 32) in
  let flips : list Flip :=
    if draw 0%nat mod 2 =? 0 then [flip 1%nat] else [flip 1%nat; flip 3%nat] in
  let values := Chromosome.chromosomeValue <$> chs in
  exists child m' chs',
    Genotype.mutatedCopy parent m = Some (child, m')
    /\ Genotype.view m' child = Some chs'
    /\ List.length chs' = Genotype.CHROMOSOME_COUNT
    /\ flips = drawnFlips (rng m)
    /\ (1 <= List.length flips <= Z.to_nat Genotype.MUTATION_RATE_MAXIMUM)%nat
    /\ Forall validFlip flips
    /\ Chromosome.chromosomeValue <$> chs' = applyFlips values flips
    /\ (forall i c c',
          chs !! i = Some c -> chs' !! i = Some c' ->
          Chromosome.chromosomeValue c'
          = Z.lxor (Chromosome.chromosomeValue c) (flipMask flips i))
    /\ differing values (Chromosome.chromosomeValue <$> chs')
       = match flips with
         | [f; g] =>
             if decide (f.1 = g.1)
             then if decide (f.2 = g.2) then 0%nat else 1%nat
             else 2%nat
         | _ => 1%nat
         end
    /\ (differing values (Chromosome.chromosomeValue <$> chs') <= 2)%nat
    /\ (differing values (Chromosome.chromosomeValue <$> chs') = 0%nat
        <-> exists f, flips = [f; f]).
Proof.
  intros Hview Hchs. cbv zeta.
  destruct (mutatedCopy_view m parent chs Hview Hchs)
    as (child & m' & flips & items & items' & chs' & Hrun & Hcount & Hvalid
        & Hdrawn & Hl & Hholds & Hfresh & Hframe & Hl' & Hholds' & Hchs'
        & Hentries).
  pose proof (Forall2_length _ _ _ Hholds) as Hitems.
  pose proof (Forall2_length _ _ _ Hholds') as Hitems'.
  assert (Hvalue : forall i c c',
            chs !! i = Some c -> chs' !! i = Some c' ->
            Chromosome.chromosomeValue c'
            = Z.lxor (Chromosome.chromosomeValue c) (flipMask flips i)).
  { intros i c c' Hc Hc'.
    destruct (lookup_lt_is_Some_2 items i) as [a Ha];
      [apply lookup_lt_Some in Hc; lia |].
    destruct (lookup_lt_is_Some_2 items' i) as [a' Ha'];
      [apply lookup_lt_Some in Hc'; lia |].
    by destruct (Hentries i a c a' c' Ha Hc Ha' Hc'). }
  assert (Hvalues : Chromosome.chromosomeValue <$> chs'
                    = applyFlips (Chromosome.chromosomeValue <$> chs) flips).
  { apply list_eq. intros i. rewrite list_lookup_fmap.
    destruct (chs' !! i) as [c' |] eqn:Hc'; cbn.
    - destruct (lookup_lt_is_Some_2 chs i) as [c Hc];
        [apply lookup_lt_Some in Hc'; lia |].
      rewrite (applyFlips_lookup flips i _ (Chromosome.chromosomeValue c))
        by (by rewrite list_lookup_fmap, Hc).
      f_equal. by apply Hvalue.
    - symmetry. apply lookup_ge_None_2.
      rewrite length_applyFlips, length_fmap.
      apply lookup_ge_None_1 in Hc'. lia. }
  pose proof (differing_flips (Chromosome.chromosomeValue <$> chs) flips
                ltac:(by rewrite length_fmap) Hvalid) as Hexact.
  rewrite <- Hvalues in Hexact.
  pose proof (drawnFlips_draws (rng m)) as Hdraws. cbv zeta in Hdraws.
  rewrite <- Hdrawn in Hdraws.
  exists child, m', chs'.
  split; [assumption |].
  split; [apply view_Some; by exists items' |].
  split; [assumption |].
  rewrite <- Hdraws.
  split; [exact Hdrawn |]. split; [exact Hcount |]. split; [assumption |].
  split; [assumption |]. split; [assumption |].
  rewrite Hexact.
  destruct flips as [| f [| g [| h flips]]]; cbn in Hcount; try lia.
  - split; [reflexivity |]. split; [lia |].
    split; [discriminate | by intros [f0 [=]]].
  - split; [reflexivity |].
    destruct (decide (f.1 = g.1)) as [Hsame | Hother];
      [destruct (decide (f.2 = g.2)) as [Hbits | Hbits] |].
    + split; [lia |]. split; [| reflexivity]. intros _. exists f.
      destruct f, g. cbn in *. by subst.
    + split; [lia |]. split; [discriminate |].
      intros [f0 [= -> ->]]. by destruct Hbits.
    + split; [lia |]. split; [discriminate |].
      intros [f0 [= -> ->]]. by destruct Hother.
Qed.

(** C8: [mutatedCopy] changes no object of the store it is given, so the
    parent reads the same chromosomes afterwards; the child has a list of
    its own; a chromosome of the child whose raw value equals the parent's
    at that index is the parent's chromosome object itself, and one whose
    raw value differs is a chromosome built at an address not in use
    before. *)
Theorem mutatedCopy_shares_unmutated (m : Mem) (parent : Genotype.t)
  (chs : list Chromosome.t) :
  Genotype.view m parent = Some chs ->
  List.length chs = Genotype.CHROMOSOME_COUNT ->
  exists child m' items items' chs',
    Genotype.mutatedCopy parent m = Some (child, m')
    /\ (forall a o, objects m !! a = Some o -> objects m' !! a = Some o)
    /\ Genotype.view m' parent = Some chs
    /\ objects m !! Genotype.chromosomes parent = Some (ListObj items)
    /\ objects m !! Genotype.chromosomes child = None
    /\ objects m' !! Genotype.chromosomes child = Some (ListObj items')
    /\ Genotype.view m' child = Some chs'
    /\ List.length chs' = Genotype.CHROMOSOME_COUNT
    /\ forall i a c a' c',
         items !! i = Some a -> chs !! i = Some c ->
         items' !! i = Some a' -> chs' !! i = Some c' ->
         (Chromosome.chromosomeValue c' = Chromosome.chromosomeValue c ->
          a' = a /\ c' = c)
         /\ (Chromosome.chromosomeValue c' <> Chromosome.chromosomeValue c ->
             objects m !! a' = None
             /\ c' = Chromosome._interpretChromosomeValue i
                       (Chromosome.chromosomeValue c')).
Proof.
  intros Hview Hchs.
  destruct (mutatedCopy_view m parent chs Hview Hchs)
    as (child & m' & flips & items & items' & chs' & Hrun & Hcount & Hvalid
        & Hdrawn & Hl & Hholds & Hfresh & Hframe & Hl' & Hholds' & Hchs'
        & Hentries).
  exists child, m', items, items', chs'.
  split; [assumption |]. split; [assumption |].
  split.
  { apply view_Some. exists items. split; [by apply Hframe |].
    eapply Forall2_impl; [exact Hholds |].
    intros a c. unfold holds. apply Hframe. }
  split; [assumption |]. split; [assumption |]. split; [assumption |].
  split; [apply view_Some; by exists items' |].
  split; [assumption |].
  intros i a c a' c' Ha Hc Ha' Hc'.
  by destruct (Hentries i a c a' c' Ha Hc Ha' Hc') as (_ & Hkept & Hbuilt).
Qed.

(** *** Random generation *)

Lemma randomChromosomes_run (indices : list nat) :
  forall m : Mem,
  exists items m' chs,
    Genotype.randomChromosomes indices m = Some (items, m')
    /\ (forall a o, objects m !! a = Some o -> objects m' !! a = Some o)
    /\ Forall2 (holds m') items chs
    /\ List.length chs = List.length indices
    /\ Forall (fun c => Chromosome.terminated c = false) chs.
Proof.
  induction indices as [| index indices IH]; intros m.
  { exists [], m, []. repeat split; try done; constructor. }
  cbn [Genotype.randomChromosomes].
  unfold bind_run at 1, random at 1.
  pose proof (unexplicit_value_decoded index
                (randint 0 0xFFFFFFFF (rng m)).1) as (_ & Hterm & _).
  unfold Chromosome.__init__ at 1. rewrite bind_unfold. cbn [ret fst snd].
  set (c := Chromosome._interpretChromosomeValue index _) in *.
  set (m1 := {| objects := objects m;
                rng := (randint 0 0xFFFFFFFF (rng m)).2 |}).
  destruct (alloc_run (ChromosomeObj c) m1) as (a & Halloc & Hfresh).
  rewrite (bind_run_Some _ _ _ _ _ Halloc).
  subst m1. cbn [objects rng] in *.
  destruct (IH {| objects := <[a := ChromosomeObj c]> (objects m);
                  rng := (randint 0 0xFFFFFFFF (rng m)).2 |})
    as (items & m' & chs & Hrun & Hframe & Hholds & Hlen & Hall).
  cbn [objects] in Hframe.
  rewrite (bind_run_Some _ _ _ _ _ Hrun).
  exists (a :: items), m', (c :: chs).
  split; [reflexivity |].
  split.
  { intros a0 o Ha0. apply Hframe.
    rewrite lookup_insert_ne by (intros <-; congruence). assumption. }
  split.
  { constructor; [| assumption]. unfold holds. apply Hframe.
    apply lookup_insert_eq. }
  split; [cbn; by rewrite Hlen |].
  by constructor.
Qed.

(** C9: a chromosome built without a value has bit 16 of its raw value
    set, is not terminated and has branch count 1 or 3; and a genotype
    built without chromosomes has four chromosomes, none terminated. *)
Theorem random_chromosomes_are_not_terminated :
  (forall (index : nat) (r : Rng),
     let c := (Chromosome.__init__ index None r).1 in
     Z.testbit (Chromosome.chromosomeValue c) 16 = true
     /\ Chromosome.terminated c = false
     /\ (Chromosome.branchCount c = 1 \/ Chromosome.branchCount c = 3))
  /\ (forall m : Mem,
      exists g m' chs,
        Genotype.__init__ None m = Some (g, m')
        /\ Genotype.view m' g = Some chs
        /\ List.length chs = Genotype.CHROMOSOME_COUNT
        /\ Forall (fun c => Chromosome.terminated c = false) chs).
Proof.
  split.
  - intros index r. cbv zeta.
    unfold Chromosome.__init__. rewrite bind_unfold. cbn [ret fst].
    apply unexplicit_value_decoded.
  - intros m. unfold Genotype.__init__.
    destruct (randomChromosomes_run (seq 0 Genotype.CHROMOSOME_COUNT) m)
      as (items & m1 & chs & Hrun & Hframe & Hholds & Hlen & Hall).
    rewrite (bind_run_Some _ _ _ _ _ Hrun).
    destruct (alloc_run (ListObj items) m1) as (l & Halloc & Hfresh).
    rewrite (bind_run_Some _ _ _ _ _ Halloc).
    eexists _, _, chs. split; [reflexivity |].
    split; [| split; [by rewrite Hlen, length_seq | assumption]].
    apply view_Some. exists items. cbn [Genotype.chromosomes objects].
    split; [apply lookup_insert_eq |].
    eapply Forall2_impl; [exact Hholds |].
    intros a c. unfold holds. cbn [objects]. intros Ha.
    rewrite lookup_insert_ne by (intros <-; congruence). assumption.
Qed.

End Store.

(** ** Concrete runs on the lattice plane *)

Section Concrete.
#[local] Existing Instance lattice.

Lemma latticeExact : ExactPlane lattice.
Proof.
  split.
  - intros [x y] a. cbn. f_equal; lia.
  - intros [x y] a d1 d2. cbn. f_equal; lia.
Qed.

(** Three straight branches of length 10 sprouting from the origin,
    heading up. *)
Lemma straight_children_collinear_witness :
  let c := Chromosome._interpretChromosomeValue 0 (gene 0 10 0 3 0) in
  let parent := CreaturePanel.startingPenPosition (squarePanel (-100) (-100) 100 100) in
  Chromosome.terminated c = false
  /\ Chromosome.symmetryBits c = Chromosome._SYMMETRY_STRAIGHT_VALUE
  /\ Chromosome.branchCount c = 3
  /\ Z.of_nat (List.length (Chromosome.childSegmentPositions c parent freshPen).1) = 3
  /\ forall i child,
       (Chromosome.childSegmentPositions c parent freshPen).1 !! i = Some child ->
       savedPoint child
       = advance (savedPoint parent) (PenPosition.heading parent)
           (Z.of_nat i * Chromosome.length c)
       /\ PenPosition.heading child = PenPosition.heading parent
       /\ PenPosition.chiralityRight child = PenPosition.chiralityRight parent.
Proof.
  intros c parent.
  split; [reflexivity |]. split; [reflexivity |]. split; [reflexivity |].
  apply (@straight_children_collinear lattice latticeExact c parent freshPen 3);
    [reflexivity | reflexivity | reflexivity | lia].
Defined.

(** A terminated chromosome, and chromosomes of two branches with
    bilateral, same-handed and opposite-handed symmetry. *)
Lemma childSegmentPositions_count_witness :
  let parent := CreaturePanel.startingPenPosition (squarePanel (-100) (-100) 100 100) in
  let children := fun value =>
    (Chromosome.childSegmentPositions
       (Chromosome._interpretChromosomeValue 0 value) parent freshPen).1 in
  children (gene 30 10 3 0 0) = []
  /\ List.length (children (gene 30 10 3 2 0)) = 4%nat
  /\ List.length (children (gene 30 10 1 2 0)) = 2%nat
  /\ List.length (children (gene 30 10 2 2 0)) = 2%nat.
Proof.
  intros parent children.
  pose (count := fun value =>
          @childSegmentPositions_count lattice
            (Chromosome._interpretChromosomeValue 0 value) parent freshPen).
  split; [| split; [| split]].
  - apply (proj1 (count (gene 30 10 3 0 0))). reflexivity.
  - apply (proj1 (proj2 (count (gene 30 10 3 2 0))));
      [reflexivity | discriminate | discriminate].
  - apply (proj1 (proj2 (proj2 (count (gene 30 10 1 2 0)))));
      [reflexivity | discriminate | reflexivity].
  - apply (proj2 (proj2 (proj2 (count (gene 30 10 2 2 0)))));
      [reflexivity | reflexivity | discriminate].
Defined.

(** A dot of length 5 grown from the origin heading up: the bounds test
    leaves the pen at (0, 4), drawing leaves it at (0, 5). *)
Lemma validated_end_short_of_drawn_end_witness :
  let c := Chromosome._interpretChromosomeValue 0 (gene 0 5 0 1 1) in
  let panel := squarePanel (-100) (-100) 100 100 in
  let s := CreaturePanel.startingPenPosition panel in
  let penV := (Chromosome.segmentOutOfBounds c (Some panel) (Some s) freshPen).2 in
  let segmentEndPenPosition :=
    (PenPosition.__init__ (PenPosition.chiralityRight s) penV).1 in
  let drawn :=
    position (Chromosome.drawSingleSegment c (Some panel) (Some s) freshPen).2 in
  Chromosome.shape c <> Chromosome._SHAPE__LINE_VALUE
  /\ Chromosome.segmentOutOfBounds c (Some panel) (Some s) freshPen = (false, penV)
  /\ Z.odd (Chromosome.length c) = true
  /\ position penV = (0, 4)
  /\ savedPoint segmentEndPenPosition = (0, 4)
  /\ drawn = (0, 5)
  /\ drawn = advance (savedPoint segmentEndPenPosition)
               (PenPosition.heading segmentEndPenPosition) 1.
Proof.
  intros c panel s penV segmentEndPenPosition drawn.
  assert (Hshape : Chromosome.shape c <> Chromosome._SHAPE__LINE_VALUE)
    by discriminate.
  assert (Htest : Chromosome.segmentOutOfBounds c (Some panel) (Some s) freshPen
                  = (false, penV)) by reflexivity.
  destruct (@validated_end_short_of_drawn_end lattice latticeExact c panel s
              freshPen penV freshPen Hshape Htest)
    as (Hvalidated & Hsaved & _ & Hdrawn & Hshort).
  split; [exact Hshape |]. split; [exact Htest |]. split; [reflexivity |].
  split; [rewrite Hvalidated; reflexivity |].
  split; [unfold segmentEndPenPosition; rewrite Hsaved, Hvalidated; reflexivity |].
  split; [unfold drawn; rewrite Hdrawn; reflexivity |].
  apply Hshort. reflexivity.
Defined.

(** Two runs.  In the first, two generation-0 segments of length 10
    grow upwards from the origin and the second generation-1 segment, from
    (0, 20), ends on (0, 30), beyond the top edge at 25.  In the second, a
    single segment is grown and drawn. *)
Lemma out_of_bounds_draws_nothing_witness :
  let chromosomes := chromosomesOf [gene 0 10 0 2 0; gene 0 10 0 1 0; 0; 0] in
  let panel := squarePanel (-100) (-100) 100 25 in
  let r := Creature.growAndDraw chromosomes panel freshPen in
  let s := {| PenPosition.chiralityRight := true; PenPosition.xPosition := 0;
              PenPosition.yPosition := 20; PenPosition.heading := 90 |} in
  let c := Chromosome._interpretChromosomeValue 1 (gene 0 10 0 1 0) in
  let chromosomes' := chromosomesOf [gene 0 10 0 1 0; 0; 0; 0] in
  let panel' := squarePanel (-100) (-100) 100 100 in
  let r' := Creature.growAndDraw chromosomes' panel' freshPen in
  (List.length chromosomes = Genotype.CHROMOSOME_COUNT
   /\ s ∈ Creature.row r.1.2 1
   /\ chromosomes !! 1%nat = Some c
   /\ (Chromosome.segmentOutOfBounds c (Some panel) (Some s) freshPen).1 = true
   /\ Creature.display chromosomes panel freshPen = (Some false, r.2)
   /\ canvas r.2 = canvas freshPen)
  /\ (List.length chromosomes' = Genotype.CHROMOSOME_COUNT
      /\ canvas r'.2 <> canvas freshPen
      /\ Creature.display chromosomes' panel' freshPen = (Some true, r'.2)).
Proof.
  intros chromosomes panel r s c chromosomes' panel' r'.
  assert (Hlen : List.length chromosomes = Genotype.CHROMOSOME_COUNT)
    by reflexivity.
  assert (Hrun : Creature.growAndDraw chromosomes panel freshPen
                 = (r.1.1, r.1.2, r.2))
    by (unfold r;
        by destruct (Creature.growAndDraw chromosomes panel freshPen)
             as [[? ?] ?]).
  assert (Hin : s ∈ Creature.row r.1.2 1)
    by (apply (list_elem_of_lookup_2 _ 1%nat); reflexivity).
  assert (Hc : chromosomes !! 1%nat = Some c) by reflexivity.
  assert (Hout : (Chromosome.segmentOutOfBounds c (Some panel) (Some s)
                    freshPen).1 = true) by (vm_compute; reflexivity).
  assert (Hlen' : List.length chromosomes' = Genotype.CHROMOSOME_COUNT)
    by reflexivity.
  assert (Hrun' : Creature.growAndDraw chromosomes' panel' freshPen
                  = (r'.1.1, r'.1.2, r'.2))
    by (unfold r';
        by destruct (Creature.growAndDraw chromosomes' panel' freshPen)
             as [[? ?] ?]).
  assert (Hchanged : canvas r'.2 <> canvas freshPen).
  { assert (Hdrawn : canvas r'.2 = [Stroke (0, 0) (0, 10) "brown" 0])
      by reflexivity.
    rewrite Hdrawn. discriminate. }
  split.
  - split; [exact Hlen |]. split; [exact Hin |]. split; [exact Hc |].
    split; [exact Hout |].
    exact (proj1 (@out_of_bounds_draws_nothing lattice chromosomes panel
                    freshPen _ _ _ Hlen Hrun) 1%nat s c freshPen Hin Hc Hout).
  - split; [exact Hlen' |]. split; [exact Hchanged |].
    exact (proj1 (proj2 (@out_of_bounds_draws_nothing lattice chromosomes'
                           panel' freshPen _ _ _ Hlen' Hrun') Hchanged)).
Defined.

(** A genotype whose first two chromosomes branch three times to both
    sides: generation 0 has 6 segments and generation 1 has 36. *)
Lemma too_many_segments_fail_witness :
  let chromosomes :=
    chromosomesOf [gene 0 1 3 3 0; gene 0 1 3 3 0; gene 0 1 3 3 0;
                   gene 0 1 3 3 0] in
  let panel := squarePanel (-100) (-100) 100 100 in
  let r := Creature.growAndDraw chromosomes panel freshPen in
  List.length chromosomes = Genotype.CHROMOSOME_COUNT
  /\ List.length (Creature.row r.1.2 1) = 36%nat
  /\ Creature.display chromosomes panel freshPen = (Some false, r.2).
Proof.
  intros chromosomes panel r.
  assert (Hlen : List.length chromosomes = Genotype.CHROMOSOME_COUNT)
    by reflexivity.
  assert (Hrun : Creature.growAndDraw chromosomes panel freshPen
                 = (r.1.1, r.1.2, r.2))
    by (unfold r;
        by destruct (Creature.growAndDraw chromosomes panel freshPen)
             as [[? ?] ?]).
  assert (Hrow : List.length (Creature.row r.1.2 1) = 36%nat)
    by (vm_compute; reflexivity).
  split; [exact Hlen |]. split; [exact Hrow |].
  apply (@too_many_segments_fail lattice chromosomes panel freshPen _ _ _ 1%nat
           Hlen Hrun).
  rewrite Hrow. unfold Creature._MAX_CHROMOSOME_SEGMENTS. lia.
Defined.

(** A later empty generation does not by itself end growth with [True]:
    here generation 0 validates (two
    segments, both in bounds), chromosome 2 is terminated and generation 2
    has no pen positions, yet [display] returns [False], because the
    second generation-1 segment runs past the top edge. *)
Lemma later_empty_generation_can_fail :
  let chromosomes := chromosomesOf [gene 0 10 0 2 0; gene 0 10 0 1 0; 0; 0] in
  let panel := squarePanel (-100) (-100) 100 25 in
  let r := Creature.growAndDraw chromosomes panel freshPen in
  List.length (Creature.row r.1.2 0) = 2%nat
  /\ forallb
       (fun s =>
          negb (Chromosome.segmentOutOfBounds
                  (Chromosome._interpretChromosomeValue 0 (gene 0 10 0 2 0))
                  (Some panel) (Some s) freshPen).1)
       (Creature.row r.1.2 0) = true
  /\ (Chromosome.terminated <$> chromosomes !! 2%nat) = Some true
  /\ Creature.row r.1.2 2 = []
  /\ (Creature.display chromosomes panel freshPen).1 = Some false.
Proof.
  intros chromosomes panel r.
  split; [vm_compute; reflexivity |]. split; [vm_compute; reflexivity |].
  split; [vm_compute; reflexivity |]. split; [reflexivity |].
  vm_compute; reflexivity.
Qed.

(** A genotype whose chromosome 1 is terminated: the one segment of
    generation 0 is drawn and [display] returns [True]. *)
Lemma first_empty_generation_ends_growth_witness :
  let chromosomes := chromosomesOf [gene 0 10 0 1 0; 0; 0; 0] in
  let panel := squarePanel (-100) (-100) 100 100 in
  let r := Creature.growAndDraw chromosomes panel freshPen in
  List.length chromosomes = Genotype.CHROMOSOME_COUNT
  /\ Creature.row r.1.2 1 = []
  /\ Creature.display chromosomes panel freshPen = (Some true, r.2)
  /\ canvas r.2
     = canvas (Creature.drawChromosomes chromosomes panel (seq 0 1) r.1.2
                 freshPen).2.
Proof.
  intros chromosomes panel r.
  assert (Hlen : List.length chromosomes = Genotype.CHROMOSOME_COUNT)
    by reflexivity.
  assert (Hrun : Creature.growAndDraw chromosomes panel freshPen
                 = (r.1.1, r.1.2, r.2))
    by (unfold r;
        by destruct (Creature.growAndDraw chromosomes panel freshPen)
             as [[? ?] ?]).
  assert (Hrow : Creature.row r.1.2 1 = []) by reflexivity.
  assert (Hrow0 : Creature.row r.1.2 0
                  = [CreaturePanel.startingPenPosition panel])
    by reflexivity.
  split; [exact Hlen |]. split; [exact Hrow |].
  apply (@first_empty_generation_ends_growth lattice chromosomes panel freshPen
           _ _ _ 1%nat Hlen Hrun).
  - unfold Genotype.CHROMOSOME_COUNT. lia.
  - intros k Hk. assert (k = 0%nat) as -> by lia.
    split; [rewrite Hrow0; vm_compute; lia |].
    intros s c0 Hin Hc0.
    rewrite Hrow0 in Hin.
    apply list_elem_of_singleton in Hin as ->.
    injection Hc0 as <-. vm_compute. reflexivity.
  - exact Hrow.
Defined.

(** Flips can cancel: every draw of the random source is 1, so two flips
    are made, both on bit 1 of chromosome 1, and no chromosome of the
    child differs from the parent's. *)
Lemma mutatedCopy_flips_can_cancel :
  let m := storeOf [gene 0 10 0 1 0; gene 0 10 0 1 0; 0; 0] (fun _ => 1) in
  match Genotype.mutatedCopy storedGenotype m with
  | Some (child, m') =>
      match Genotype.view m storedGenotype, Genotype.view m' child with
      | Some chs, Some chs' =>
          differing (Chromosome.chromosomeValue <$> chs)
            (Chromosome.chromosomeValue <$> chs') = 0%nat
      | _, _ => False
      end
  | None => False
  end.
Proof. vm_compute. reflexivity. Qed.

(** A store whose random source draws 0, 1, 2, ...: one flip, of bit 2 of
    chromosome 1, and exactly one raw value of the child differs. *)
Lemma mutatedCopy_flips_at_most_two_witness :
  let values := [gene 0 10 0 1 0; gene 0 10 0 1 0; 0; 0] in
  let m := storeOf values (fun n => Z.of_nat n) in
  Genotype.view m storedGenotype = Some (chromosomesOf values)
  /\ List.length (chromosomesOf values) = Genotype.CHROMOSOME_COUNT
  /\ exists child m' chs',
       Genotype.mutatedCopy storedGenotype m = Some (child, m')
       /\ Genotype.view m' child = Some chs'
       /\ Chromosome.chromosomeValue <$> chs'
          = applyFlips (Chromosome.chromosomeValue <$> chromosomesOf values)
              [(1%nat, 2)]
       /\ differing (Chromosome.chromosomeValue <$> chromosomesOf values)
            (Chromosome.chromosomeValue <$> chs') = 1%nat.
Proof.
  intros values m.
  assert (Hview : Genotype.view m storedGenotype = Some (chromosomesOf values))
    by (vm_compute; reflexivity).
  assert (Hlen : List.length (chromosomesOf values) = Genotype.CHROMOSOME_COUNT)
    by reflexivity.
  split; [exact Hview |]. split; [exact Hlen |].
  destruct (mutatedCopy_flips_at_most_two m storedGenotype (chromosomesOf values)
              Hview Hlen)
    as (child & m' & chs' & Hrun & Hview' & _ & _ & _ & _ & Hvalues & _
        & Hdiffer & _).
  exists child, m', chs'. split; [exact Hrun |]. split; [exact Hview' |].
  split; [exact Hvalues | exact Hdiffer].
Defined.

(** The same store: the parent reads the same chromosomes after the call
    and the child's list is a new object. *)
Lemma mutatedCopy_shares_unmutated_witness :
  let values := [gene 0 10 0 1 0; gene 0 10 0 1 0; 0; 0] in
  let m := storeOf values (fun n => Z.of_nat n) in
  Genotype.view m storedGenotype = Some (chromosomesOf values)
  /\ List.length (chromosomesOf values) = Genotype.CHROMOSOME_COUNT
  /\ exists child m',
       Genotype.mutatedCopy storedGenotype m = Some (child, m')
       /\ Genotype.view m' storedGenotype = Some (chromosomesOf values)
       /\ objects m !! Genotype.chromosomes child = None.
Proof.
  intros values m.
  assert (Hview : Genotype.view m storedGenotype = Some (chromosomesOf values))
    by (vm_compute; reflexivity).
  assert (Hlen : List.length (chromosomesOf values) = Genotype.CHROMOSOME_COUNT)
    by reflexivity.
  split; [exact Hview |]. split; [exact Hlen |].
  destruct (mutatedCopy_shares_unmutated m storedGenotype (chromosomesOf values)
              Hview Hlen)
    as (child & m' & items & items' & chs' & Hrun & _ & Hparent & _ & Hfresh & _).
  exists child, m'. split; [exact Hrun |]. split; [exact Hparent |].
  exact Hfresh.
Defined.

End Concrete.

(** * Further properties *)

(** ** The decoded attributes *)

Section Attributes.

(** A field cut out by a mask whose shifted value is [2 ^ n - 1]. *)
Lemma field_range (value mask shift n : Z) :
  0 <= n -> Z.shiftr mask shift = Z.ones n ->
  0 <= Z.shiftr (Z.land value mask) shift < 2 ^ n.
Proof.
  intros Hn Hmask.
  rewrite Z.shiftr_land, Hmask, Z.land_ones by assumption.
  apply Z.mod_pos_bound. by apply Z.pow_pos_nonneg.
Qed.

(** X1: whatever the integer, the decoded branch angle lies in 0..63, the
    length in 0..31, and the symmetry bits, the branch count and the shape
    in 0..3. *)
Theorem decoded_fields_in_range (index : nat) (value : Z) :
  let c := Chromosome._interpretChromosomeValue index value in
  0 <= Chromosome.branchAngle c <= 63
  /\ 0 <= Chromosome.length c <= 31
  /\ 0 <= Chromosome.symmetryBits c <= 3
  /\ 0 <= Chromosome.branchCount c <= 3
  /\ 0 <= Chromosome.shape c <= 3.
Proof.
  cbv zeta.
  cbn [Chromosome.branchAngle Chromosome.length Chromosome.symmetryBits
       Chromosome.branchCount Chromosome.shape
       Chromosome._interpretChromosomeValue].
  pose proof (field_range value Chromosome._BRANCH_ANGLE_GENE_BITS
                Chromosome._BRANCH_ANGLE_SHIFT_NUMBER 6 ltac:(lia) eq_refl).
  pose proof (field_range value Chromosome._LENGTH_GENE_BITS
                Chromosome._LENGTH_SHIFT_NUMBER 5 ltac:(lia) eq_refl).
  pose proof (field_range value Chromosome._SYMMETRY_GENE_BITS
                Chromosome._SYMMETRY_SHIFT_NUMBER 2 ltac:(lia) eq_refl).
  pose proof (field_range value Chromosome._BRANCH_COUNT_GENE_BITS
                Chromosome._BRANCH_COUNT_SHIFT_NUMBER 2 ltac:(lia) eq_refl).
  pose proof (field_range value Chromosome._SHAPE_GENE_BITS
                Chromosome._SHAPE_SHIFT_NUMBER 2 ltac:(lia) eq_refl).
  lia.
Qed.

(** X2: a decoded chromosome is terminated exactly when its branch count
    is zero. *)
Theorem terminated_iff_no_branches (index : nat) (value : Z) :
  let c := Chromosome._interpretChromosomeValue index value in
  Chromosome.terminated c = true <-> Chromosome.branchCount c = 0.
Proof.
  cbv zeta.
  cbn [Chromosome.terminated Chromosome.branchCount
       Chromosome._interpretChromosomeValue].
  change Chromosome._SEGMENT_TERMINATION_GENE_BITS
    with Chromosome._BRANCH_COUNT_GENE_BITS.
  set (bits := Z.land value Chromosome._BRANCH_COUNT_GENE_BITS).
  assert (Hlow : bits mod 2 ^ 16 = 0)
    by (apply land_mask_low_bits; [discriminate | reflexivity]).
  pose proof (Z.div_mod bits (2 ^ 16) ltac:(lia)) as Hdiv.
  rewrite Hlow, Z.add_0_r in Hdiv.
  rewrite Z.eqb_eq, Z.shiftr_div_pow2 by discriminate.
  unfold Chromosome._SEGMENT_TERMINATED,
    Chromosome._BRANCH_COUNT_SHIFT_NUMBER.
  split; intros Hzero.
  - rewrite Hzero. reflexivity.
  - rewrite Hdiv, Hzero. reflexivity.
Qed.

Lemma segmentColor_in_table (offset : Z) :
  0 <= offset < 8 ->
  Chromosome._SEGMENT_COLORS !! Z.to_nat offset
  = Some (Chromosome.segmentColor offset).
Proof.
  intros Hoffset. unfold Chromosome.segmentColor.
  assert (Hcases : offset = 0 \/ offset = 1 \/ offset = 2 \/ offset = 3
                   \/ offset = 4 \/ offset = 5 \/ offset = 6 \/ offset = 7)
    by lia.
  destruct Hcases as [-> | [-> | [-> | [-> | [-> | [-> | [-> | ->]]]]]]];
    reflexivity.
Qed.

(** X3: the colour lookups never leave the table: the line colour is the
    table entry at the 3-bit field of bits 24-26 and the fill colour the
    entry at the field of bits 28-30, the reduction modulo 8 changing
    nothing. *)
Theorem decoded_colours_from_table (index : nat) (value : Z) :
  let c := Chromosome._interpretChromosomeValue index value in
  Chromosome._SEGMENT_COLORS !! Z.to_nat (Z.land (Z.shiftr value 24) 7)
  = Some (Chromosome.lineColor c)
  /\ Chromosome._SEGMENT_COLORS !! Z.to_nat (Z.land (Z.shiftr value 28) 7)
     = Some (Chromosome.fillColor c).
Proof.
  cbv zeta.
  cbn [Chromosome.lineColor Chromosome.fillColor
       Chromosome._interpretChromosomeValue].
  pose proof (field_range value Chromosome._LINE_COLOR_GENE_BITS
                Chromosome._LINE_COLOR_SHIFT_NUMBER 3 ltac:(lia) eq_refl)
    as Hline.
  pose proof (field_range value Chromosome._FILL_COLOR_GENE_BITS
                Chromosome._FILL_COLOR_SHIFT_NUMBER 3 ltac:(lia) eq_refl)
    as Hfill.
  unfold Chromosome._MAX_COLORS.
  rewrite !Z.mod_small by (change 8 with (2 ^ 3); assumption).
  rewrite <- !segmentColor_in_table by (change 8 with (2 ^ 3); assumption).
  rewrite !Z.shiftr_land. split; reflexivity.
Qed.

Lemma land_lxor_mask (a b mask : Z) :
  Z.land b mask = 0 -> Z.land (Z.lxor a b) mask = Z.land a mask.
Proof.
  intros Hb. apply Z.bits_inj'. intros n Hn.
  rewrite !Z.land_spec, Z.lxor_spec.
  assert (Hbit : Z.testbit b n && Z.testbit mask n = false).
  { rewrite <- Z.land_spec, Hb. apply Z.bits_0. }
  destruct (Z.testbit a n), (Z.testbit b n), (Z.testbit mask n);
    first [reflexivity | discriminate].
Qed.

(** X4: bits 11, 14, 15, 22, 23, 27 and 31 of a raw value belong to no
    gene: flipping one of them, as a mutation may, changes no decoded
    attribute. *)
Theorem unused_bits_are_silent (index : nat) (value bit : Z) :
  bit ∈ [11; 14; 15; 22; 23; 27; 31] ->
  let c := Chromosome._interpretChromosomeValue index value in
  let c' := Chromosome._interpretChromosomeValue index
              (Z.lxor value (Z.shiftl 1 bit)) in
  Chromosome.branchAngle c' = Chromosome.branchAngle c
  /\ Chromosome.length c' = Chromosome.length c
  /\ Chromosome.symmetryBits c' = Chromosome.symmetryBits c
  /\ Chromosome.branchCount c' = Chromosome.branchCount c
  /\ Chromosome.terminated c' = Chromosome.terminated c
  /\ Chromosome.shape c' = Chromosome.shape c
  /\ Chromosome.lineWidth c' = Chromosome.lineWidth c
  /\ Chromosome.lineColor c' = Chromosome.lineColor c
  /\ Chromosome.fillColor c' = Chromosome.fillColor c.
Proof.
  intros Hbit. cbv zeta.
  cbn [Chromosome.branchAngle Chromosome.length Chromosome.symmetryBits
       Chromosome.branchCount Chromosome.terminated Chromosome.shape
       Chromosome.lineWidth Chromosome.lineColor Chromosome.fillColor
       Chromosome._interpretChromosomeValue].
  assert (Hsilent : forall mask,
            mask ∈ [Chromosome._BRANCH_ANGLE_GENE_BITS;
                    Chromosome._LENGTH_GENE_BITS;
                    Chromosome._SYMMETRY_GENE_BITS;
                    Chromosome._BRANCH_COUNT_GENE_BITS;
                    Chromosome._SHAPE_GENE_BITS;
                    Chromosome._LINE_WIDTH_GENE_BITS;
                    Chromosome._LINE_COLOR_GENE_BITS;
                    Chromosome._FILL_COLOR_GENE_BITS] ->
            Z.land (Z.lxor value (Z.shiftl 1 bit)) mask = Z.land value mask).
  { intros mask Hmask. apply land_lxor_mask.
    repeat (apply elem_of_cons in Hbit as [-> | Hbit]);
      [| | | | | | | by apply elem_of_nil in Hbit];
      repeat (apply elem_of_cons in Hmask as [-> | Hmask]);
      first [reflexivity | by apply elem_of_nil in Hmask]. }
  change Chromosome._SEGMENT_TERMINATION_GENE_BITS
    with Chromosome._BRANCH_COUNT_GENE_BITS.
  rewrite !Hsilent by (repeat first [by left | right]).
  repeat split.
Qed.

(** Flipping bit 15 of a value whose branch count is 3 leaves it 3. *)
Lemma unused_bits_are_silent_witness :
  15 ∈ [11; 14; 15; 22; 23; 27; 31]
  /\ Chromosome.branchCount
       (Chromosome._interpretChromosomeValue 0
          (Z.lxor 0x00030000 (Z.shiftl 1 15)))
     = 3.
Proof.
  assert (Hbit : 15 ∈ [11; 14; 15; 22; 23; 27; 31])
    by (right; right; left).
  split; [exact Hbit |].
  rewrite (proj1 (proj2 (proj2 (proj2
             (unused_bits_are_silent 0 0x00030000 15 Hbit))))).
  reflexivity.
Defined.

End Attributes.

(** ** Pen code on a lifted pen *)

Section PenRuns.
Context {P : Plane}.

Lemma Uniform_ret {A} (x : A) : Uniform (ret x).
Proof. intros q a. by exists x, q, a. Qed.

Lemma Uniform_bind {A B} (m : St Pen A) (k : A -> St Pen B) :
  Uniform m -> (forall x, Uniform (k x)) -> Uniform (bind m k).
Proof.
  intros Hm Hk q a.
  destruct (Hm q a) as (x & q1 & a1 & Hx).
  destruct (Hk x q1 a1) as (y & q2 & a2 & Hy).
  exists y, q2, a2. intros pen.
  by rewrite (bind_run_eq _ _ _ _ _ (Hx pen)).
Qed.

Lemma Uniform_if {A} (b : bool) (m1 m2 : St Pen A) :
  Uniform m1 -> Uniform m2 -> Uniform (if b then m1 else m2).
Proof. by destruct b. Qed.

Lemma Uniform_restore (s : PenPosition.t) : Uniform (PenPosition.restore s).
Proof.
  intros q a. exists tt, (savedPoint s), (PenPosition.heading s).
  intros pen. by rewrite restore_run.
Qed.

Lemma Uniform_forward d : Uniform (forward d).
Proof.
  intros q a. exists tt, (advance q a d), a. intros pen. apply forward_raised.
Qed.

Lemma Uniform_left d : Uniform (left d).
Proof.
  intros q a. exists tt, q, (rotate a d). intros pen. apply left_raised.
Qed.

Lemma Uniform_right d : Uniform (right d).
Proof.
  intros q a. exists tt, q, (rotate a (- d)). intros pen. apply right_raised.
Qed.

Lemma Uniform_xcor : Uniform xcor.
Proof. intros q a. exists q.1, q, a. intros pen. reflexivity. Qed.

Lemma Uniform_ycor : Uniform ycor.
Proof. intros q a. exists q.2, q, a. intros pen. reflexivity. Qed.

Lemma Uniform_snapshot chirality : Uniform (PenPosition.__init__ chirality).
Proof.
  intros q a. eexists _, q, a. intros pen. apply snapshot_raised.
Qed.

Create HintDb uniform.
#[local] Hint Resolve Uniform_ret Uniform_restore Uniform_forward Uniform_left
  Uniform_right Uniform_xcor Uniform_ycor Uniform_snapshot : uniform.
#[local] Hint Extern 2 (Uniform (bind _ _)) =>
  apply Uniform_bind; [| intros ?] : uniform.
#[local] Hint Extern 2 (Uniform (if _ then _ else _)) =>
  apply Uniform_if : uniform.

Lemma Uniform_straightBranches (c : Chromosome.t) chirality count :
  Uniform (Chromosome.straightBranches count c chirality).
Proof.
  induction count; cbn [Chromosome.straightBranches]; auto 10 with uniform.
Qed.

Lemma Uniform_angledBranches (c : Chromosome.t) chirality count :
  Uniform (Chromosome.angledBranches count c chirality).
Proof.
  induction count; cbn [Chromosome.angledBranches]; auto 10 with uniform.
Qed.

#[local] Hint Resolve Uniform_straightBranches Uniform_angledBranches : uniform.

(** Code that first restores a saved position runs the same from any pen. *)
Lemma restored_first {A} (s : PenPosition.t) (k : St Pen A) :
  Uniform k ->
  exists x q a,
    forall pen, bind (PenPosition.restore s) (fun _ => k) pen
                = (x, raised q a pen).
Proof.
  intros Hk.
  destruct (Hk (savedPoint s) (PenPosition.heading s)) as (x & q & a & Hx).
  exists x, q, a. intros pen.
  rewrite (bind_run_eq _ _ _ _ _ (restore_run s pen)). apply Hx.
Qed.

Lemma childSegmentPositions_run (c : Chromosome.t) (s : PenPosition.t) :
  exists children q a,
    forall pen, Chromosome.childSegmentPositions c s pen
                = (children, raised q a pen).
Proof.
  unfold Chromosome.childSegmentPositions.
  apply restored_first. auto 10 with uniform.
Qed.

Lemma segmentOutOfBounds_run (c : Chromosome.t) (panel : CreaturePanel.t)
  (s : PenPosition.t) :
  exists outOfBounds q a,
    forall pen, Chromosome.segmentOutOfBounds c (Some panel) (Some s) pen
                = (outOfBounds, raised q a pen).
Proof.
  unfold Chromosome.segmentOutOfBounds.
  apply restored_first.
  apply Uniform_bind; [auto 10 with uniform |].
  intros [[[leftX bottomY] rightX] topY]. auto 10 with uniform.
Qed.

Lemma Uniform_of_run {A} (m : St Pen A) :
  (exists x q a, forall pen, m pen = (x, raised q a pen)) -> Uniform m.
Proof.
  intros (x & q & a & Hm) q0 a0. exists x, q, a. intros pen.
  by rewrite Hm.
Qed.

Lemma Uniform_validateSegments (chromosomes : list Chromosome.t)
  (panel : CreaturePanel.t) (n : nat) (segments : list PenPosition.t) :
  forall table,
    Uniform (Creature.validateSegments chromosomes panel n segments table).
Proof.
  induction segments as [| s rest IH]; intros table;
    cbn [Creature.validateSegments]; [apply Uniform_ret |].
  destruct (chromosomes !! n) as [c |]; [| apply Uniform_ret].
  apply Uniform_bind; [apply Uniform_of_run, segmentOutOfBounds_run |].
  intros [|]; [apply Uniform_ret |].
  apply Uniform_bind; [apply Uniform_snapshot |]. intros segmentEnd.
  destruct (n <? Genotype.CHROMOSOME_COUNT - 1)%nat; [| apply IH].
  destruct (chromosomes !! (n + 1)%nat) as [next |]; [| apply Uniform_ret].
  apply Uniform_bind; [apply Uniform_of_run, childSegmentPositions_run |].
  intros children. apply IH.
Qed.

Lemma Uniform_validateChromosomes (chromosomes : list Chromosome.t)
  (panel : CreaturePanel.t) (numbers : list nat) :
  forall table,
    Uniform (Creature.validateChromosomes chromosomes panel numbers table).
Proof.
  induction numbers as [| n rest IH]; intros table;
    cbn [Creature.validateChromosomes]; [apply Uniform_ret |].
  destruct (_ <? _)%nat; [apply Uniform_ret |].
  destruct (_ =? 0)%nat; [destruct (n =? 0)%nat; apply Uniform_ret |].
  apply Uniform_bind; [apply Uniform_validateSegments |].
  intros [[| result |] table1]; first [apply IH | apply Uniform_ret].
Qed.

(** *** What drawing appends to the canvas *)

Lemma paints_ret {A} (x : A) : paints (ret x) x [].
Proof. intros pen Hup. cbn. by rewrite app_nil_r. Qed.

Lemma paints_bind {A B} (m : St Pen A) (k : A -> St Pen B) x y marks marks' :
  paints m x marks -> paints (k x) y marks' ->
  paints (bind m k) y (marks ++ marks').
Proof.
  intros Hm Hk pen Hup. rewrite bind_unfold.
  destruct (Hm pen Hup) as (-> & Hup1 & Hcanvas1).
  destruct (Hk (m pen).2 Hup1) as (Hy & Hup2 & Hcanvas2).
  split; [assumption |]. split; [assumption |].
  by rewrite Hcanvas2, Hcanvas1, app_assoc.
Qed.

(** Drawing one segment, from any pen: the pen ends up lifted at the full
    length from the saved position, on the saved heading, with the colours
    and width of the chromosome, and the canvas has gained the marks of
    the segment. *)
Lemma drawSingleSegment_run (c : Chromosome.t) (panel : CreaturePanel.t)
  (s : PenPosition.t) (pen : Pen) :
  Chromosome.drawSingleSegment c (Some panel) (Some s) pen
  = (tt, {| position := advance (savedPoint s) (PenPosition.heading s)
                          (Chromosome.length c);
            orientation := PenPosition.heading s;
            isdown := false;
            penColor := Chromosome.lineColor c;
            penFill := Chromosome.fillColor c;
            penWidth := Chromosome.lineWidth c;
            canvas := canvas pen ++ segmentMarks c s |}).
Proof.
  unfold Chromosome.drawSingleSegment, segmentMarks.
  destruct (Chromosome.shape c =? Chromosome._SHAPE__LINE_VALUE);
    [run_pen; reflexivity |].
  destruct (Chromosome.shape c =? Chromosome._SHAPE_DOT_VALUE);
    [run_pen; reflexivity |].
  destruct (Chromosome.shape c =? Chromosome._SHAPE_CIRCLE_VALUE);
    [run_pen; reflexivity |].
  destruct (Chromosome.shape c =? Chromosome._SHAPE_FILLED_CIRCLE_VALUE);
    run_pen; rewrite <- ?app_assoc, ?app_nil_r; reflexivity.
Qed.

Lemma paints_drawSegments (chromosomes : list Chromosome.t)
  (panel : CreaturePanel.t) (n : nat) (c : Chromosome.t) :
  chromosomes !! n = Some c ->
  forall segments,
    paints (Creature.drawSegments chromosomes panel n segments)
      Creature.Running (flat_map (segmentMarks c) segments).
Proof.
  intros Hc. induction segments as [| s rest IH];
    cbn [Creature.drawSegments flat_map]; [apply paints_ret |].
  rewrite Hc. apply (paints_bind _ _ tt); [| apply IH].
  intros pen _. rewrite drawSingleSegment_run. by repeat split.
Qed.

Lemma paints_drawChromosomes (chromosomes : list Chromosome.t)
  (panel : CreaturePanel.t) (table : Creature.Table) (numbers : list nat) :
  (forall n, n ∈ numbers -> is_Some (chromosomes !! n)) ->
  paints (Creature.drawChromosomes chromosomes panel numbers table)
    Creature.Running (creatureMarks chromosomes table numbers).
Proof.
  induction numbers as [| n rest IH]; intros Hsome;
    cbn [Creature.drawChromosomes creatureMarks flat_map];
    [apply paints_ret |].
  destruct (Hsome n ltac:(left)) as [c Hc]. rewrite Hc.
  eapply paints_bind; [by apply paints_drawSegments |].
  apply IH. intros k Hk. apply Hsome. by right.
Qed.

(** *** [display] as a function of the genotype and the panel *)

Lemma growAndDraw_run (chromosomes : list Chromosome.t)
  (panel : CreaturePanel.t) :
  List.length chromosomes = Genotype.CHROMOSOME_COUNT ->
  exists result table,
    forall pen,
      (Creature.growAndDraw chromosomes panel pen).1
      = (Creature.Returned result, table)
      /\ isdown (Creature.growAndDraw chromosomes panel pen).2 = false
      /\ canvas (Creature.growAndDraw chromosomes panel pen).2
         = canvas pen
           ++ (if result
               then creatureMarks chromosomes table
                      (seq 0 Genotype.CHROMOSOME_COUNT)
               else []).
Proof.
  intros Hchs. unfold Creature.growAndDraw.
  destruct (lookup_lt_is_Some_2 chromosomes 0%nat ltac:(rewrite Hchs; cbv; lia))
    as [first Hfirst].
  rewrite Hfirst.
  destruct (childSegmentPositions_run first
              (CreaturePanel.startingPenPosition panel))
    as (children & q0 & a0 & Hseed).
  set (table0 :=
         Creature.extend (replicate Genotype.CHROMOSOME_COUNT []) 0 children).
  destruct (Uniform_validateChromosomes chromosomes panel
              (seq 0 Genotype.CHROMOSOME_COUNT) table0 q0 a0)
    as ([st1 table1] & q1 & a1 & Hvalidate).
  assert (Hspec : forall pen : Pen,
            validated chromosomes panel 0 4 table0 (raised q0 a0 pen) st1
              table1 (raised q1 a1 pen)).
  { intros pen. apply validateChromosomes_spec.
    - apply Hvalidate.
    - intros k Hk. subst table0. rewrite row_extend_ne by lia.
      apply row_replicate_nil.
    - subst table0. by rewrite length_extend. }
  assert (Hdraw : paints
            (Creature.drawChromosomes chromosomes panel
               (seq 0 Genotype.CHROMOSOME_COUNT) table1)
            Creature.Running
            (creatureMarks chromosomes table1 (seq 0 Genotype.CHROMOSOME_COUNT))).
  { apply paints_drawChromosomes. intros n Hn. apply elem_of_seq in Hn.
    apply lookup_lt_is_Some_2. lia. }
  destruct st1 as [| result |].
  - exists true, table1. intros pen.
    rewrite (bind_run_eq _ _ _ _ _ (Hseed pen)).
    rewrite (bind_run_eq _ _ _ _ _ (Hvalidate pen)).
    rewrite bind_unfold.
    destruct (Hdraw (raised q1 a1 pen) eq_refl) as (Hst & Hup & Hcanvas).
    rewrite Hst. cbn [ret fst snd]. by repeat split.
  - exists result, table1. intros pen.
    rewrite (bind_run_eq _ _ _ _ _ (Hseed pen)).
    rewrite (bind_run_eq _ _ _ _ _ (Hvalidate pen)).
    cbn [ret fst snd].
    destruct (Hspec pen) as (_ & _ & Htrue & _).
    destruct result; [done |]. cbn. by rewrite app_nil_r.
  - exists false, table1. intros pen.
    destruct (Hspec pen) as (_ & _ & _ & Hraise & _).
    by destruct (Hraise Hchs eq_refl).
Qed.

(** X5: saving the pen right after restoring a saved position gives that
    position and heading back, whatever the pen was doing before; the
    restore lifts the pen and draws nothing, even if the pen was down.
    Conversely, restoring a position just saved moves nothing. *)
Theorem restore_then_save (s : PenPosition.t) (chirality : bool) (pen : Pen) :
  let pen' := (PenPosition.restore s pen).2 in
  (PenPosition.__init__ chirality pen').1
  = {| PenPosition.chiralityRight := chirality;
       PenPosition.xPosition := PenPosition.xPosition s;
       PenPosition.yPosition := PenPosition.yPosition s;
       PenPosition.heading := PenPosition.heading s |}
  /\ isdown pen' = false
  /\ canvas pen' = canvas pen
  /\ (PenPosition.restore (PenPosition.__init__ chirality pen).1 pen).2
     = raised (position pen) (orientation pen) pen.
Proof.
  cbv zeta. rewrite restore_run. repeat split.
  rewrite restore_run. unfold savedPoint. cbn.
  by rewrite <- surjective_pairing.
Qed.

(** X6: the bounds test is a pure test.  Its verdict does not depend on
    the pen it is given, and it leaves that pen lifted, with canvas,
    colours and width as they were. *)
Theorem segmentOutOfBounds_only_moves_the_pen (c : Chromosome.t)
  (panel : CreaturePanel.t) (s : PenPosition.t) :
  exists verdict,
    forall pen,
      let r := Chromosome.segmentOutOfBounds c (Some panel) (Some s) pen in
      r.1 = verdict
      /\ isdown r.2 = false
      /\ canvas r.2 = canvas pen
      /\ penColor r.2 = penColor pen
      /\ penFill r.2 = penFill pen
      /\ penWidth r.2 = penWidth pen.
Proof.
  destruct (segmentOutOfBounds_run c panel s) as (verdict & q & a & Hrun).
  exists verdict. intros pen. cbv zeta. by rewrite Hrun.
Qed.

(** X7: the child positions of a chromosome at a saved position do not
    depend on the pen used to compute them, and computing them leaves the
    pen lifted, with canvas, colours and width as they were. *)
Theorem childSegmentPositions_only_moves_the_pen (c : Chromosome.t)
  (s : PenPosition.t) :
  exists children,
    forall pen,
      let r := Chromosome.childSegmentPositions c s pen in
      r.1 = children
      /\ isdown r.2 = false
      /\ canvas r.2 = canvas pen
      /\ penColor r.2 = penColor pen
      /\ penFill r.2 = penFill pen
      /\ penWidth r.2 = penWidth pen.
Proof.
  destruct (childSegmentPositions_run c s) as (children & q & a & Hrun).
  exists children. intros pen. cbv zeta. by rewrite Hrun.
Qed.

Lemma angledBranches_children (c : Chromosome.t) chirality count :
  forall q a (pen : Pen) j child,
    (Chromosome.angledBranches count c chirality (raised q a pen)).1 !! j
    = Some child ->
    (j < count)%nat
    /\ savedPoint child = q
    /\ PenPosition.chiralityRight child = chirality
    /\ PenPosition.heading child
       = Nat.iter (S j)
           (fun h => rotate h (if chirality then - Chromosome.branchAngle c
                               else Chromosome.branchAngle c)) a.
Proof.
  induction count as [| count IH]; intros q a pen j child; [discriminate |].
  cbn [Chromosome.angledBranches].
  set (turn := fun h => rotate h (if chirality then - Chromosome.branchAngle c
                                  else Chromosome.branchAngle c)).
  assert (Hturn : (if chirality then right (Chromosome.branchAngle c)
                   else left (Chromosome.branchAngle c)) (raised q a pen)
                  = (tt, raised q (turn a) pen)).
  { subst turn. destruct chirality; reflexivity. }
  rewrite (bind_run_eq _ _ _ _ _ Hturn).
  rewrite (bind_run_eq _ _ _ _ _ (snapshot_raised chirality q (turn a) pen)).
  rewrite bind_unfold. cbn [ret fst].
  destruct j as [| j]; cbn [lookup list_lookup].
  - intros [= <-]. split; [lia |]. unfold savedPoint. cbn.
    by rewrite <- surjective_pairing.
  - intros Hchild.
    destruct (IH _ _ _ _ _ Hchild) as (Hj & Hpoint & Hchir & Hheading).
    split; [lia |]. split; [assumption |]. split; [assumption |].
    rewrite Hheading. fold turn. by rewrite <- !Nat.iter_succ_r.
Qed.

(** X8: the children of a branching chromosome, one by one.  Every child
    position lies at the parent end position.  The children of the
    same-handed pass, if the chromosome has one, come first and keep the
    parent's chirality; those of the opposite-handed pass follow and have
    the other chirality.  The child at place [j] of the list has rank
    [j + 1] in its pass (counting from the start of that pass), the rank
    is at most the branch count, and its heading is the parent's heading
    turned by the branch angle as many times as its rank, to the right
    when the child is right-handed and to the left otherwise: the turns
    accumulate. *)
Theorem branching_children_fan_out (c : Chromosome.t) (parent : PenPosition.t)
  (pen : Pen) (j : nat) (child : PenPosition.t) :
  Chromosome.terminated c = false ->
  Chromosome.symmetryBits c <> Chromosome._SYMMETRY_STRAIGHT_VALUE ->
  (Chromosome.childSegmentPositions c parent pen).1 !! j = Some child ->
  let count := Z.to_nat (Chromosome.branchCount c) in
  let same :=
    negb (Z.land (Chromosome.symmetryBits c)
            Chromosome._SYMMETRY_SAME_HANDED_VALUE =? 0) in
  let opposite :=
    negb (Z.land (Chromosome.symmetryBits c)
            Chromosome._SYMMETRY_OPPOSITE_HANDED_VALUE =? 0) in
  let inSamePass := same && (j <? count)%nat in
  let rank := if inSamePass then S j
              else if same then S (j - count) else S j in
  savedPoint child = savedPoint parent
  /\ (inSamePass = false -> opposite = true)
  /\ PenPosition.chiralityRight child
     = (if inSamePass then PenPosition.chiralityRight parent
        else negb (PenPosition.chiralityRight parent))
  /\ (1 <= rank <= count)%nat
  /\ PenPosition.heading child
     = Nat.iter rank
         (fun h => rotate h (if PenPosition.chiralityRight child
                             then - Chromosome.branchAngle c
                             else Chromosome.branchAngle c))
         (PenPosition.heading parent).
Proof.
  intros Hterm Hsym. apply Z.eqb_neq in Hsym. cbv zeta.
  unfold Chromosome.childSegmentPositions.
  rewrite (bind_run_eq _ _ _ _ _ (restore_run parent pen)).
  rewrite Hterm, Hsym. cbn [negb].
  assert (Hpass : forall (bit : bool) chirality pen1 i kid,
            ((if bit then
                (PenPosition.restore parent ;;
                 Chromosome.angledBranches
                   (Z.to_nat (Chromosome.branchCount c)) c chirality)%st
              else ret []) pen1).1 !! i = Some kid ->
            bit = true
            /\ (i < Z.to_nat (Chromosome.branchCount c))%nat
            /\ savedPoint kid = savedPoint parent
            /\ PenPosition.chiralityRight kid = chirality
            /\ PenPosition.heading kid
               = Nat.iter (S i)
                   (fun h => rotate h
                               (if PenPosition.chiralityRight kid
                                then - Chromosome.branchAngle c
                                else Chromosome.branchAngle c))
                   (PenPosition.heading parent)).
  { intros [|] chirality pen1 i kid; [| discriminate].
    rewrite (bind_run_eq _ _ _ _ _ (restore_run parent pen1)).
    intros Hkid.
    destruct (angledBranches_children _ _ _ _ _ _ _ _ Hkid)
      as (Hi & Hpoint & Hchir & Hheading).
    split; [reflexivity |]. split; [assumption |]. split; [assumption |].
    split; [assumption |]. by rewrite Hchir. }
  rewrite !bind_unfold. cbn [ret fst].
  intros Hchild. apply lookup_app_Some in Hchild as [Hsame | [Hbeyond Hopposite]].
  - destruct (Hpass _ _ _ _ _ Hsame)
      as (Hbit & Hrank & Hpoint & Hchir & Hheading).
    rewrite Hbit. apply Nat.ltb_lt in Hrank. rewrite Hrank. cbn [andb].
    apply Nat.ltb_lt in Hrank.
    split; [assumption |]. split; [discriminate |]. split; [assumption |].
    split; [lia | assumption].
  - rewrite handedPass_length in Hbeyond, Hopposite.
    destruct (Hpass _ _ _ _ _ Hopposite)
      as (Hbit & Hrank & Hpoint & Hchir & Hheading).
    destruct (negb (Z.land (Chromosome.symmetryBits c)
                      Chromosome._SYMMETRY_SAME_HANDED_VALUE =? 0)).
    + replace (j <? Z.to_nat (Chromosome.branchCount c))%nat with false
        by (symmetry; apply Nat.ltb_ge; lia).
      cbn [andb].
      split; [assumption |]. split; [intros _; exact Hbit |].
      split; [assumption |]. split; [lia | assumption].
    + rewrite Nat.sub_0_r in Hrank, Hheading. cbn [andb].
      split; [assumption |]. split; [intros _; exact Hbit |].
      split; [assumption |]. split; [lia | assumption].
Qed.

(** X10: drawing a segment, from any pen.  The pen ends up lifted, the
    full length from the saved position along the saved heading, with the
    chromosome's line colour, fill colour and line width.  A line adds one
    stroke from the saved position to that end; a dot adds one dot of
    diameter [length] centred half the length (rounded down) along; an
    open circle adds one circle of that radius traced from the saved
    position; a filled circle adds the same circle between the start and
    the end of a fill.  Nothing already on the canvas is removed. *)
Theorem drawSingleSegment_marks (c : Chromosome.t) (panel : CreaturePanel.t)
  (s : PenPosition.t) (pen : Pen) :
  let pen' := (Chromosome.drawSingleSegment c (Some panel) (Some s) pen).2 in
  let start := savedPoint s in
  let finish := advance start (PenPosition.heading s) (Chromosome.length c) in
  let radius := Chromosome.length c / 2 in
  let colour := Chromosome.lineColor c in
  let w := Chromosome.lineWidth c in
  (position pen' = finish /\ orientation pen' = PenPosition.heading s
   /\ isdown pen' = false /\ penColor pen' = colour
   /\ penFill pen' = Chromosome.fillColor c /\ penWidth pen' = w)
  /\ (Chromosome.shape c = Chromosome._SHAPE__LINE_VALUE ->
      canvas pen' = canvas pen ++ [Stroke start finish colour w])
  /\ (Chromosome.shape c = Chromosome._SHAPE_DOT_VALUE ->
      canvas pen'
      = canvas pen
        ++ [Dot (advance start (PenPosition.heading s) radius)
              (Chromosome.length c) colour])
  /\ (Chromosome.shape c = Chromosome._SHAPE_CIRCLE_VALUE ->
      canvas pen' = canvas pen ++ [Circle start radius colour w])
  /\ (Chromosome.shape c = Chromosome._SHAPE_FILLED_CIRCLE_VALUE ->
      canvas pen'
      = canvas pen ++ [BeginFill; Circle start radius colour w; EndFill]).
Proof.
  cbv zeta. rewrite drawSingleSegment_run. cbn [snd position orientation isdown
    penColor penFill penWidth canvas].
  split; [by repeat split |].
  unfold segmentMarks. rewrite Z.shiftr_div_pow2 by lia. change (2 ^ 1) with 2.
  repeat split; intros ->; reflexivity.
Qed.

(** X11: on a genotype of four chromosomes [display] never raises, and
    the boolean it returns and the table of pen positions it builds depend
    only on the chromosomes and the panel: not on where the pen is, on
    whether it is down, on its colours or on what is on the canvas.  The
    pen is left up. *)
Theorem display_ignores_the_pen (chromosomes : list Chromosome.t)
  (panel : CreaturePanel.t) :
  List.length chromosomes = Genotype.CHROMOSOME_COUNT ->
  exists result table,
    forall pen,
      (Creature.display chromosomes panel pen).1 = Some result
      /\ (Creature.growAndDraw chromosomes panel pen).1
         = (Creature.Returned result, table)
      /\ isdown (Creature.display chromosomes panel pen).2 = false.
Proof.
  intros Hchs.
  destruct (growAndDraw_run chromosomes panel Hchs) as (result & table & Hrun).
  exists result, table. intros pen.
  destruct (Hrun pen) as (Hresult & Hup & _).
  unfold Creature.display. rewrite bind_unfold, Hresult. by cbn.
Qed.

(** X12: what [display] puts on the canvas.  On a genotype of four
    chromosomes, when [display] returns [True] it has appended to the
    canvas the marks of every segment of its table of pen positions,
    chromosome by chromosome from 0 to 3 and, within a chromosome, in the
    order of the row; what was on the canvas stays.  When it returns
    [False] the canvas is as it was. *)
Theorem display_draws_chromosome_by_chromosome (chromosomes : list Chromosome.t)
  (panel : CreaturePanel.t) (pen : Pen) st table pen' :
  List.length chromosomes = Genotype.CHROMOSOME_COUNT ->
  Creature.growAndDraw chromosomes panel pen = (st, table, pen') ->
  canvas pen'
  = canvas pen
    ++ match st with
       | Creature.Returned true =>
           flat_map
             (fun chromosomeNumber =>
                match chromosomes !! chromosomeNumber with
                | Some chromosome =>
                    flat_map (segmentMarks chromosome)
                      (Creature.row table chromosomeNumber)
                | None => []
                end)
             (seq 0 Genotype.CHROMOSOME_COUNT)
       | _ => []
       end.
Proof.
  intros Hchs Hrun0.
  destruct (growAndDraw_run chromosomes panel Hchs) as (result & table0 & Hrun).
  destruct (Hrun pen) as (Hresult & _ & Hcanvas).
  rewrite Hrun0 in Hresult, Hcanvas. cbn [fst snd] in Hresult, Hcanvas.
  injection Hresult as -> ->. rewrite Hcanvas. by destruct result.
Qed.

End PenRuns.

(** ** The table of pen positions as a tree, generation by generation *)

Section Sprouting.
Context {P : Plane}.
Variable chromosomes : list Chromosome.t.
Variable panel : CreaturePanel.t.

Lemma sprouted_pen (c c' : Chromosome.t) (s : PenPosition.t) (pen pen0 : Pen) :
  sprouted c c' panel pen s = sprouted c c' panel pen0 s.
Proof.
  unfold sprouted.
  destruct (segmentOutOfBounds_run c panel s) as (verdict & q & a & Htest).
  rewrite !Htest. cbn [snd]. rewrite !snapshot_raised. cbn [fst].
  destruct (childSegmentPositions_run c'
              {| PenPosition.chiralityRight := PenPosition.chiralityRight s;
                 PenPosition.xPosition := q.1; PenPosition.yPosition := q.2;
                 PenPosition.heading := a |})
    as (children & q' & a' & Hchildren).
  by rewrite !Hchildren.
Qed.

(** The loop over the segments of chromosome [n], when it runs to its end,
    has appended to row [n + 1] what each segment sprouts, in order. *)
Lemma validateSegments_sprouts (n : nat) (c c' : Chromosome.t) (pen0 : Pen) :
  chromosomes !! n = Some c ->
  chromosomes !! (n + 1)%nat = Some c' ->
  (n + 1 < Genotype.CHROMOSOME_COUNT)%nat ->
  forall (segments : list PenPosition.t) (table : Creature.Table) (pen : Pen)
         table' pen',
    (n + 1 < List.length table)%nat ->
    Creature.validateSegments chromosomes panel n segments table pen
    = ((Creature.Running, table'), pen') ->
    Creature.row table' (n + 1)
    = Creature.row table (n + 1) ++ flat_map (sprouted c c' panel pen0) segments.
Proof.
  intros Hc Hc' Hn.
  induction segments as [| s rest IH]; intros table pen table' pen' Hlen.
  { cbn. intros [= <- <-]. by rewrite app_nil_r. }
  cbn [Creature.validateSegments flat_map]. rewrite Hc, Hc'.
  rewrite bind_unfold.
  destruct (Chromosome.segmentOutOfBounds c (Some panel) (Some s) pen).1
    eqn:Hverdict; [discriminate |].
  rewrite bind_unfold.
  replace (n <? Genotype.CHROMOSOME_COUNT - 1)%nat with true
    by (symmetry; apply Nat.ltb_lt; lia).
  rewrite bind_unfold.
  change (Chromosome.childSegmentPositions c'
            (PenPosition.__init__ (PenPosition.chiralityRight s)
               (Chromosome.segmentOutOfBounds c (Some panel) (Some s) pen).2).1
            (PenPosition.__init__ (PenPosition.chiralityRight s)
               (Chromosome.segmentOutOfBounds c (Some panel) (Some s) pen).2).2).1
    with (sprouted c c' panel pen s).
  intros Hrest.
  rewrite (IH _ _ _ _ ltac:(by rewrite length_extend) Hrest).
  rewrite row_extend_eq by assumption.
  by rewrite (sprouted_pen c c' s pen pen0), <- app_assoc.
Qed.

(** The loop over the chromosome numbers [n, n + 1, ...], entered with the
    rows after [n] still empty: when it runs on to the drawing phase, every
    row from [n + 1] on is what the segments of the row before it
    sprout. *)
Lemma validateChromosomes_sprouts :
  List.length chromosomes = Genotype.CHROMOSOME_COUNT ->
  forall (m n : nat) (table : Creature.Table) (pen : Pen) table' pen',
    Creature.validateChromosomes chromosomes panel (seq n m) table pen
    = ((Creature.Running, table'), pen') ->
    (forall k, (n < k)%nat -> Creature.row table k = []) ->
    List.length table = (n + m)%nat ->
    (n + m)%nat = Genotype.CHROMOSOME_COUNT ->
    forall k c c' pen0,
      (n <= k)%nat ->
      chromosomes !! k = Some c -> chromosomes !! (k + 1)%nat = Some c' ->
      Creature.row table' (k + 1)
      = flat_map (sprouted c c' panel pen0) (Creature.row table' k).
Proof.
  intros Hchs.
  induction m as [| m IH]; intros n table pen table' pen'.
  { intros _ _ _ Hnm k c c' pen0 Hk _ Hc'.
    apply lookup_lt_Some in Hc'. lia. }
  cbn [seq Creature.validateChromosomes]. intros Hrun0 Hempty Hlen Hnm.
  destruct (Creature._MAX_CHROMOSOME_SEGMENTS
            <? List.length (Creature.row table n))%nat; [discriminate |].
  destruct (List.length (Creature.row table n) =? 0)%nat eqn:Hnone.
  { apply Nat.eqb_eq, nil_length_inv in Hnone.
    destruct (n =? 0)%nat; [discriminate |].
    injection Hrun0 as <- <-.
    intros k c c' pen0 Hk _ _.
    rewrite (Hempty (k + 1)%nat) by lia.
    destruct (decide (k = n)) as [-> | Hne];
      [by rewrite Hnone | by rewrite Hempty by lia]. }
  rewrite bind_unfold in Hrun0.
  destruct (Creature.validateSegments chromosomes panel n
              (Creature.row table n) table pen)
    as [[st1 table1] pen1] eqn:Hsegments.
  cbn [fst snd] in Hrun0.
  destruct st1 as [| result |]; [| discriminate..].
  destruct (validateSegments_spec chromosomes panel n _ _ _ _ _ _ Hsegments)
    as (_ & Hlen1 & Hrows1 & _).
  assert (Hempty1 : forall k, (S n < k)%nat -> Creature.row table1 k = []).
  { intros k Hk. rewrite Hrows1 by lia. apply Hempty. lia. }
  destruct (validateChromosomes_spec chromosomes panel m (S n) table1 pen1
              _ _ _ Hrun0 Hempty1 ltac:(lia))
    as (_ & Hrows & _).
  intros k c c' pen0 Hk Hc Hc'.
  destruct (decide (k = n)) as [-> | Hne].
  - replace (n + 1)%nat with (S n) by lia.
    rewrite !Hrows by lia. rewrite (Hrows1 n) by lia.
    replace (S n) with (n + 1)%nat by lia.
    pose proof (lookup_lt_Some _ _ _ Hc') as Hnext.
    assert (Hn : (n + 1 < Genotype.CHROMOSOME_COUNT)%nat) by lia.
    assert (Hwide : (n + 1 < List.length table)%nat) by lia.
    rewrite (validateSegments_sprouts n c c' pen0 Hc Hc' Hn _ _ _ _ _
               Hwide Hsegments).
    by rewrite (Hempty (n + 1)%nat) by lia.
  - apply (IH (S n) table1 pen1 table' pen' Hrun0 Hempty1 ltac:(lia)
             ltac:(lia) k c c' pen0 ltac:(lia) Hc Hc').
Qed.

Lemma growAndDraw_generations (pen : Pen) st table pen' :
  List.length chromosomes = Genotype.CHROMOSOME_COUNT ->
  Creature.growAndDraw chromosomes panel pen = ((st, table), pen') ->
  (forall first pen0,
     chromosomes !! 0%nat = Some first ->
     Creature.row table 0
     = (Chromosome.childSegmentPositions first
          (CreaturePanel.startingPenPosition panel) pen0).1)
  /\ (st = Creature.Returned true ->
      forall chromosomeNumber chromosome nextChromosome pen0,
        chromosomes !! chromosomeNumber = Some chromosome ->
        chromosomes !! (chromosomeNumber + 1)%nat = Some nextChromosome ->
        Creature.row table (chromosomeNumber + 1)
        = flat_map (sprouted chromosome nextChromosome panel pen0)
            (Creature.row table chromosomeNumber)).
Proof.
  intros Hchs. unfold Creature.growAndDraw.
  destruct (lookup_lt_is_Some_2 chromosomes 0%nat ltac:(rewrite Hchs; cbv; lia))
    as [first Hfirst].
  rewrite Hfirst, bind_unfold.
  set (children := (Chromosome.childSegmentPositions first
                      (CreaturePanel.startingPenPosition panel) pen).1).
  set (pen1 := (Chromosome.childSegmentPositions first
                  (CreaturePanel.startingPenPosition panel) pen).2).
  set (table0 :=
         Creature.extend (replicate Genotype.CHROMOSOME_COUNT []) 0 children).
  rewrite bind_unfold.
  destruct (Creature.validateChromosomes chromosomes panel
              (seq 0 Genotype.CHROMOSOME_COUNT) table0 pen1)
    as [[st1 table1] pen2] eqn:Hvalidate.
  cbn [fst snd].
  assert (Hempty : forall k, (0 < k)%nat -> Creature.row table0 k = []).
  { intros k Hk. subst table0. rewrite row_extend_ne by lia.
    apply row_replicate_nil. }
  assert (Hlen : List.length table0 = (0 + Genotype.CHROMOSOME_COUNT)%nat).
  { subst table0. by rewrite length_extend. }
  destruct (validateChromosomes_spec chromosomes panel _ _ _ _ _ _ _ Hvalidate
              Hempty Hlen)
    as (_ & Hrows & Htrue & _).
  assert (Hrow0 : forall first0 pen0,
            Some first = Some first0 ->
            Creature.row table1 0
            = (Chromosome.childSegmentPositions first0
                 (CreaturePanel.startingPenPosition panel) pen0).1).
  { intros first0 pen0 [= <-]. rewrite Hrows by lia. subst table0.
    rewrite row_extend_eq by (cbv; lia).
    rewrite row_replicate_nil. cbn [app]. subst children.
    destruct (childSegmentPositions_run first
                (CreaturePanel.startingPenPosition panel))
      as (kids & q & a & Hkids).
    by rewrite !Hkids. }
  destruct st1 as [| result |].
  - rewrite bind_unfold.
    assert (Htable : forall d,
              (match d with
               | Creature.Running => ret (Creature.Returned true, table1)
               | _ => ret (d, table1)
               end
                 (Creature.drawChromosomes chromosomes panel
                    (seq 0 Genotype.CHROMOSOME_COUNT) table1 pen2).2).1.2
              = table1) by (by intros [| ? |]).
    intros Hrun0.
    assert (table = table1) as ->.
    { rewrite <- (Htable (Creature.drawChromosomes chromosomes panel
                            (seq 0 Genotype.CHROMOSOME_COUNT) table1 pen2).1).
      by rewrite Hrun0. }
    split; [exact Hrow0 |].
    intros _ k c c' pen0 Hc Hc'.
    apply (validateChromosomes_sprouts Hchs _ _ _ _ _ _ Hvalidate Hempty Hlen
             eq_refl k c c' pen0 ltac:(lia) Hc Hc').
  - intros [= <- <- <-]. split; [exact Hrow0 |]. intros [= ->]. done.
  - intros [= <- <- <-]. split; [exact Hrow0 |]. discriminate.
Qed.

(** X13: the table of pen positions of a drawn creature is a tree laid
    out generation by generation.  Row 0 is what chromosome 0 sprouts from
    the starting position of the panel, whatever [display] returns.  When
    [display] returns [True], each later row is exactly what the segments
    of the row before it sprout at their ends with the next chromosome, in
    the order of those segments (an empty row makes every later row
    empty).  Neither depends on the pen the positions are computed
    with. *)
Theorem display_table_generations (pen : Pen) st table pen' :
  List.length chromosomes = Genotype.CHROMOSOME_COUNT ->
  Creature.growAndDraw chromosomes panel pen = ((st, table), pen') ->
  (forall first pen0,
     chromosomes !! 0%nat = Some first ->
     Creature.row table 0
     = (Chromosome.childSegmentPositions first
          (CreaturePanel.startingPenPosition panel) pen0).1)
  /\ (st = Creature.Returned true ->
      forall chromosomeNumber chromosome nextChromosome pen0,
        chromosomes !! chromosomeNumber = Some chromosome ->
        chromosomes !! (chromosomeNumber + 1)%nat = Some nextChromosome ->
        Creature.row table (chromosomeNumber + 1)
        = flat_map (sprouted chromosome nextChromosome panel pen0)
            (Creature.row table chromosomeNumber)).
Proof. apply growAndDraw_generations. Qed.

End Sprouting.

(** ** Genotypes in the store *)

Section Genotypes.

Lemma low_bits_fixed (a n : Z) :
  0 <= n -> 0 <= a < 2 ^ n -> Z.land a (Z.ones n) = a.
Proof.
  intros Hn Ha. rewrite Z.land_ones by assumption. by apply Z.mod_small.
Qed.

Lemma low_bits_range (a n : Z) :
  0 <= n -> Z.land a (Z.ones n) = a -> 0 <= a < 2 ^ n.
Proof.
  intros Hn Ha. rewrite <- Ha, Z.land_ones by assumption.
  apply Z.mod_pos_bound. by apply Z.pow_pos_nonneg.
Qed.

Lemma lor_range (a b n : Z) :
  0 <= n -> 0 <= a < 2 ^ n -> 0 <= b < 2 ^ n -> 0 <= Z.lor a b < 2 ^ n.
Proof.
  intros Hn Ha Hb. apply low_bits_range; [assumption |].
  by rewrite Z.land_lor_distr_l, !low_bits_fixed.
Qed.

Lemma lxor_range (a b n : Z) :
  0 <= n -> 0 <= a < 2 ^ n -> 0 <= b < 2 ^ n -> 0 <= Z.lxor a b < 2 ^ n.
Proof.
  intros Hn Ha Hb. apply low_bits_range; [assumption |].
  apply Z.bits_inj'. intros i Hi.
  rewrite Z.land_spec, !Z.lxor_spec.
  rewrite <- (low_bits_fixed a n Hn Ha) at 2.
  rewrite <- (low_bits_fixed b n Hn Hb) at 2.
  rewrite !Z.land_spec.
  by destruct (Z.testbit a i), (Z.testbit b i), (Z.testbit (Z.ones n) i).
Qed.

Lemma flipMask_range (flips : list Flip) (i : nat) :
  Forall validFlip flips -> 0 <= flipMask flips i < 2 ^ 32.
Proof.
  induction 1 as [| f flips [_ Hbit] _ IH]; [done |].
  cbn [flipMask foldr]. fold (flipMask flips i).
  destruct (decide (f.1 = i)); [| assumption].
  apply lxor_range; [lia | | assumption].
  rewrite Z.shiftl_1_l. split; [apply Z.pow_nonneg; lia |].
  apply Z.pow_lt_mono_r; lia.
Qed.

(** The chromosomes built without a value, one for each index: each is
    decoded at its index from a 32-bit value, is not terminated, and
    lives at an address that was not in use. *)
Lemma randomChromosomes_decoded (indices : list nat) :
  forall m : Mem,
  exists items m' chs,
    Genotype.randomChromosomes indices m = Some (items, m')
    /\ (forall a o, objects m !! a = Some o -> objects m' !! a = Some o)
    /\ Forall2 (holds m') items chs
    /\ Forall (fun a => objects m !! a = None) items
    /\ Forall2 (fun index c =>
                  decodedAt index c /\ Chromosome.terminated c = false)
         indices chs.
Proof.
  induction indices as [| index indices IH]; intros m.
  { exists [], m, []. repeat split; try done; constructor. }
  cbn [Genotype.randomChromosomes].
  unfold bind_run at 1, random at 1.
  pose proof (unexplicit_value_decoded index
                (randint 0 0xFFFFFFFF (rng m)).1) as (_ & Hterm & _).
  pose proof (randint_range 0 0xFFFFFFFF (rng m) ltac:(done)) as Hvalue.
  unfold Chromosome.__init__ at 1. rewrite bind_unfold. cbn [ret fst snd].
  set (value := (randint 0 0xFFFFFFFF (rng m)).1) in *.
  set (c := Chromosome._interpretChromosomeValue index _) in *.
  set (m1 := {| objects := objects m;
                rng := (randint 0 0xFFFFFFFF (rng m)).2 |}).
  destruct (alloc_run (ChromosomeObj c) m1) as (a & Halloc & Hfresh).
  rewrite (bind_run_Some _ _ _ _ _ Halloc).
  subst m1. cbn [objects rng] in *.
  destruct (IH {| objects := <[a := ChromosomeObj c]> (objects m);
                  rng := (randint 0 0xFFFFFFFF (rng m)).2 |})
    as (items & m' & chs & Hrun & Hframe & Hholds & Hnew & Hall).
  cbn [objects] in Hframe, Hnew.
  rewrite (bind_run_Some _ _ _ _ _ Hrun).
  exists (a :: items), m', (c :: chs).
  split; [reflexivity |].
  split.
  { intros a0 o Ha0. apply Hframe.
    rewrite lookup_insert_ne by (intros <-; congruence). assumption. }
  split.
  { constructor; [| assumption]. unfold holds. apply Hframe.
    apply lookup_insert_eq. }
  split.
  { constructor; [assumption |].
    eapply Forall_impl; [exact Hnew |]. intros a0 Ha0.
    by apply lookup_insert_None in Ha0 as [Ha0 _]. }
  constructor; [| assumption].
  split; [| assumption]. split; [| reflexivity].
  subst c. cbn [Chromosome.chromosomeValue Chromosome._interpretChromosomeValue].
  apply lor_range; [lia | lia | done].
Qed.

(** The generating branch of [Genotype.__init__]: four chromosomes and
    their list, all at addresses that were not in use. *)
Lemma genotype_generated (m : Mem) :
  exists l m' items chs,
    (items <- Genotype.randomChromosomes (seq 0 Genotype.CHROMOSOME_COUNT) ;;
     l <- alloc (ListObj items) ;;
     unit_run {| Genotype.chromosomes := l |})%run m
    = Some ({| Genotype.chromosomes := l |}, m')
    /\ (forall a o, objects m !! a = Some o -> objects m' !! a = Some o)
    /\ objects m !! l = None
    /\ objects m' !! l = Some (ListObj items)
    /\ Forall (fun a => objects m !! a = None) items
    /\ Genotype.view m' {| Genotype.chromosomes := l |} = Some chs
    /\ wellFormed chs
    /\ Forall (fun c => Chromosome.terminated c = false) chs.
Proof.
  destruct (randomChromosomes_decoded (seq 0 Genotype.CHROMOSOME_COUNT) m)
    as (items & m1 & chs & Hrun & Hframe & Hholds & Hnew & Hall).
  rewrite (bind_run_Some _ _ _ _ _ Hrun).
  destruct (alloc_run (ListObj items) m1) as (l & Halloc & Hfresh).
  rewrite (bind_run_Some _ _ _ _ _ Halloc).
  eexists l, _, items, chs. split; [reflexivity |].
  cbn [objects].
  split.
  { intros a o Ha. rewrite lookup_insert_ne; [by apply Hframe |].
    intros <-. apply Hframe in Ha. congruence. }
  split.
  { destruct (objects m !! l) as [o |] eqn:Hl; [| reflexivity].
    apply Hframe in Hl. congruence. }
  split; [apply lookup_insert_eq |].
  split; [assumption |].
  split.
  { apply view_Some. exists items. cbn [Genotype.chromosomes objects].
    split; [apply lookup_insert_eq |].
    eapply Forall2_impl; [exact Hholds |].
    intros a c. unfold holds. cbn [objects]. intros Ha.
    rewrite lookup_insert_ne by (intros <-; congruence). assumption. }
  split.
  - split.
    + by rewrite <- (Forall2_length _ _ _ Hall), length_seq.
    + intros i c Hc.
      destruct (Forall2_lookup_r _ _ _ _ _ Hall Hc) as (index & Hindex & Hdecoded & _).
      apply lookup_seq in Hindex as [-> _]. exact Hdecoded.
  - apply Forall_forall. intros c Hc.
    apply list_elem_of_lookup in Hc as [i Hc].
    by destruct (Forall2_lookup_r _ _ _ _ _ Hall Hc) as (index & _ & _ & Hterm).
Qed.

(** X14: a genotype built without chromosomes is well formed: it reads
    back as four chromosomes, the one at position [i] carrying index [i]
    and the attributes decoded from its raw value, which lies in
    [0, 2^32).  Building it changes no object that was in the store, and
    its list is a new object. *)
Theorem random_genotype_well_formed (m : Mem) :
  exists g m' chs,
    Genotype.__init__ None m = Some (g, m')
    /\ Genotype.view m' g = Some chs
    /\ wellFormed chs
    /\ (forall a o, objects m !! a = Some o -> objects m' !! a = Some o)
    /\ objects m !! Genotype.chromosomes g = None.
Proof.
  destruct (genotype_generated m)
    as (l & m' & items & chs & Hrun & Hframe & Hfresh & _ & _ & Hview & Hwf & _).
  exists {| Genotype.chromosomes := l |}, m', chs.
  split; [exact Hrun |]. split; [exact Hview |]. split; [exact Hwf |].
  split; [exact Hframe | exact Hfresh].
Qed.

(** [mutatedCopy] on a well-formed genotype: the child is well formed, and
    the parent reads as before. *)
Lemma mutatedCopy_wellFormed (m : Mem) (parent : Genotype.t)
  (chs : list Chromosome.t) :
  Genotype.view m parent = Some chs ->
  wellFormed chs ->
  exists child m' chs',
    Genotype.mutatedCopy parent m = Some (child, m')
    /\ Genotype.view m' parent = Some chs
    /\ Genotype.view m' child = Some chs'
    /\ wellFormed chs'.
Proof.
  intros Hview [Hchs Hdecoded].
  destruct (mutatedCopy_view m parent chs Hview Hchs)
    as (child & m' & flips & items & items' & chs' & Hrun & Hcount & Hvalid
        & Hdrawn & Hl & Hholds & Hfresh & Hframe & Hl' & Hholds' & Hchs'
        & Hentries).
  pose proof (Forall2_length _ _ _ Hholds) as Hitems.
  pose proof (Forall2_length _ _ _ Hholds') as Hitems'.
  exists child, m', chs'.
  split; [assumption |].
  split.
  { apply view_Some. exists items. split; [by apply Hframe |].
    eapply Forall2_impl; [exact Hholds |].
    intros a c. unfold holds. apply Hframe. }
  split; [apply view_Some; by exists items' |].
  split; [assumption |].
  intros i c' Hc'.
  destruct (lookup_lt_is_Some_2 chs i) as [c Hc];
    [apply lookup_lt_Some in Hc'; lia |].
  destruct (lookup_lt_is_Some_2 items i) as [a Ha];
    [apply lookup_lt_Some in Hc; lia |].
  destruct (lookup_lt_is_Some_2 items' i) as [a' Ha'];
    [apply lookup_lt_Some in Hc'; lia |].
  destruct (Hentries i a c a' c' Ha Hc Ha' Hc') as (Hvalue & Hkept & Hbuilt).
  destruct (Hdecoded i c Hc) as [Hrange Hshape].
  destruct (decide (Chromosome.chromosomeValue c' = Chromosome.chromosomeValue c))
    as [Hsame | Hdiffer].
  - destruct (Hkept Hsame) as [_ ->]. by split.
  - split; [| by apply Hbuilt].
    rewrite Hvalue. apply lxor_range; [lia | assumption |].
    by apply flipMask_range.
Qed.

(** X15: mutation keeps a genotype well formed.  The child of a
    well-formed genotype reads back as four chromosomes, each carrying the
    index of its position and the attributes decoded from its raw value,
    which still lies in [0, 2^32): a flip never sets a bit beyond bit
    31, and a rebuilt chromosome is rebuilt at its own index. *)
Theorem mutatedCopy_keeps_well_formed (m : Mem) (parent : Genotype.t)
  (chs : list Chromosome.t) :
  Genotype.view m parent = Some chs ->
  wellFormed chs ->
  exists child m' chs',
    Genotype.mutatedCopy parent m = Some (child, m')
    /\ Genotype.view m' child = Some chs'
    /\ wellFormed chs'.
Proof.
  intros Hview Hwf.
  destruct (mutatedCopy_wellFormed m parent chs Hview Hwf)
    as (child & m' & chs' & Hrun & _ & Hview' & Hwf').
  by exists child, m', chs'.
Qed.

(** X16: a genotype built from a given list of chromosomes.  A list of
    four items is kept as it is: the genotype refers to that very list
    and the store is unchanged.  A list of any other length is set aside:
    the genotype gets a new list of four new chromosomes, none
    terminated, and the given list and every other object stay as they
    were. *)
Theorem genotype_keeps_four_or_regenerates (m : Mem) (l : addr)
  (items : list addr) :
  objects m !! l = Some (ListObj items) ->
  (List.length items = Genotype.CHROMOSOME_COUNT ->
   Genotype.__init__ (Some l) m = Some ({| Genotype.chromosomes := l |}, m))
  /\ (List.length items <> Genotype.CHROMOSOME_COUNT ->
      exists g m' items' chs,
        Genotype.__init__ (Some l) m = Some (g, m')
        /\ Genotype.chromosomes g <> l
        /\ (forall a o, objects m !! a = Some o -> objects m' !! a = Some o)
        /\ objects m' !! Genotype.chromosomes g = Some (ListObj items')
        /\ Forall (fun a => objects m !! a = None) items'
        /\ Genotype.view m' g = Some chs
        /\ List.length chs = Genotype.CHROMOSOME_COUNT
        /\ Forall (fun c => Chromosome.terminated c = false) chs).
Proof.
  intros Hl. split; [by apply genotype_init_given |].
  intros Hlen.
  destruct (genotype_generated m)
    as (l' & m' & items' & chs & Hrun & Hframe & Hfresh & Hl' & Hnew & Hview
        & [Hchs _] & Hterm).
  exists {| Genotype.chromosomes := l' |}, m', items', chs.
  split.
  { unfold Genotype.__init__. unfold bind_run at 1, getList. rewrite Hl.
    apply Nat.eqb_neq in Hlen. rewrite Hlen. exact Hrun. }
  split; [cbn; intros ->; congruence |].
  split; [exact Hframe |]. split; [exact Hl' |]. split; [exact Hnew |].
  split; [exact Hview |]. split; [exact Hchs | exact Hterm].
Qed.

End Genotypes.

(** ** Creatures *)

Section Creatures.
Context {P : Plane}.

Lemma decoded_branchCount_positive (index : nat) (value : Z) :
  let c := Chromosome._interpretChromosomeValue index value in
  Chromosome.terminated c = false -> 1 <= Chromosome.branchCount c < 4.
Proof.
  cbv zeta.
  pose proof (field_range value Chromosome._BRANCH_COUNT_GENE_BITS
                Chromosome._BRANCH_COUNT_SHIFT_NUMBER 2 ltac:(lia) eq_refl)
    as Hrange.
  cbn [Chromosome.terminated Chromosome.branchCount
       Chromosome._interpretChromosomeValue].
  change Chromosome._SEGMENT_TERMINATION_GENE_BITS
    with Chromosome._BRANCH_COUNT_GENE_BITS.
  set (bits := Z.land value Chromosome._BRANCH_COUNT_GENE_BITS) in *.
  assert (Hlow : bits mod 2 ^ 16 = 0)
    by (apply land_mask_low_bits; [discriminate | reflexivity]).
  pose proof (Z.div_mod bits (2 ^ 16) ltac:(lia)) as Hdiv.
  rewrite Hlow, Z.add_0_r in Hdiv.
  rewrite Z.eqb_neq. rewrite Z.shiftr_div_pow2 in * by discriminate.
  unfold Chromosome._SEGMENT_TERMINATED,
    Chromosome._BRANCH_COUNT_SHIFT_NUMBER in *.
  intros Hbits.
  destruct (decide (bits / 2 ^ 16 = 0)) as [Hzero | Hpositive]; [| lia].
  rewrite Hzero in Hdiv. by destruct Hbits.
Qed.

Lemma decoded_children_count (index : nat) (value : Z) (parent : PenPosition.t)
  (pen : Pen) :
  let c := Chromosome._interpretChromosomeValue index value in
  (List.length (Chromosome.childSegmentPositions c parent pen).1 <= 6)%nat
  /\ (Chromosome.terminated c = false ->
      (1 <= List.length (Chromosome.childSegmentPositions c parent pen).1)%nat).
Proof.
  cbv zeta. rewrite childSegmentPositions_length.
  pose proof (field_range value Chromosome._BRANCH_COUNT_GENE_BITS
                Chromosome._BRANCH_COUNT_SHIFT_NUMBER 2 ltac:(lia) eq_refl)
    as Hcount.
  pose proof (field_range value Chromosome._SYMMETRY_GENE_BITS
                Chromosome._SYMMETRY_SHIFT_NUMBER 2 ltac:(lia) eq_refl)
    as Hsym.
  pose proof (decoded_branchCount_positive index value) as Hpositive.
  cbv zeta in Hpositive.
  set (c := Chromosome._interpretChromosomeValue index value) in *.
  change (0 <= Chromosome.branchCount c < 2 ^ 2) in Hcount.
  change (0 <= Chromosome.symmetryBits c < 2 ^ 2) in Hsym.
  split.
  { repeat match goal with |- context [if ?b then _ else _] => destruct b end;
      lia. }
  intros Hterm. rewrite Hterm. specialize (Hpositive Hterm).
  unfold Chromosome._SYMMETRY_STRAIGHT_VALUE,
    Chromosome._SYMMETRY_SAME_HANDED_VALUE,
    Chromosome._SYMMETRY_OPPOSITE_HANDED_VALUE.
  set (sym := Chromosome.symmetryBits c) in *.
  set (count := Chromosome.branchCount c) in *. clearbody sym count.
  assert (Hcases : sym = 0 \/ sym = 1 \/ sym = 2 \/ sym = 3) by lia.
  destruct Hcases as [-> | [-> | [-> | ->]]];
    repeat match goal with
      | |- context [negb (?a =? 0)] =>
          let v := eval vm_compute in (negb (a =? 0)) in
          change (negb (a =? 0)) with v
      | |- context [?a =? 0] =>
          let v := eval vm_compute in (a =? 0) in
          change (a =? 0) with v
      end;
    cbv iota; lia.
Qed.

(** X9: a chromosome decoded from an integer sprouts at most 6 child
    positions from any parent position, and it sprouts none exactly when
    it is terminated. *)
Theorem decoded_children_between_one_and_six (index : nat) (value : Z)
  (parent : PenPosition.t) (pen : Pen) :
  let c := Chromosome._interpretChromosomeValue index value in
  let children := (Chromosome.childSegmentPositions c parent pen).1 in
  (List.length children <= 6)%nat
  /\ (children = [] <-> Chromosome.terminated c = true).
Proof.
  cbv zeta.
  destruct (decoded_children_count index value parent pen) as [Hmost Hleast].
  split; [exact Hmost |]. split.
  - intros Hnil.
    destruct (Chromosome.terminated _) eqn:Hterm; [reflexivity |].
    specialize (Hleast eq_refl). rewrite Hnil in Hleast. cbn in Hleast. lia.
  - intros Hterm. apply nil_length_inv.
    by rewrite childSegmentPositions_length, Hterm.
Qed.

Lemma display_returns (chromosomes : list Chromosome.t)
  (panel : CreaturePanel.t) (pen : Pen) :
  List.length chromosomes = Genotype.CHROMOSOME_COUNT ->
  exists result table,
    (Creature.growAndDraw chromosomes panel pen).1
    = (Creature.Returned result, table)
    /\ (Creature.display chromosomes panel pen).1 = Some result.
Proof.
  intros Hchs.
  destruct (growAndDraw_run chromosomes panel Hchs) as (result & table & Hrun).
  destruct (Hrun pen) as (Hresult & _).
  exists result, table. split; [exact Hresult |].
  unfold Creature.display. rewrite bind_unfold, Hresult. by cbn.
Qed.

(** X17: breeding a creature.  On a creature whose genotype has four
    chromosomes, [mutatedChild] returns a creature with a genotype of its
    own; the parent is displayed afterwards exactly as it was before, on
    every panel and from every pen; and displaying the child returns a
    boolean, it does not raise. *)
Theorem mutatedChild_leaves_parent_as_drawn (m : Mem) (self : Creature.t)
  (chs : list Chromosome.t) :
  Genotype.view m (Creature.genotype self) = Some chs ->
  List.length chs = Genotype.CHROMOSOME_COUNT ->
  exists child m',
    Creature.mutatedChild self m = Some (child, m')
    /\ Creature.genotype child <> Creature.genotype self
    /\ (forall panel pen,
          Creature.displayCreature m' self panel pen
          = Creature.displayCreature m self panel pen)
    /\ (forall panel pen,
        exists result,
          (Creature.displayCreature m' child panel pen).1 = Some result).
Proof.
  intros Hview Hchs.
  destruct (mutatedCopy_view m (Creature.genotype self) chs Hview Hchs)
    as (g & m' & flips & items & items' & chs' & Hrun & _ & _ & _
        & Hl & Hholds & Hfresh & Hframe & Hl' & Hholds' & Hchs' & _).
  exists {| Creature.genotype := g |}, m'.
  split.
  { unfold Creature.mutatedChild.
    by rewrite (bind_run_Some _ _ _ _ _ Hrun). }
  split; [cbn; intros Heq; rewrite Heq in Hfresh; congruence |].
  assert (Hparent : Genotype.view m' (Creature.genotype self) = Some chs).
  { apply view_Some. exists items. split; [by apply Hframe |].
    eapply Forall2_impl; [exact Hholds |].
    intros a c. unfold holds. apply Hframe. }
  assert (Hchild : Genotype.view m' g = Some chs')
    by (apply view_Some; by exists items').
  split.
  - intros panel pen. unfold Creature.displayCreature.
    by rewrite Hparent, Hview.
  - intros panel pen. unfold Creature.displayCreature.
    cbn [Creature.genotype]. rewrite Hchild.
    destruct (display_returns chs' panel pen Hchs') as (result & _ & _ & Hresult).
    by exists result.
Qed.

(** X18: a creature built without a genotype always has a first
    generation.  Building it succeeds in every store; displaying it, on
    any panel and from any pen, returns a boolean and does not raise; and
    row 0 of its table of pen positions holds between 1 and 6 positions,
    so such a creature is never rejected for want of generation-0
    segments. *)
Theorem random_creature_has_first_generation (m : Mem)
  (panel : CreaturePanel.t) (pen : Pen) :
  exists creature m' chs result table,
    Creature.__init__ None m = Some (creature, m')
    /\ Genotype.view m' (Creature.genotype creature) = Some chs
    /\ (Creature.displayCreature m' creature panel pen).1 = Some result
    /\ (Creature.growAndDraw chs panel pen).1 = (Creature.Returned result, table)
    /\ (1 <= List.length (Creature.row table 0) <= 6)%nat.
Proof.
  destruct (genotype_generated m)
    as (l & m' & items & chs & Hrun & _ & _ & _ & _ & Hview & [Hchs Hdecoded]
        & Hterm).
  destruct (display_returns chs panel pen Hchs)
    as (result & table & Hgrown & Hresult).
  exists {| Creature.genotype := {| Genotype.chromosomes := l |} |}, m', chs,
    result, table.
  split.
  { unfold Creature.__init__, Genotype.__init__.
    by rewrite (bind_run_Some _ _ _ _ _ Hrun). }
  split; [exact Hview |].
  split; [unfold Creature.displayCreature; cbn [Creature.genotype];
          by rewrite Hview |].
  split; [exact Hgrown |].
  destruct (lookup_lt_is_Some_2 chs 0%nat ltac:(rewrite Hchs; cbv; lia))
    as [first Hfirst].
  destruct (Creature.growAndDraw chs panel pen) as [[st table0] pen'] eqn:Hrun0.
  cbn [fst] in Hgrown. injection Hgrown as -> ->.
  destruct (growAndDraw_generations chs panel pen _ _ _ Hchs Hrun0)
    as [Hrow0 _].
  rewrite (Hrow0 first pen Hfirst).
  destruct (Hdecoded 0%nat first Hfirst) as [_ ->].
  destruct (decoded_children_count 0 (Chromosome.chromosomeValue first)
              (CreaturePanel.startingPenPosition panel) pen) as [Hmost Hleast].
  split; [| exact Hmost]. apply Hleast.
  destruct (Hdecoded 0%nat first Hfirst) as [_ <-].
  by apply (proj1 (Forall_forall _ _) Hterm first),
       (list_elem_of_lookup_2 _ 0%nat).
Qed.

End Creatures.

(** ** Further concrete runs on the lattice plane *)

Section FurtherRuns.
#[local] Existing Instance lattice.

(** A bilateral chromosome of two branches at 45 degrees, sprouting from
    the origin, heading up: the fourth child is the second of the
    left-handed pass, turned left twice. *)
Lemma branching_children_fan_out_witness :
  let c := Chromosome._interpretChromosomeValue 0 (gene 45 10 3 2 0) in
  let parent :=
    CreaturePanel.startingPenPosition (squarePanel (-100) (-100) 100 100) in
  let child :=
    {| PenPosition.chiralityRight := false; PenPosition.xPosition := 0;
       PenPosition.yPosition := 0; PenPosition.heading := 180 |} in
  Chromosome.terminated c = false
  /\ Chromosome.symmetryBits c <> Chromosome._SYMMETRY_STRAIGHT_VALUE
  /\ (Chromosome.childSegmentPositions c parent freshPen).1 !! 3%nat = Some child
  /\ savedPoint child = savedPoint parent
  /\ PenPosition.chiralityRight child
     = negb (PenPosition.chiralityRight parent)
  /\ PenPosition.heading child
     = Nat.iter 2 (fun h => rotate h (Chromosome.branchAngle c))
         (PenPosition.heading parent).
Proof.
  intros c parent child.
  assert (Hterm : Chromosome.terminated c = false) by reflexivity.
  assert (Hsym : Chromosome.symmetryBits c
                 <> Chromosome._SYMMETRY_STRAIGHT_VALUE) by discriminate.
  assert (Hchild : (Chromosome.childSegmentPositions c parent freshPen).1
                   !! 3%nat = Some child) by reflexivity.
  destruct (@branching_children_fan_out lattice c parent freshPen 3 child
              Hterm Hsym Hchild) as (Hpoint & _ & Hchirality & _ & Hheading).
  split; [exact Hterm |]. split; [exact Hsym |]. split; [exact Hchild |].
  split; [exact Hpoint |]. split; [exact Hchirality | exact Hheading].
Defined.

(** A dot of length 5 drawn from the origin, heading up: one dot of
    diameter 5 centred on (0, 2). *)
Lemma drawSingleSegment_marks_witness :
  let c := Chromosome._interpretChromosomeValue 0 (gene 0 5 0 1 1) in
  let panel := squarePanel (-100) (-100) 100 100 in
  let s := CreaturePanel.startingPenPosition panel in
  Chromosome.shape c = Chromosome._SHAPE_DOT_VALUE
  /\ canvas (Chromosome.drawSingleSegment c (Some panel) (Some s) freshPen).2
     = [Dot (0, 2) 5 "brown"].
Proof.
  intros c panel s.
  assert (Hshape : Chromosome.shape c = Chromosome._SHAPE_DOT_VALUE)
    by reflexivity.
  split; [exact Hshape |].
  rewrite (proj1 (proj2 (proj2 (@drawSingleSegment_marks lattice c panel s
                                  freshPen))) Hshape).
  reflexivity.
Defined.

(** A genotype whose chromosomes 0 and 1 are straight, of two and one
    branches of length 10, and whose chromosome 2 is terminated. *)
Lemma display_ignores_the_pen_witness :
  let chromosomes := chromosomesOf [gene 0 10 0 2 0; gene 0 10 0 1 0; 0; 0] in
  let panel := squarePanel (-100) (-100) 100 100 in
  List.length chromosomes = Genotype.CHROMOSOME_COUNT
  /\ exists result table,
       forall pen,
         (Creature.display chromosomes panel pen).1 = Some result
         /\ (Creature.growAndDraw chromosomes panel pen).1
            = (Creature.Returned result, table)
         /\ isdown (Creature.display chromosomes panel pen).2 = false.
Proof.
  intros chromosomes panel.
  assert (Hlen : List.length chromosomes = Genotype.CHROMOSOME_COUNT)
    by reflexivity.
  split; [exact Hlen |].
  exact (@display_ignores_the_pen lattice chromosomes panel Hlen).
Defined.

(** The same genotype: two strokes for chromosome 0, then two for
    chromosome 1. *)
Lemma display_draws_chromosome_by_chromosome_witness :
  let chromosomes := chromosomesOf [gene 0 10 0 2 0; gene 0 10 0 1 0; 0; 0] in
  let panel := squarePanel (-100) (-100) 100 100 in
  let r := Creature.growAndDraw chromosomes panel freshPen in
  List.length chromosomes = Genotype.CHROMOSOME_COUNT
  /\ r.1.1 = Creature.Returned true
  /\ canvas r.2
     = [Stroke (0, 0) (0, 10) "brown" 0; Stroke (0, 10) (0, 20) "brown" 0;
        Stroke (0, 10) (0, 20) "brown" 0; Stroke (0, 20) (0, 30) "brown" 0].
Proof.
  intros chromosomes panel r.
  assert (Hlen : List.length chromosomes = Genotype.CHROMOSOME_COUNT)
    by reflexivity.
  assert (Hrun : Creature.growAndDraw chromosomes panel freshPen
                 = (r.1.1, r.1.2, r.2))
    by (unfold r;
        by destruct (Creature.growAndDraw chromosomes panel freshPen)
             as [[? ?] ?]).
  split; [exact Hlen |]. split; [reflexivity |].
  rewrite (@display_draws_chromosome_by_chromosome lattice chromosomes panel
             freshPen _ _ _ Hlen Hrun).
  reflexivity.
Defined.

(** The same genotype: row 1 is what the two segments of row 0 sprout
    with chromosome 1, one position each, at (0, 10) and (0, 20). *)
Lemma display_table_generations_witness :
  let chromosomes := chromosomesOf [gene 0 10 0 2 0; gene 0 10 0 1 0; 0; 0] in
  let panel := squarePanel (-100) (-100) 100 100 in
  let r := Creature.growAndDraw chromosomes panel freshPen in
  let c0 := Chromosome._interpretChromosomeValue 0 (gene 0 10 0 2 0) in
  let c1 := Chromosome._interpretChromosomeValue 1 (gene 0 10 0 1 0) in
  List.length chromosomes = Genotype.CHROMOSOME_COUNT
  /\ r.1.1 = Creature.Returned true
  /\ chromosomes !! 0%nat = Some c0
  /\ chromosomes !! 1%nat = Some c1
  /\ savedPoint <$> Creature.row r.1.2 1 = [(0, 10); (0, 20)]
  /\ Creature.row r.1.2 1
     = flat_map (sprouted c0 c1 panel freshPen) (Creature.row r.1.2 0).
Proof.
  intros chromosomes panel r c0 c1.
  assert (Hlen : List.length chromosomes = Genotype.CHROMOSOME_COUNT)
    by reflexivity.
  assert (Hrun : Creature.growAndDraw chromosomes panel freshPen
                 = (r.1.1, r.1.2, r.2))
    by (unfold r;
        by destruct (Creature.growAndDraw chromosomes panel freshPen)
             as [[? ?] ?]).
  assert (Htrue : r.1.1 = Creature.Returned true) by reflexivity.
  assert (Hc0 : chromosomes !! 0%nat = Some c0) by reflexivity.
  assert (Hc1 : chromosomes !! 1%nat = Some c1) by reflexivity.
  split; [exact Hlen |]. split; [exact Htrue |]. split; [exact Hc0 |].
  split; [exact Hc1 |]. split; [reflexivity |].
  exact (proj2 (@display_table_generations lattice chromosomes panel freshPen
                  _ _ _ Hlen Hrun) Htrue 0%nat c0 c1 freshPen Hc0 Hc1).
Defined.

Lemma chromosomesOf_wellFormed (values : list Z) :
  List.length values = Genotype.CHROMOSOME_COUNT ->
  Forall (fun value => 0 <= value < 2 ^ 32) values ->
  wellFormed (chromosomesOf values).
Proof.
  intros Hlen Hvalues. unfold chromosomesOf. split; [by rewrite length_imap |].
  intros i c Hc. rewrite list_lookup_imap in Hc.
  destruct (values !! i) as [value |] eqn:Hvalue; [| discriminate].
  injection Hc as <-. split; [| reflexivity].
  exact (proj1 (Forall_lookup _ _) Hvalues i value Hvalue).
Qed.

(** A store whose random source draws 0, 1, 2, ...: the child of the
    stored genotype is well formed. *)
Lemma mutatedCopy_keeps_well_formed_witness :
  let values := [0x00010280; 0x00010280; 0; 0] in
  let m := storeOf values (fun n => Z.of_nat n) in
  Genotype.view m storedGenotype = Some (chromosomesOf values)
  /\ wellFormed (chromosomesOf values)
  /\ exists child m' chs',
       Genotype.mutatedCopy storedGenotype m = Some (child, m')
       /\ Genotype.view m' child = Some chs'
       /\ wellFormed chs'.
Proof.
  intros values m.
  assert (Hview : Genotype.view m storedGenotype = Some (chromosomesOf values))
    by (vm_compute; reflexivity).
  assert (Hwf : wellFormed (chromosomesOf values)).
  { apply chromosomesOf_wellFormed; [reflexivity |].
    repeat constructor; lia. }
  split; [exact Hview |]. split; [exact Hwf |].
  exact (mutatedCopy_keeps_well_formed m storedGenotype (chromosomesOf values)
           Hview Hwf).
Defined.

(** The list of four chromosomes of the stored genotype is kept; an empty
    list is set aside and four chromosomes are generated. *)
Lemma genotype_keeps_four_or_regenerates_witness :
  let m := storeOf [0x00010280; 0x00010280; 0; 0] (fun n => Z.of_nat n) in
  let m0 := {| objects := {[1%positive := ListObj []]};
               rng := {| draws := fun n => Z.of_nat n; cursor := 0 |} |} in
  (objects m !! 5%positive = Some (ListObj [1; 2; 3; 4]%positive)
   /\ Genotype.__init__ (Some 5%positive) m = Some (storedGenotype, m))
  /\ (objects m0 !! 1%positive = Some (ListObj [])
      /\ exists g m' chs,
           Genotype.__init__ (Some 1%positive) m0 = Some (g, m')
           /\ Genotype.chromosomes g <> 1%positive
           /\ Genotype.view m' g = Some chs
           /\ List.length chs = Genotype.CHROMOSOME_COUNT).
Proof.
  intros m m0.
  assert (Hl : objects m !! 5%positive = Some (ListObj [1; 2; 3; 4]%positive))
    by (vm_compute; reflexivity).
  assert (Hl0 : objects m0 !! 1%positive = Some (ListObj []))
    by (vm_compute; reflexivity).
  split.
  - split; [exact Hl |].
    exact (proj1 (genotype_keeps_four_or_regenerates m 5%positive _ Hl)
             eq_refl).
  - split; [exact Hl0 |].
    destruct (proj2 (genotype_keeps_four_or_regenerates m0 1%positive _ Hl0)
                ltac:(discriminate))
      as (g & m' & items' & chs & Hrun & Hne & _ & _ & _ & Hview & Hchs & _).
    by exists g, m', chs.
Defined.

(** Breeding the creature of the stored genotype. *)
Lemma mutatedChild_leaves_parent_as_drawn_witness :
  let values := [0x00010280; 0x00010280; 0; 0] in
  let m := storeOf values (fun n => Z.of_nat n) in
  let self := {| Creature.genotype := storedGenotype |} in
  Genotype.view m (Creature.genotype self) = Some (chromosomesOf values)
  /\ List.length (chromosomesOf values) = Genotype.CHROMOSOME_COUNT
  /\ exists child m',
       Creature.mutatedChild self m = Some (child, m')
       /\ Creature.genotype child <> Creature.genotype self
       /\ forall panel pen,
            Creature.displayCreature m' self panel pen
            = Creature.displayCreature m self panel pen.
Proof.
  intros values m self.
  assert (Hview : Genotype.view m (Creature.genotype self)
                  = Some (chromosomesOf values))
    by (vm_compute; reflexivity).
  assert (Hlen : List.length (chromosomesOf values) = Genotype.CHROMOSOME_COUNT)
    by reflexivity.
  split; [exact Hview |]. split; [exact Hlen |].
  destruct (@mutatedChild_leaves_parent_as_drawn lattice m self
              (chromosomesOf values) Hview Hlen)
    as (child & m' & Hrun & Hne & Hparent & _).
  by exists child, m'.
Defined.

End FurtherRuns.

(** ** Saved positions, the tested point and the size of a drawing *)

Section Totals.
Context {P : Plane}.

(** X19: a clone of a saved position is equal to it wherever the pen is
    at the time, and cloning leaves the pen as it was: the position the
    constructor saves is overwritten.  Flipping the chirality twice gives
    the position back, and a flipped position restores the pen to the same
    place. *)
Theorem clone_copies_whatever_the_pen (s : PenPosition.t) (pen : Pen) :
  PenPosition.clone s pen = (s, pen)
  /\ PenPosition.flipChirality (PenPosition.flipChirality s) = s
  /\ PenPosition.restore (PenPosition.flipChirality s) pen
     = PenPosition.restore s pen.
Proof.
  destruct s as [chirality x y h]. split; [reflexivity |].
  split; [| reflexivity].
  unfold PenPosition.flipChirality. cbn. by rewrite negb_involutive.
Qed.

(** X20: the bounds test looks at one point only.  For a line it is the
    end of the segment, tested against the panel's interior edges; for any
    other shape it is the centre, half the length (rounded down) along,
    tested against the edges moved inwards by that radius.  A point on an
    edge counts as out of bounds, and the start of the segment is not
    tested.  With no panel or no position the test answers [True] and the
    drawing does nothing; neither touches the pen. *)
Theorem segmentOutOfBounds_tests_one_point (c : Chromosome.t)
  (panel : CreaturePanel.t) (s : PenPosition.t) (pen : Pen) :
  let radius := Z.shiftr (Chromosome.length c) 1 in
  let line := Chromosome.shape c =? Chromosome._SHAPE__LINE_VALUE in
  let tested :=
    advance (savedPoint s) (PenPosition.heading s)
      (if line then Chromosome.length c else radius) in
  let inset := fun (edge : coord) (inwards : coord -> Z -> coord) =>
    if line then edge else inwards edge radius in
  (Chromosome.segmentOutOfBounds c (Some panel) (Some s) pen).1
  = (coord_le tested.1 (inset (CreaturePanel.interiorLeftX panel) coord_add)
     || coord_le (inset (CreaturePanel.interiorRightX panel) coord_sub) tested.1
     || coord_le tested.2 (inset (CreaturePanel.interiorBottomY panel) coord_add)
     || coord_le (inset (CreaturePanel.interiorTopY panel) coord_sub) tested.2)
  /\ Chromosome.segmentOutOfBounds c None (Some s) pen = (true, pen)
  /\ Chromosome.segmentOutOfBounds c (Some panel) None pen = (true, pen)
  /\ Chromosome.drawSingleSegment c None (Some s) pen = (tt, pen)
  /\ Chromosome.drawSingleSegment c (Some panel) None pen = (tt, pen).
Proof.
  cbv zeta. split; [| by repeat split].
  unfold Chromosome.segmentOutOfBounds. run_pen.
  destruct (Chromosome.shape c =? _); run_pen;
    match goal with |- context [if ?b then _ else _] => destruct b end;
    reflexivity.
Qed.

Lemma length_segmentMarks (c : Chromosome.t) (segments : list PenPosition.t) :
  (List.length (flat_map (segmentMarks c) segments)
   <= 3 * List.length segments)%nat.
Proof.
  induction segments as [| s segments IH]; [done |].
  cbn [flat_map]. rewrite length_app. cbn [List.length].
  assert (List.length (segmentMarks c s) <= 3)%nat; [| lia].
  unfold segmentMarks.
  repeat match goal with |- context [if ?b then _ else _] => destruct b end;
    cbn; lia.
Qed.

(** X21: the size of a drawn creature.  When [display] returns [True] on
    a genotype of four chromosomes, row 0 of its table of pen positions is
    not empty and no row holds more than 32 positions, so between 1 and
    128 segments were drawn; and the canvas has grown by at most three
    marks for each of them. *)
Theorem drawn_creature_size (chromosomes : list Chromosome.t)
  (panel : CreaturePanel.t) (pen : Pen) table pen' :
  List.length chromosomes = Genotype.CHROMOSOME_COUNT ->
  Creature.growAndDraw chromosomes panel pen
  = ((Creature.Returned true, table), pen') ->
  let segments :=
    (List.length (Creature.row table 0) + List.length (Creature.row table 1)
     + List.length (Creature.row table 2) + List.length (Creature.row table 3))%nat in
  (1 <= List.length (Creature.row table 0))%nat
  /\ (forall chromosomeNumber,
        (List.length (Creature.row table chromosomeNumber)
         <= Creature._MAX_CHROMOSOME_SEGMENTS)%nat)
  /\ (1 <= segments <= 4 * Creature._MAX_CHROMOSOME_SEGMENTS)%nat
  /\ (List.length (canvas pen) <= List.length (canvas pen')
      <= List.length (canvas pen) + 3 * segments)%nat.
Proof.
  intros Hchs Hrun0. cbv zeta.
  destruct (growAndDraw_spec chromosomes panel pen _ _ _ Hchs Hrun0)
    as (result & [= <-] & _ & _ & Hrows & Hfirst).
  specialize (Hrows eq_refl).
  assert (Hrow0 : (1 <= List.length (Creature.row table 0))%nat).
  { destruct (Creature.row table 0) as [| s row0] eqn:Hnil; [| cbn; lia].
    destruct (Hfirst 0%nat ltac:(lia) ltac:(intros k Hk; lia) Hnil)
      as [Hfalse _].
    discriminate. }
  assert (Hmost : forall k, (List.length (Creature.row table k) <= 32)%nat)
    by (intros k; apply Hrows).
  split; [exact Hrow0 |]. split; [exact Hmost |].
  unfold Creature._MAX_CHROMOSOME_SEGMENTS.
  split.
  { pose proof (Hmost 0%nat). pose proof (Hmost 1%nat).
    pose proof (Hmost 2%nat). pose proof (Hmost 3%nat). lia. }
  destruct (growAndDraw_run chromosomes panel Hchs) as (result & table0 & Hrun).
  destruct (Hrun pen) as (Hresult & _ & Hcanvas).
  rewrite Hrun0 in Hresult, Hcanvas. cbn [fst snd] in Hresult, Hcanvas.
  injection Hresult as <- <-. rewrite Hcanvas, length_app.
  split; [lia |].
  assert (Hmarks : forall n,
            (List.length
               match chromosomes !! n with
               | Some c => flat_map (segmentMarks c) (Creature.row table n)
               | None => []
               end
             <= 3 * List.length (Creature.row table n))%nat).
  { intros n. destruct (chromosomes !! n) as [c |];
      [apply length_segmentMarks | cbn; lia]. }
  unfold creatureMarks. cbn [seq Genotype.CHROMOSOME_COUNT flat_map].
  rewrite !length_app. cbn [List.length].
  pose proof (Hmarks 0%nat). pose proof (Hmarks 1%nat).
  pose proof (Hmarks 2%nat). pose proof (Hmarks 3%nat). lia.
Qed.

End Totals.

Section TotalsRuns.
#[local] Existing Instance lattice.

(** A creature of two generations of straight segments: four strokes. *)
Lemma drawn_creature_size_witness :
  let chromosomes := chromosomesOf [gene 0 10 0 2 0; gene 0 10 0 1 0; 0; 0] in
  let panel := squarePanel (-100) (-100) 100 100 in
  let r := Creature.growAndDraw chromosomes panel freshPen in
  List.length chromosomes = Genotype.CHROMOSOME_COUNT
  /\ r.1.1 = Creature.Returned true
  /\ (1 <= List.length (Creature.row r.1.2 0))%nat
  /\ (List.length (canvas r.2)
      <= 3 * (List.length (Creature.row r.1.2 0)
              + List.length (Creature.row r.1.2 1)
              + List.length (Creature.row r.1.2 2)
              + List.length (Creature.row r.1.2 3)))%nat.
Proof.
  intros chromosomes panel r.
  assert (Hlen : List.length chromosomes = Genotype.CHROMOSOME_COUNT)
    by reflexivity.
  assert (Htrue : r.1.1 = Creature.Returned true) by reflexivity.
  assert (Hrun : Creature.growAndDraw chromosomes panel freshPen
                 = (Creature.Returned true, r.1.2, r.2)).
  { rewrite <- Htrue. unfold r.
    by destruct (Creature.growAndDraw chromosomes panel freshPen)
         as [[? ?] ?]. }
  destruct (@drawn_creature_size lattice chromosomes panel freshPen _ _ Hlen
              Hrun) as (Hrow0 & _ & _ & _ & Hcanvas).
  split; [exact Hlen |]. split; [exact Htrue |]. split; [exact Hrow0 |].
  exact Hcanvas.
Defined.

End TotalsRuns.
